(** * gnuplot_i.hpp: the session layer of the C++ interface to gnuplot

    A shallow embedding of [class Gnuplot] (src/gnuplot_i.hpp): the session
    record, the static members, the part of the operating system the class
    talks to (files by path, the pipe to the child, the environment), and
    the member functions: [cmd] and the settings and function plots that
    only send lines, [set_style], [set_smooth], [set_GNUPlotPath],
    [set_terminal_std], [showonscreen], [reset_plot], [reset_all],
    [file_exists], [file_available], [plotfile_x], [plotfile_xy],
    [plotfile_xy_err], [plotfile_xyz], [plot_x], [plot_xy], [plot_xy_err],
    [plot_xyz], [plot_image], [replot], [create_tmpfile], [remove_tmpfiles],
    [stringtok], [get_program_path], [init] and the constructors, followed by
    the properties proved about them.

    Conventions.  An [int] is a [Z] and every result stored in one goes
    through [wrap_int]; an [unsigned int] goes through [wrap_uint].  A
    [double] is a float, or the NaN whose sign bit is set.  A member
    function is a computation in [M]: it takes the state, returns a value or
    throws, and leaves a state either way.  A loop whose counter can wrap
    before it reaches its bound is followed for a number of tests, and so is
    the function that runs it: [None] says that it has not returned by then.
    What the operating system decides (the name the unique-name primitive
    picks, whether a stream or a pipe can be opened, the permissions of a
    file it creates, the environment) is an argument of the function that
    asks for it.  Files are kept by path; no other process touches them. *)

From Stdlib Require Import ZArith String Ascii List Bool Lia DecimalString Floats.
From stdpp Require Import gmap strings list.

Open Scope string_scope.
Open Scope Z_scope.

(** [String.append] unfolds under [simpl] again, as before stdpp. *)
#[local] Arguments String.append !_ _ / : simpl nomatch.

#[local] Set Warnings "-clear-no-such-hyp".

(** ** std::string *)

(** The two characters the sources write with an escape. *)
Definition nl : string := String "010"%char EmptyString.
Definition dq : string := String "034"%char EmptyString.

(** [s.find(t)], searching from position 0; [None] is [std::string::npos]. *)
Definition find (s t : string) : option nat := String.index 0 t s.

Definition not_npos (r : option nat) : bool :=
  match r with Some _ => true | None => false end.

(** [s.empty()]. *)
Definition empty (s : string) : bool :=
  match s with EmptyString => true | String _ _ => false end.

(** [s.c_str()] as a C function reads it: the characters before the first
    NUL. *)
Fixpoint c_str (s : string) : string :=
  match s with
  | EmptyString => EmptyString
  | String c r => if Ascii.eqb c "000"%char then EmptyString else String c (c_str r)
  end.

(** [os << n] for an [unsigned int]: decimal digits. *)
Definition show_uint (n : N) : string := NilZero.string_of_uint (N.to_uint n).

(** ** int *)

Definition INT_MAX : Z := 2147483647.
Definition INT_MIN : Z := -2147483648.

(** A 32-bit two's complement [int]: the value an arithmetic result is
    stored as. *)
Definition wrap_int (z : Z) : Z := (z + 2 ^ 31) mod 2 ^ 32 - 2 ^ 31.

Definition is_int (z : Z) : Prop := INT_MIN <= z <= INT_MAX.

(** An [unsigned int]: 32 bits, and the value an arithmetic result is stored
    as. *)
Definition UINT_MAX : Z := 4294967295.

Definition wrap_uint (z : Z) : Z := z mod 2 ^ 32.

(** ** Platform *)

(** The two branches of the header's [#if]: Windows, and unix or Apple. *)
Inductive platform : Set := Win32 | Unix.

Definition GP_MAX_TMP_FILES (os : platform) : Z :=
  match os with Win32 => 27 | Unix => 64 end.

(** ** The process: static members and the files it can see *)

(** A file as [access], [remove] and the streams observe it. *)
Record file : Type := File {
  contents : string;
  f_read : bool;
  f_write : bool;
  f_exec : bool
}.

Record Process : Type := MkProcess {
  tmpfile_num : Z;                 (* static int Gnuplot::tmpfile_num *)
  m_sGNUPlotFileName : string;     (* static std::string *)
  m_sGNUPlotPath : string;         (* static std::string *)
  fs : gmap string file            (* the files, by path *)
}.

(** ** The session: the data members of [class Gnuplot] *)

Record Gnuplot : Type := MkGnuplot {
  gnucmd : string;                 (* FILE *gnucmd: what the pipe has received *)
  valid : bool;
  two_dim : bool;
  nplots : Z;                      (* int *)
  pstyle : string;
  smooth : string;
  tmpfile_list : list string       (* std::vector<std::string> *)
}.

(** A member function runs on the process and on [*this]. *)
Record Machine : Type := MkMachine {
  proc : Process;
  self : Gnuplot
}.

(** ** Exceptions and state *)

Inductive exn : Type :=
| GnuplotException (what : string)
| runtime_error (what : string).

Inductive outcome (A : Type) : Type :=
| Normal (a : A)
| Raise (e : exn).
Arguments Normal {A} a.
Arguments Raise {A} e.

(** A computation on a state [S]: it returns or throws, and the state it
    leaves is kept either way (a C++ exception undoes no assignment). *)
Definition M (S A : Type) : Type := S -> outcome A * S.

Definition ret {S A} (a : A) : M S A := fun s => (Normal a, s).
Definition throw {S A} (e : exn) : M S A := fun s => (Raise e, s).
Definition bind {S A B} (c : M S A) (k : A -> M S B) : M S B :=
  fun s => match c s with
           | (Normal a, s') => k a s'
           | (Raise e, s') => (Raise e, s')
           end.
Definition get {S} : M S S := fun s => (Normal s, s).
Definition put {S} (s : S) : M S unit := fun _ => (Normal tt, s).

Notation "x <- c ;; k" := (bind c (fun x => k))
  (at level 100, c at next level, right associativity).
Notation "c ;;; k" := (bind c (fun _ => k))
  (at level 100, right associativity).

(** A call that is followed for a bounded number of steps gives [None] when
    it has not returned by then; this is a call that returns. *)
Definition returns {St A : Type} (c : M St A) : M St (option A) :=
  a <- c ;; ret (Some a).

(** A static member function, run from inside a member function. *)
Definition static {A} (c : M Process A) : M Machine A :=
  fun st => let '(r, p) := c (proc st) in (r, MkMachine p (self st)).

(** A member function that touches the data members only. *)
Definition member {A} (c : M Gnuplot A) : M Machine A :=
  fun st => let '(r, g) := c (self st) in (r, MkMachine (proc st) g).

(** ** Gnuplot::cmd *)

Definition fputs (s : string) (g : Gnuplot) : Gnuplot :=
  MkGnuplot (gnucmd g ++ s) (valid g) (two_dim g) (nplots g) (pstyle g)
            (smooth g) (tmpfile_list g).

(** [two_dim = d; nplots++;] *)
Definition count_plot (d : bool) (g : Gnuplot) : Gnuplot :=
  MkGnuplot (gnucmd g) (valid g) d (wrap_int (nplots g + 1)) (pstyle g)
            (smooth g) (tmpfile_list g).

Definition cmd_self (cmdstr : string) : M Gnuplot unit :=
  g <- get ;;
  if negb (valid g) then ret tt
  else
    put (fputs (c_str (cmdstr ++ nl)) g) ;;;
    if not_npos (find cmdstr "replot") then ret tt
    else if not_npos (find cmdstr "splot") then
      g <- get ;; put (count_plot false g)
    else if not_npos (find cmdstr "plot") then
      g <- get ;; put (count_plot true g)
    else ret tt.

Definition cmd (cmdstr : string) : M Machine unit := member (cmd_self cmdstr).

(** ** Gnuplot::set_style, Gnuplot::set_smooth *)

Definition set_style (stylestr : string) : M Gnuplot unit :=
  g <- get ;;
  if negb (String.eqb (pstyle g) stylestr) && negb (empty stylestr) then
    put (MkGnuplot (gnucmd g) (valid g) (two_dim g) (nplots g) stylestr
                   (smooth g) (tmpfile_list g))
  else ret tt.

Definition assign_smooth (s : string) (g : Gnuplot) : Gnuplot :=
  MkGnuplot (gnucmd g) (valid g) (two_dim g) (nplots g) (pstyle g) s
            (tmpfile_list g).

Definition set_smooth (stylestr : string) : M Gnuplot unit :=
  g <- get ;;
  if negb (not_npos (find stylestr "unique")) &&
     negb (not_npos (find stylestr "frequency")) &&
     negb (not_npos (find stylestr "csplines")) &&
     negb (not_npos (find stylestr "bezier"))
  then put (assign_smooth "" g)          (* smooth.clear() *)
  else put (assign_smooth stylestr g).

(** ** Files: access, Gnuplot::file_exists, Gnuplot::file_available *)

(** [access(path, mode) == 0]: the file is there and grants every permission
    [mode] asks for (1 execute, 2 write, 4 read; 0 asks for none). *)
Definition access (files : gmap string file) (path : string) (mode : Z) : bool :=
  match files !! path with
  | None => false
  | Some f =>
      (negb (Z.testbit mode 0) || f_exec f) &&
      (negb (Z.testbit mode 1) || f_write f) &&
      (negb (Z.testbit mode 2) || f_read f)
  end.

Definition file_exists (filename : string) (mode : Z) : M Process bool :=
  if (mode <? 0) || (7 <? mode) then
    throw (runtime_error
             ("In function " ++ dq ++ "Gnuplot::file_exists" ++ dq ++
              ": mode                has to be an integer between 0 and 7"))
  else
    p <- get ;; ret (access (fs p) (c_str filename) mode).

Definition file_available (filename : string) : M Process bool :=
  there <- file_exists filename 0 ;;
  if there then
    readable <- file_exists filename 4 ;;
    if negb readable then
      throw (GnuplotException
               ("No read permission for File " ++ dq ++ filename ++ dq))
    else ret true
  else
    throw (GnuplotException ("File " ++ dq ++ filename ++ dq ++ " does not exist")).

(** ** Gnuplot::set_GNUPlotPath *)

(** The mode of the check for the plotter: existence on Windows, existence
    and execute permission elsewhere. *)
Definition program_mode (os : platform) : Z :=
  match os with Win32 => 0 | Unix => 1 end.

Definition assign_GNUPlotPath (path : string) (p : Process) : Process :=
  MkProcess (tmpfile_num p) (m_sGNUPlotFileName p) path (fs p).

Definition set_GNUPlotPath (os : platform) (path : string) : M Process bool :=
  p <- get ;;
  let tmp := path ++ "/" ++ m_sGNUPlotFileName p in
  found <- file_exists tmp (program_mode os) ;;
  if found then
    p <- get ;; put (assign_GNUPlotPath path p) ;;; ret true
  else
    p <- get ;; put (assign_GNUPlotPath "" p) ;;; ret false.

(** ** Gnuplot::plotfile_x, plotfile_xy, plotfile_xy_err, plotfile_xyz *)

(** [std::ostringstream cmdstr; cmdstr << a << b ...]: the pieces in the order
    they are written. *)
Definition sstream (pieces : list string) : string :=
  fold_left String.append pieces "".

Definition plotfile_x (filename : string) (column : N) (title : string)
  : M Machine unit :=
  static (file_available filename) ;;;
  st <- get ;;
  let g := self st in
  let verb := if (0 <? nplots g) && Bool.eqb (two_dim g) true
              then "replot " else "plot " in
  let source := [dq; filename; dq ++ " using "; show_uint column] in
  let ttl := if empty title then [" notitle "]
             else [" title " ++ dq; title; dq ++ " "] in
  let tail := if empty (smooth g) then ["with "; pstyle g]
              else ["smooth "; smooth g] in
  cmd (sstream ([verb] ++ source ++ ttl ++ tail)).

Definition plotfile_xy (filename : string) (column_x column_y : N)
  (title : string) : M Machine unit :=
  static (file_available filename) ;;;
  st <- get ;;
  let g := self st in
  let verb := if (0 <? nplots g) && Bool.eqb (two_dim g) true
              then "replot " else "plot " in
  let source := [dq; filename; dq ++ " using "; show_uint column_x; ":";
                show_uint column_y] in
  let ttl := if empty title then [" notitle "]
             else [" title " ++ dq; title; dq ++ " "] in
  let tail := if empty (smooth g) then ["with "; pstyle g]
              else ["smooth "; smooth g] in
  cmd (sstream ([verb] ++ source ++ ttl ++ tail)).

Definition plotfile_xy_err (filename : string) (column_x column_y column_dy : N)
  (title : string) : M Machine unit :=
  static (file_available filename) ;;;
  st <- get ;;
  let g := self st in
  let verb := if (0 <? nplots g) && Bool.eqb (two_dim g) true
              then "replot " else "plot " in
  let source := [dq; filename; dq ++ " using "; show_uint column_x; ":";
                show_uint column_y; ":"; show_uint column_dy;
                " with errorbars "] in
  let ttl := if empty title then [" notitle "]
             else [" title " ++ dq; title; dq ++ " "] in
  cmd (sstream ([verb] ++ source ++ ttl)).

Definition plotfile_xyz (filename : string) (column_x column_y column_z : N)
  (title : string) : M Machine unit :=
  static (file_available filename) ;;;
  st <- get ;;
  let g := self st in
  let verb := if (0 <? nplots g) && Bool.eqb (two_dim g) false
              then "replot " else "splot " in
  let source := [dq; filename; dq ++ " using "; show_uint column_x; ":";
                show_uint column_y; ":"; show_uint column_z] in
  let ttl := if empty title then [" notitle with "; pstyle g]
             else [" title " ++ dq; title; dq ++ " with "; pstyle g] in
  cmd (sstream ([verb] ++ source ++ ttl)).

(** ** std::ofstream *)

(** The stream's target (the path it is open on, if any) and the two state
    bits the class reads.  Characters are taken to reach the file as they are
    written: the class reads a file back only after [close()].  The contents
    are the characters the program writes (a Windows text stream puts a
    carriage return before each newline on disk). *)
Record ofstream : Type := MkOfstream {
  sink : option string;
  failbit : bool;
  badbit : bool
}.

(** [std::ofstream tmp;] *)
Definition default_ofstream : ofstream := MkOfstream None false false.

Definition assign_fs (files : gmap string file) (p : Process) : Process :=
  MkProcess (tmpfile_num p) (m_sGNUPlotFileName p) (m_sGNUPlotPath p) files.

(** What opening [name] for output leaves at that path: an existing file
    truncated, or the empty file [fresh] that the system creates. *)
Definition truncated (fresh : file) (old : option file) : file :=
  match old with
  | Some f => File "" (f_read f) (f_write f) (f_exec f)
  | None => fresh
  end.

(** [tmp.open(name)]: [rdbuf()->open()], then [clear()] if that worked and
    [setstate(failbit)] if not.  [can_open] is the system's answer; a stream
    that is already open is not opened again. *)
Definition ofstream_open (can_open : bool) (fresh : file) (name : string)
  (tmp : ofstream) : M Process ofstream :=
  match sink tmp with
  | Some _ => ret (MkOfstream (sink tmp) true (badbit tmp))
  | None =>
      if can_open then
        p <- get ;;
        put (assign_fs (<[name := truncated fresh (fs p !! name)]> (fs p)) p) ;;;
        ret (MkOfstream (Some name) false false)
      else ret (MkOfstream None true (badbit tmp))
  end.

Definition append_contents (s : string) (f : file) : file :=
  File (contents f ++ s) (f_read f) (f_write f) (f_exec f).

(** [tmp << s]: nothing is written through a stream whose state is not good;
    a stream with no open file fails the write. *)
Definition ofstream_write (s : string) (tmp : ofstream) : M Process ofstream :=
  if failbit tmp || badbit tmp then ret (MkOfstream (sink tmp) true (badbit tmp))
  else
    match sink tmp with
    | None => ret (MkOfstream None (failbit tmp) true)
    | Some name =>
        p <- get ;;
        put (assign_fs (alter (append_contents s) name (fs p)) p) ;;;
        ret tmp
    end.

(** [tmp.flush(); tmp.close();] *)
Definition ofstream_close (tmp : ofstream) : ofstream :=
  match sink tmp with
  | Some _ => MkOfstream None (failbit tmp) (badbit tmp)
  | None => MkOfstream None true (badbit tmp)
  end.

(** ** Gnuplot::create_tmpfile *)

(** What the system answers during one call: the six characters the
    unique-name primitive puts in place of [XXXXXX] ([None] when it fails),
    whether the stream can then be opened, and the permissions of the file
    the call creates, which are what the creation mask of the process leaves
    of read and write. *)
Record tmp_oracle : Type := MkOracle {
  unique_suffix : option string;
  can_open : bool;
  created_read : bool;
  created_write : bool
}.

(** The file the call creates: empty, with these permissions, and not to be
    executed. *)
Definition new_tmpfile (o : tmp_oracle) : file :=
  File "" (created_read o) (created_write o) false.

(** [char name[]] without its six [X]. *)
Definition tmp_stem (os : platform) : string :=
  match os with Win32 => "gnuploti" | Unix => "/tmp/gnuploti" end.

Definition tmp_template (os : platform) : string := tmp_stem os ++ "XXXXXX".

(** [mkstemp(name)] (unix: the file [fresh] is created, with what the
    creation mask leaves of mode 0600, and the descriptor closed at once) and
    [_mktemp(name)] (Windows: a name only).  Both give a name that no
    existing file has, or fail. *)
Definition unique_name (os : platform) (suffix : option string) (fresh : file)
  : M Process (option string) :=
  match suffix with
  | None => ret None
  | Some sfx =>
      p <- get ;;
      let name := c_str (tmp_stem os ++ sfx) in
      if negb (Nat.eqb (String.length sfx) 6) then ret None
      else
        match fs p !! name with
        | Some _ => ret None
        | None =>
            match os with
            | Win32 => ret (Some name)
            | Unix =>
                put (assign_fs (<[name := fresh]> (fs p)) p) ;;;
                ret (Some name)
            end
        end
  end.

Definition assign_tmpfile_num (n : Z) (p : Process) : Process :=
  MkProcess n (m_sGNUPlotFileName p) (m_sGNUPlotPath p) (fs p).

Definition push_back_tmpfile (name : string) (g : Gnuplot) : Gnuplot :=
  MkGnuplot (gnucmd g) (valid g) (two_dim g) (nplots g) (pstyle g) (smooth g)
            (tmpfile_list g ++ [name]).

(** [os << n] for an [int]. *)
Definition show_int (z : Z) : string :=
  if z <? 0 then "-" ++ show_uint (Z.to_N (- z)) else show_uint (Z.to_N z).

(** The stream is passed by reference: the state it is left in is returned
    with the name. *)
Definition create_tmpfile (os : platform) (o : tmp_oracle) (tmp : ofstream)
  : M Machine (string * ofstream) :=
  st <- get ;;
  if tmpfile_num (proc st) =? GP_MAX_TMP_FILES os - 1 then
    throw (GnuplotException
             (sstream ["Maximum number of temporary files reached (";
                       show_int (GP_MAX_TMP_FILES os);
                       "): cannot open more files"; nl]))
  else
    r <- static (unique_name os (unique_suffix o) (new_tmpfile o)) ;;
    match r with
    | None =>
        throw (GnuplotException
                 (sstream ["Cannot create temporary file " ++ dq;
                           tmp_template os; dq]))
    | Some name =>
        tmp' <- static (ofstream_open (can_open o) (new_tmpfile o) name tmp) ;;
        if badbit tmp' then
          throw (GnuplotException
                   (sstream ["Cannot create temporary file " ++ dq; name; dq]))
        else
          member (g <- get ;; put (push_back_tmpfile name g)) ;;;
          static (p <- get ;;
                  put (assign_tmpfile_num (wrap_int (tmpfile_num p + 1)) p)) ;;;
          ret (name, tmp')
    end.

(** ** Gnuplot::remove_tmpfiles *)

(** [remove(path)]: 0 when the file was there and is now gone, -1 if not. *)
Definition remove (path : string) : M Process Z :=
  p <- get ;;
  match fs p !! path with
  | Some _ => put (assign_fs (delete path (fs p)) p) ;;; ret 0
  | None => ret (-1)
  end.

(** The [for] loop over [tmpfile_list]. *)
Fixpoint remove_each (l : list string) : M Process unit :=
  match l with
  | [] => ret tt
  | f :: rest =>
      rc <- remove (c_str f) ;;
      if negb (rc =? 0) then
        throw (GnuplotException
                 (sstream ["Cannot remove temporary file " ++ dq; f; dq]))
      else remove_each rest
  end.

Definition remove_tmpfiles : M Machine unit :=
  st <- get ;;
  let l := tmpfile_list (self st) in
  if (0 <? length l)%nat then
    static (remove_each l) ;;;
    static (p <- get ;;
            put (assign_tmpfile_num
                   (wrap_int (tmpfile_num p - wrap_int (Z.of_nat (length l)))) p))
  else ret tt.

(** ** Gnuplot::plot_xy, plot_xy_err, plot_xyz *)

(** [for (std::size_t i = 0; i < n; i++) body], from index [i]: a loop whose
    counter has the type of its bound, and so reaches it. *)
Fixpoint for_loop {St T : Type} (n i : nat) (body : nat -> T -> M St T) (t : T)
  : M St T :=
  match n with
  | O => ret t
  | S n' => t' <- body i t ;; for_loop n' (S i) body t'
  end.

(** [for (unsigned int i = 0; i < n; i++) body] where [n] is a [std::size_t],
    from the value [i] of the counter.  The counter is stored as an
    [unsigned int] and the test compares it with [n] as it is.  [fuel] bounds
    the number of tests: [None] says that the loop was still running when
    they were used up. *)
Fixpoint for_loop_uint {St T : Type} (fuel : nat) (n i : Z)
  (body : nat -> T -> M St T) (t : T) : M St (option T) :=
  match fuel with
  | O => ret None
  | S fuel' =>
      if i <? n then
        t' <- body (Z.to_nat i) t ;;
        for_loop_uint fuel' n (wrap_uint (i + 1)) body t'
      else ret (Some t)
  end.

(** The templates take any containers whose elements a stream can print:
    [show_x v] is what [tmp << v] writes for an element of [X]. *)
Section Plot.
Context {X Y Z3 : Type}.
Variable show_x : X -> string.
Variable show_y : Y -> string.
Variable show_z : Z3 -> string.

(** [tmp << x[i] << " " << y[i] << std::endl;] *)
Definition row_xy (x : list X) (y : list Y) (i : nat) (tmp : ofstream)
  : M Process ofstream :=
  match x !! i, y !! i with
  | Some a, Some b =>
      t1 <- ofstream_write (show_x a) tmp ;;
      t2 <- ofstream_write " " t1 ;;
      t3 <- ofstream_write (show_y b) t2 ;;
      ofstream_write nl t3
  | _, _ => ret tmp
  end.

(** [tmp << x[i] << " " << y[i] << " " << z[i] << std::endl;] *)
Definition row_xyz (x : list X) (y : list Y) (z : list Z3) (i : nat)
  (tmp : ofstream) : M Process ofstream :=
  match x !! i, y !! i, z !! i with
  | Some a, Some b, Some c =>
      t1 <- ofstream_write (show_x a) tmp ;;
      t2 <- ofstream_write " " t1 ;;
      t3 <- ofstream_write (show_y b) t2 ;;
      t4 <- ofstream_write " " t3 ;;
      t5 <- ofstream_write (show_z c) t4 ;;
      ofstream_write nl t5
  | _, _, _ => ret tmp
  end.

Definition plot_xy (os : platform) (o : tmp_oracle) (x : list X) (y : list Y)
  (title : string) : M Machine unit :=
  if (length x =? 0)%nat || (length y =? 0)%nat then
    throw (GnuplotException "std::vectors too small")
  else if negb (length x =? length y)%nat then
    throw (GnuplotException "Length of the std::vectors differs")
  else
    r <- create_tmpfile os o default_ofstream ;;
    let '(name, tmp) := r in
    if empty name then throw (GnuplotException "Unable to create tmp-file.")
    else
      tmp' <- static (for_loop (length x) 0 (row_xy x y) tmp) ;;
      let _ := ofstream_close tmp' in
      plotfile_xy name 1 2 title.

Definition plot_xy_err (os : platform) (o : tmp_oracle) (x : list X)
  (y : list Y) (dy : list Z3) (title : string) : M Machine unit :=
  if (length x =? 0)%nat || (length y =? 0)%nat || (length dy =? 0)%nat then
    throw (GnuplotException "std::vectors too small")
  else if negb (length x =? length y)%nat || negb (length y =? length dy)%nat then
    throw (GnuplotException "Length of the std::vectors differs")
  else
    r <- create_tmpfile os o default_ofstream ;;
    let '(name, tmp) := r in
    if empty name then throw (GnuplotException "Unable to create tmp-file.")
    else
      tmp' <- static (for_loop (length x) 0 (row_xyz x y dy) tmp) ;;
      let _ := ofstream_close tmp' in
      plotfile_xy_err name 1 2 3 title.

Definition plot_xyz (os : platform) (o : tmp_oracle) (x : list X)
  (y : list Y) (z : list Z3) (title : string) : M Machine unit :=
  if (length x =? 0)%nat || (length y =? 0)%nat || (length z =? 0)%nat then
    throw (GnuplotException "std::vectors too small")
  else if negb (length x =? length y)%nat || negb (length x =? length z)%nat then
    throw (GnuplotException "Length of the std::vectors differs")
  else
    r <- create_tmpfile os o default_ofstream ;;
    let '(name, tmp) := r in
    if empty name then throw (GnuplotException "Unable to create tmp-file.")
    else
      tmp' <- static (for_loop (length x) 0 (row_xyz x y z) tmp) ;;
      let _ := ofstream_close tmp' in
      plotfile_xyz name 1 2 3 title.
End Plot.

(** ** Gnuplot::plot_x, Gnuplot::plot_image, reset_plot, replot *)

Section PlotX.
Context {X : Type}.
Variable show_x : X -> string.

(** [tmp << x[i] << std::endl;] *)
Definition row_x (x : list X) (i : nat) (tmp : ofstream) : M Process ofstream :=
  match x !! i with
  | Some a => t1 <- ofstream_write (show_x a) tmp ;; ofstream_write nl t1
  | None => ret tmp
  end.

(** The loop of [plot_x] counts with an [unsigned int]; the call is followed
    for [fuel] tests of the loop, and [None] says that it has not returned by
    then. *)
Definition plot_x (fuel : nat) (os : platform) (o : tmp_oracle) (x : list X)
  (title : string) : M Machine (option unit) :=
  if (length x =? 0)%nat then throw (GnuplotException "std::vector too small")
  else
    r <- create_tmpfile os o default_ofstream ;;
    let '(name, tmp) := r in
    if empty name then ret (Some tt)
    else
      w <- static (for_loop_uint fuel (Z.of_nat (length x)) 0 (row_x x) tmp) ;;
      match w with
      | None => ret None
      | Some tmp' =>
          let _ := ofstream_close tmp' in
          returns (plotfile_x name 1 title)
      end.
End PlotX.

(** [ucPicBuf[iIndex]] for an [int] index.  The buffer is the list of its
    bytes; there is nothing to read outside it. *)
Definition read_byte (buf : list N) (iIndex : Z) : option N :=
  if iIndex <? 0 then None else buf !! Z.to_nat iIndex.

(** One cell of the image: [tmp << iColumn << " " << iRow << " " <<
    static_cast<float>(ucPicBuf[iIndex++]) << std::endl;].  A byte printed as
    a [float] is its decimal value.  [iIndex] is an [int]; a read outside the
    buffer writes nothing here. *)
Definition image_cell (buf : list N) (iRow iColumn : nat) (t : ofstream * Z)
  : M Process (ofstream * Z) :=
  let '(tmp, iIndex) := t in
  match read_byte buf iIndex with
  | Some v =>
      t1 <- ofstream_write (show_uint (N.of_nat iColumn)) tmp ;;
      t2 <- ofstream_write " " t1 ;;
      t3 <- ofstream_write (show_uint (N.of_nat iRow)) t2 ;;
      t4 <- ofstream_write " " t3 ;;
      t5 <- ofstream_write (show_uint v) t4 ;;
      t6 <- ofstream_write nl t5 ;;
      ret (t6, wrap_int (iIndex + 1))
  | None => ret (tmp, wrap_int (iIndex + 1))
  end.

(** [iWidth], [iHeight] and the two counters are [unsigned int]. *)
Definition plot_image (os : platform) (o : tmp_oracle) (ucPicBuf : list N)
  (iWidth iHeight : nat) (title : string) : M Machine unit :=
  r <- create_tmpfile os o default_ofstream ;;
  let '(name, tmp) := r in
  if empty name then ret tt
  else
    t <- static (for_loop iHeight 0
                   (fun iRow => for_loop iWidth 0 (image_cell ucPicBuf iRow))
                   (tmp, 0)) ;;
    let _ := ofstream_close (fst t) in
    st <- get ;;
    let g := self st in
    let verb := if (0 <? nplots g) && Bool.eqb (two_dim g) true
                then "replot " else "plot " in
    let rest := if empty title then [dq; name; dq ++ " with image"]
                else [dq; name; dq ++ " title " ++ dq; title;
                      dq ++ " with image"] in
    cmd (sstream ([verb] ++ rest)).

Definition reset_plot : M Gnuplot unit :=
  g <- get ;;
  put (MkGnuplot (gnucmd g) (valid g) (two_dim g) 0 (pstyle g) (smooth g)
                 (tmpfile_list g)).

Definition replot : M Machine unit :=
  st <- get ;;
  if 0 <? nplots (self st) then cmd "replot" else ret tt.

(** ** operator<< for a double *)

(** A stream with its defaults prints a [double] as [printf]'s [%g] does with
    precision 6: six significant digits, rounded to nearest (ties to even) from
    the exact value; fixed notation when the decimal exponent is in -4..5 and
    scientific otherwise; trailing zeros of the fraction dropped.  A NaN is
    printed as "nan", after a minus sign when its sign bit is set. *)

(** A [double] as the program has it.  The float type of the prover has the
    values of the binary64 format with a single NaN; a stream prints the
    sign bit of a NaN, so there are two: the NaN of the float type stands
    for those whose sign bit is clear, and [neg_nan] for those whose sign
    bit is set. *)
Inductive double : Type :=
| dbl (f : float)
| neg_nan.

(** [10^k <= num/den], for positive [num] and [den]. *)
Definition ge_pow10 (num den k : Z) : bool :=
  if 0 <=? k then den * 10 ^ k <=? num else den <=? num * 10 ^ (- k).

(** The largest [k' <= k] with [10^k' <= num/den]. *)
Fixpoint decimal_exponent (fuel : nat) (num den k : Z) : Z :=
  match fuel with
  | O => k
  | S fuel' =>
      if ge_pow10 num den k then k else decimal_exponent fuel' num den (k - 1)
  end.

Definition round_half_even (a b : Z) : Z :=
  let q := a / b in
  let r := a mod b in
  if 2 * r <? b then q
  else if b <? 2 * r then q + 1
  else if Z.even q then q else q + 1.

(** [num/den] rounded to six significant digits: the digits as a number in
    [10^5, 10^6) and the decimal exponent of the first of them. *)
Definition six_digits (num den : Z) : Z * Z :=
  let k := decimal_exponent 700 num den 310 in
  let d := if 0 <=? k - 5 then round_half_even num (den * 10 ^ (k - 5))
           else round_half_even (num * 10 ^ (5 - k)) den in
  if d =? 10 ^ 6 then (10 ^ 5, k + 1) else (d, k).

Fixpoint strip_zeros (s : string) : string :=
  match s with
  | EmptyString => EmptyString
  | String c r =>
      let r' := strip_zeros r in
      if empty r' && Ascii.eqb c "0"%char then EmptyString else String c r'
  end.

Definition with_fraction (whole frac : string) : string :=
  let f := strip_zeros frac in
  if empty f then whole else whole ++ "." ++ f.

Fixpoint zeros (n : nat) : string :=
  match n with O => "" | S n' => "0" ++ zeros n' end.

Definition show_exponent (k : Z) : string :=
  let a := show_uint (Z.to_N (Z.abs k)) in
  "e" ++ (if k <? 0 then "-" else "+") ++
  (if (String.length a <? 2)%nat then "0" ++ a else a).

Definition show_positive (num den : Z) : string :=
  let '(d, k) := six_digits num den in
  let ds := show_uint (Z.to_N d) in
  if (-4 <=? k) && (k <? 6) then
    if 0 <=? k then
      with_fraction (substring 0 (Z.to_nat (k + 1)) ds)
                    (substring (Z.to_nat (k + 1)) (Z.to_nat (5 - k)) ds)
    else with_fraction "0" (zeros (Z.to_nat (- k - 1)) ++ ds)
  else
    with_fraction (substring 0 1 ds) (substring 1 5 ds) ++ show_exponent k.

Definition show_sign (s : bool) : string := if s then "-" else "".

Definition show_double (d : double) : string :=
  match d with
  | neg_nan => "-nan"
  | dbl f =>
      match Prim2SF f with
      | S754_nan => "nan"
      | S754_infinity s => show_sign s ++ "inf"
      | S754_zero s => show_sign s ++ "0"
      | S754_finite s m e =>
          show_sign s ++
          (if 0 <=? e then show_positive (Z.pos m * 2 ^ e) 1
           else show_positive (Z.pos m) (2 ^ (- e)))
      end
  end.

(** ** Several sessions in one process *)

(** The sessions share the static members and the files. *)
Record System : Type := MkSystem {
  process : Process;
  sessions : list Gnuplot
}.

(** The public member functions modelled above, with their arguments; the
    data plots take vectors of [double].  A call of [plot_x] is followed for
    [fuel] tests of its loop. *)
Inductive call : Type :=
| call_cmd (cmdstr : string)
| call_set_style (stylestr : string)
| call_set_smooth (stylestr : string)
| call_reset_plot
| call_replot
| call_set_GNUPlotPath (path : string)
| call_plotfile_x (filename : string) (column : N) (title : string)
| call_plotfile_xy (filename : string) (column_x column_y : N) (title : string)
| call_plotfile_xy_err (filename : string) (column_x column_y column_dy : N)
    (title : string)
| call_plotfile_xyz (filename : string) (column_x column_y column_z : N)
    (title : string)
| call_plot_x (fuel : nat) (o : tmp_oracle) (x : list double) (title : string)
| call_plot_xy (o : tmp_oracle) (x y : list double) (title : string)
| call_plot_xy_err (o : tmp_oracle) (x y dy : list double) (title : string)
| call_plot_xyz (o : tmp_oracle) (x y z : list double) (title : string)
| call_plot_image (o : tmp_oracle) (ucPicBuf : list N) (iWidth iHeight : nat)
    (title : string)
| call_remove_tmpfiles.

(** The call, on the process and a session: [None] says that it has not
    returned (the loop of [plot_x] was still running when the fuel was used
    up). *)
Definition run (os : platform) (c : call) : M Machine (option unit) :=
  match c with
  | call_cmd s => returns (cmd s)
  | call_set_style s => returns (member (set_style s))
  | call_set_smooth s => returns (member (set_smooth s))
  | call_reset_plot => returns (member reset_plot)
  | call_replot => returns replot
  | call_set_GNUPlotPath path =>
      returns (static (set_GNUPlotPath os path) ;;; ret tt)
  | call_plotfile_x f c t => returns (plotfile_x f c t)
  | call_plotfile_xy f cx cy t => returns (plotfile_xy f cx cy t)
  | call_plotfile_xy_err f cx cy cd t => returns (plotfile_xy_err f cx cy cd t)
  | call_plotfile_xyz f cx cy cz t => returns (plotfile_xyz f cx cy cz t)
  | call_plot_x fuel o x t => plot_x show_double fuel os o x t
  | call_plot_xy o x y t =>
      returns (plot_xy show_double show_double os o x y t)
  | call_plot_xy_err o x y dy t =>
      returns (plot_xy_err show_double show_double show_double os o x y dy t)
  | call_plot_xyz o x y z t =>
      returns (plot_xyz show_double show_double show_double os o x y z t)
  | call_plot_image o buf w h t => returns (plot_image os o buf w h t)
  | call_remove_tmpfiles => returns remove_tmpfiles
  end.

(** The static members as the header initialises them. *)
Definition initial_process (os : platform) (files : gmap string file) : Process :=
  match os with
  | Win32 => MkProcess 0 "pgnuplot.exe" "C:/program files/gnuplot/bin/" files
  | Unix => MkProcess 0 "gnuplot" "/usr/local/bin/" files
  end.

(** One step of the process: a session object is constructed (the
    initialisers and [init()] leave [nplots = 0], [two_dim = false], no
    smoothing and no temporary file; the plot a constructor goes on to make
    is a call), copied (the class does not forbid it: the copy has the same
    data members) or destroyed (the destructor closes the pipe and leaves the
    files and the counter alone), or a member function runs on one of the
    sessions; a call of [plot_x] that has not returned is seen where it
    stands after any number of tests of its loop. *)
Inductive step (os : platform) : System -> System -> Prop :=
| step_construct (s : System) (g : Gnuplot) :
    nplots g = 0 -> two_dim g = false -> smooth g = "" ->
    tmpfile_list g = [] ->
    step os s (MkSystem (process s) (sessions s ++ [g]))
| step_copy (s : System) (i : nat) (g : Gnuplot) :
    sessions s !! i = Some g ->
    step os s (MkSystem (process s) (sessions s ++ [g]))
| step_destroy (s : System) (i : nat) :
    step os s (MkSystem (process s) (delete i (sessions s)))
| step_call (s : System) (i : nat) (g : Gnuplot) (c : call)
    (r : outcome (option unit)) (st' : Machine) :
    sessions s !! i = Some g ->
    run os c (MkMachine (process s) g) = (r, st') ->
    step os s (MkSystem (proc st') (<[i := self st']> (sessions s))).

Definition reachable (os : platform) (s : System) : Prop :=
  exists files, rtc (step os) (MkSystem (initial_process os files) []) s.

(** ** Vocabulary of the statements *)

(** [t] occurs in [s]. *)
Definition is_substring (t s : string) : Prop :=
  exists pre post, s = pre ++ t ++ post.

(** The paths the entries of a temp-file list name to [remove]. *)
Definition c_paths (l : list string) : list string := map c_str l.

(** What [cmd(cmdstr)] is to do to the plot mode, from the session [g] before
    to the session [g'] after. *)
Definition plot_mode_after (cmdstr : string) (g g' : Gnuplot) : Prop :=
  (is_substring "replot" cmdstr ->
     two_dim g' = two_dim g /\ nplots g' = nplots g) /\
  (~ is_substring "replot" cmdstr -> is_substring "splot" cmdstr ->
     two_dim g' = false /\ nplots g' = nplots g + 1) /\
  (~ is_substring "replot" cmdstr -> ~ is_substring "splot" cmdstr ->
   is_substring "plot" cmdstr ->
     two_dim g' = true /\ nplots g' = nplots g + 1) /\
  (~ is_substring "plot" cmdstr ->
     two_dim g' = two_dim g /\ nplots g' = nplots g).

(** The platform's check of the plotter at [path]: the file
    [path/<m_sGNUPlotFileName>] exists and, except on Windows, may be
    executed. *)
Definition plotter_found (os : platform) (p : Process) (path : string) : bool :=
  match fs p !! c_str (path ++ "/" ++ m_sGNUPlotFileName p) with
  | None => false
  | Some f => match os with Win32 => true | Unix => f_exec f end
  end.

(** The two input errors of the data plots. *)
Definition too_small : exn := GnuplotException "std::vectors too small".
Definition length_differs : exn :=
  GnuplotException "Length of the std::vectors differs".

(** The pieces of a file plot's command, as a reader of the command sees
    them: the verb, the title clause, and the clause that ends the line. *)
Definition plot_verb (g : Gnuplot) : string :=
  if decide (0 < nplots g /\ two_dim g = true) then "replot" else "plot".

Definition title_clause (title : string) : string :=
  if decide (title = "") then " notitle "
  else " title " ++ dq ++ title ++ dq ++ " ".

Definition style_clause (g : Gnuplot) : string :=
  if decide (smooth g = "") then "with " ++ pstyle g
  else "smooth " ++ smooth g.

(** [verb "file" using cols<title clause><style clause>]. *)
Definition file_plot_command (g : Gnuplot) (filename cols title : string)
  : string :=
  plot_verb g ++ " " ++ dq ++ filename ++ dq ++ " using " ++ cols ++
  title_clause title ++ style_clause g.

(** The name the unique-name primitive makes of the suffix [sfx]. *)
Definition tmp_name (os : platform) (sfx : string) : string :=
  c_str (tmp_stem os ++ sfx).

(** The files after a temp file was named [name] and the stream opened on it
    or not; [fresh] is the file the system creates. *)
Definition files_after_create (os : platform) (opened : bool) (fresh : file)
  (name : string) (files : gmap string file) : gmap string file :=
  match os, opened with
  | Win32, false => files
  | _, _ => <[name := fresh]> files
  end.

(** The stream [create_tmpfile] hands back when it was given a
    default-constructed one. *)
Definition stream_after_create (opened : bool) (name : string) : ofstream :=
  if opened then MkOfstream (Some name) false false
  else MkOfstream None true false.

(** The message of the quota error. *)
Definition quota_message (os : platform) : string :=
  "Maximum number of temporary files reached (" ++
  show_int (GP_MAX_TMP_FILES os) ++ "): cannot open more files" ++ nl.

(** ** The temp files of a process *)

(** The paths the sessions have in their temp-file lists. *)
Definition owned (ss : list Gnuplot) : gset string :=
  ⋃ (map (fun g => list_to_set (c_paths (tmpfile_list g))) ss).

(** The temp files outstanding: listed by a session and still there. *)
Definition outstanding (s : System) : gset string :=
  dom (fs (process s)) ∩ owned (sessions s).

(** The counter covers the outstanding temp files and stays under the
    cap. *)
Definition counter_inv (os : platform) (s : System) : Prop :=
  Z.of_nat (size (outstanding s)) <= tmpfile_num (process s) <=
  GP_MAX_TMP_FILES os - 1.

(** What a member function may do to the counter, to the set of files and to
    the session's list: nothing but lose files; allocate one temp file; or
    release all the files of the list. *)
Inductive tmp_effect (os : platform) (p : Process) (g : Gnuplot)
  (p' : Process) (g' : Gnuplot) : Prop :=
| effect_keep :
    tmpfile_num p' = tmpfile_num p ->
    dom (fs p') ⊆ dom (fs p) ->
    tmpfile_list g' = tmpfile_list g ->
    tmp_effect os p g p' g'
| effect_allocate (name : string) :
    tmpfile_num p <> GP_MAX_TMP_FILES os - 1 ->
    tmpfile_num p' = wrap_int (tmpfile_num p + 1) ->
    fs p !! name = None ->
    dom (fs p') ⊆ dom (fs p) ∪ {[name]} ->
    c_str name = name ->
    tmpfile_list g' = (tmpfile_list g ++ [name])%list ->
    tmp_effect os p g p' g'
| effect_release :
    NoDup (c_paths (tmpfile_list g)) ->
    (forall q, q ∈ c_paths (tmpfile_list g) -> is_Some (fs p !! q)) ->
    (forall q, fs p' !! q =
               if decide (q ∈ c_paths (tmpfile_list g)) then None
               else fs p !! q) ->
    tmpfile_num p' =
      wrap_int (tmpfile_num p - wrap_int (Z.of_nat (length (tmpfile_list g)))) ->
    tmpfile_list g' = tmpfile_list g ->
    tmp_effect os p g p' g'.

(** Two processes with the same counter and the same set of files. *)
Definition same_tmp (p p' : Process) : Prop :=
  tmpfile_num p' = tmpfile_num p /\ dom (fs p') = dom (fs p).

(** Writers: computations on the process that return and keep
    [same_tmp]. *)
Definition writer {T : Type} (c : M Process T) : Prop :=
  forall p, exists t p', c p = (Normal t, p') /\ same_tmp p p'.

(** ** A small run, used to exercise the statements *)

(** A session as the constructor leaves it, with style "lines". *)
Definition example_session : Gnuplot :=
  MkGnuplot "" true false 0 "lines" "" [].

(** [plot_xy([1,2,3],[4,5,6],"t")] on unix, when the unique-name primitive
    answers "abcdef" and the stream opens. *)
Definition example_call : call :=
  call_plot_xy (MkOracle (Some "abcdef") true true true)
               [dbl 1%float; dbl 2%float; dbl 3%float]
               [dbl 4%float; dbl 5%float; dbl 6%float] "t".

(** The process at its start, with no files but the plotter's. *)
Definition example_start : System :=
  MkSystem (initial_process Unix
              {[ "/usr/local/bin//gnuplot" := File "" true false true ]}) [].

(** The system after the session was constructed and made the call. *)
Definition example_system : System :=
  let st' := snd (run Unix example_call
                      (MkMachine (process example_start) example_session)) in
  MkSystem (proc st') (<[0%nat := self st']> [example_session]).

(** ** Reading a data file back *)

(** Whitespace, as a reader of columns takes it. *)
Definition is_space (c : ascii) : bool :=
  Ascii.eqb c " " || Ascii.eqb c "009" || Ascii.eqb c "010" ||
  Ascii.eqb c "011" || Ascii.eqb c "012" || Ascii.eqb c "013".

Fixpoint no_space (s : string) : bool :=
  match s with
  | EmptyString => true
  | String c r => negb (is_space c) && no_space r
  end.

(** The whitespace-separated fields of [s], after the field [cur] that is
    being read. *)
Fixpoint fields_from (cur s : string) : list string :=
  match s with
  | EmptyString => if empty cur then [] else [cur]
  | String c r =>
      if is_space c then
        if empty cur then fields_from "" r else cur :: fields_from "" r
      else fields_from (cur ++ String c "") r
  end.

Definition fields (s : string) : list string := fields_from "" s.

(** The newline-terminated lines of [s] (without their newlines) and what
    follows the last newline, after the line [cur] that is being read. *)
Fixpoint lines_from (cur s : string) : list string * string :=
  match s with
  | EmptyString => ([], cur)
  | String c r =>
      if Ascii.eqb c "010" then
        let '(ls, rest) := lines_from "" r in (cur :: ls, rest)
      else lines_from (cur ++ String c "") r
  end.

Definition lines (s : string) : list string * string := lines_from "" s.

(** The allocation of [create_tmpfile] succeeds with the name made of [sfx],
    and the stream opens. *)
Definition allocates (os : platform) (o : tmp_oracle) (sfx : string)
  (st : Machine) : Prop :=
  tmpfile_num (proc st) <> GP_MAX_TMP_FILES os - 1 /\
  unique_suffix o = Some sfx /\ String.length sfx = 6%nat /\
  fs (proc st) !! tmp_name os sfx = None /\ can_open o = true.

(** The rows [plot_xy] is to write for [x] and [y]. *)
Fixpoint rows_xy {X Y : Type} (show_x : X -> string) (show_y : Y -> string)
  (x : list X) (y : list Y) : string :=
  match x, y with
  | a :: x', b :: y' =>
      show_x a ++ " " ++ show_y b ++ nl ++ rows_xy show_x show_y x' y'
  | _, _ => ""
  end.

(** The process after [s] was written to the file at [name]. *)
Definition append_to (name s : string) (p : Process) : Process :=
  assign_fs (alter (append_contents s) name (fs p)) p.

(** What the pipe has received after [n] calls of [cmd("plot")], and the
    session of style "points" that has made them. *)
Fixpoint plot_lines (n : nat) : string :=
  match n with
  | O => ""
  | S n' => plot_lines n' ++ "plot" ++ nl
  end.

Definition session_after_plots (n : nat) : Gnuplot :=
  MkGnuplot (plot_lines n) true (negb (n =? 0)%nat) (Z.of_nat n) "points" "" [].

(** The session of the small run, and its second data plot:
    [plot_xy([0,1],[0,1])], when the unique-name primitive answers
    "ghijkl". *)
Definition example_session_1 : Gnuplot :=
  self (snd (run Unix example_call
                 (MkMachine (process example_start) example_session))).

Definition example_call_2 : call :=
  call_plot_xy (MkOracle (Some "ghijkl") true true true)
               [dbl 0%float; dbl 1%float] [dbl 0%float; dbl 1%float] "".

(** ** Gnuplot::operator<<, unset_smooth, is_valid and the switches *)

(** [Gnuplot& operator<<(const std::string &cmdstr)]. *)
Definition operator_shl (cmdstr : string) : M Machine unit := cmd cmdstr.

Definition unset_smooth : M Gnuplot unit :=
  g <- get ;; put (assign_smooth "" g).          (* smooth.clear() *)

Definition is_valid : M Gnuplot bool := g <- get ;; ret (valid g).

Definition set_grid : M Machine unit := cmd "set grid".
Definition unset_grid : M Machine unit := cmd "unset grid".
Definition set_multiplot : M Machine unit := cmd "set multiplot".
Definition unset_multiplot : M Machine unit := cmd "unset multiplot".
Definition set_hidden3d : M Machine unit := cmd "set hidden3d".
Definition unset_hidden3d : M Machine unit := cmd "unset hidden3d".
Definition unset_contour : M Machine unit := cmd "unset contour".
Definition set_surface : M Machine unit := cmd "set surface".
Definition unset_surface : M Machine unit := cmd "unset surface".
Definition unset_legend : M Machine unit := cmd "unset key".

Definition set_title (title : string) : M Machine unit :=
  let cmdstr := "set title " ++ dq in
  let cmdstr := cmdstr ++ title in
  let cmdstr := cmdstr ++ dq in
  operator_shl cmdstr.

(** [set_title()], with the default argument. *)
Definition unset_title : M Machine unit := set_title "".

Definition set_xautoscale : M Machine unit :=
  cmd "set xrange restore" ;;; cmd "set autoscale x".
Definition set_yautoscale : M Machine unit :=
  cmd "set yrange restore" ;;; cmd "set autoscale y".
Definition set_zautoscale : M Machine unit :=
  cmd "set zrange restore" ;;; cmd "set autoscale z".

Definition unset_xlogscale : M Machine unit := cmd "unset logscale x".
Definition unset_ylogscale : M Machine unit := cmd "unset logscale y".
Definition unset_zlogscale : M Machine unit := cmd "unset logscale z".

(** ** The settings that take a value *)

Definition savetofigure (filename terminal : string) : M Machine unit :=
  cmd (sstream ["set terminal "; terminal]) ;;;
  cmd (sstream ["set output " ++ dq; filename; dq]).

Definition set_legend (position : string) : M Machine unit :=
  cmd (sstream ["set key "; position]).

Definition set_xlogscale (base : double) : M Machine unit :=
  cmd (sstream ["set logscale x "; show_double base]).
Definition set_ylogscale (base : double) : M Machine unit :=
  cmd (sstream ["set logscale y "; show_double base]).
Definition set_zlogscale (base : double) : M Machine unit :=
  cmd (sstream ["set logscale z "; show_double base]).

Definition set_pointsize (pointsize : double) : M Machine unit :=
  cmd (sstream ["set pointsize "; show_double pointsize]).

Definition set_samples (samples : Z) : M Machine unit :=
  cmd (sstream ["set samples "; show_int samples]).
Definition set_isosamples (isolines : Z) : M Machine unit :=
  cmd (sstream ["set isosamples "; show_int isolines]).

Definition set_contour (position : string) : M Machine unit :=
  if negb (not_npos (find position "base")) &&
     negb (not_npos (find position "surface")) &&
     negb (not_npos (find position "both"))
  then cmd "set contour base"
  else cmd ("set contour " ++ position).

Definition set_xlabel (label : string) : M Machine unit :=
  cmd (sstream ["set xlabel " ++ dq; label; dq]).
Definition set_ylabel (label : string) : M Machine unit :=
  cmd (sstream ["set ylabel " ++ dq; label; dq]).
Definition set_zlabel (label : string) : M Machine unit :=
  cmd (sstream ["set zlabel " ++ dq; label; dq]).

Definition set_xrange (iFrom iTo : double) : M Machine unit :=
  cmd (sstream ["set xrange["; show_double iFrom; ":"; show_double iTo; "]"]).
Definition set_yrange (iFrom iTo : double) : M Machine unit :=
  cmd (sstream ["set yrange["; show_double iFrom; ":"; show_double iTo; "]"]).
Definition set_zrange (iFrom iTo : double) : M Machine unit :=
  cmd (sstream ["set zrange["; show_double iFrom; ":"; show_double iTo; "]"]).
Definition set_cbrange (iFrom iTo : double) : M Machine unit :=
  cmd (sstream ["set cbrange["; show_double iFrom; ":"; show_double iTo; "]"]).

(** ** Gnuplot::plot_slope, plot_equation, plot_equation3d *)

Definition plot_slope (a b : double) (title : string) : M Machine unit :=
  st <- get ;;
  let g := self st in
  let verb := if (0 <? nplots g) && Bool.eqb (two_dim g) true
              then "replot " else "plot " in
  let line := [show_double a; " * x + "; show_double b; " title " ++ dq] in
  let ttl := if empty title
             then ["f(x) = "; show_double a; " * x + "; show_double b]
             else [title] in
  cmd (sstream ([verb] ++ line ++ ttl ++ [dq ++ " with "; pstyle g])).

Definition plot_equation (equation title : string) : M Machine unit :=
  st <- get ;;
  let g := self st in
  let verb := if (0 <? nplots g) && Bool.eqb (two_dim g) true
              then "replot " else "plot " in
  let ttl := if empty title then [" notitle"]
             else [" title " ++ dq; title; dq] in
  cmd (sstream ([verb; equation] ++ ttl ++ [" with "; pstyle g])).

Definition plot_equation3d (equation title : string) : M Machine unit :=
  st <- get ;;
  let g := self st in
  let verb := if (0 <? nplots g) && Bool.eqb (two_dim g) false
              then "replot " else "splot " in
  let ttl := if empty title then ["f(x,y) = "; equation] else [title] in
  cmd (sstream ([verb; equation; " title " ++ dq] ++ ttl ++
                [dq ++ " with "; pstyle g])).

(** ** stringtok *)

Fixpoint mem_char (c : ascii) (s : string) : bool :=
  match s with
  | EmptyString => false
  | String d r => Ascii.eqb c d || mem_char c r
  end.

(** The first position at or after [i] whose character satisfies [P];
    [None] is [std::string::npos]. *)
Fixpoint find_if_from (P : ascii -> bool) (s : string) (i : nat) : option nat :=
  match s with
  | EmptyString => None
  | String c r =>
      match i with
      | O => if P c then Some O else S <$> find_if_from P r O
      | S i' => S <$> find_if_from P r i'
      end
  end.

(** [s.find_first_of(delimiters, i)] and [s.find_first_not_of(delimiters, i)]
    for a [const char *delimiters]: its characters are those before its
    NUL. *)
Definition find_first_of (s delimiters : string) (i : nat) : option nat :=
  find_if_from (fun c => mem_char c (c_str delimiters)) s i.

Definition find_first_not_of (s delimiters : string) (i : nat) : option nat :=
  find_if_from (fun c => negb (mem_char c (c_str delimiters))) s i.

(** [s.substr(i)]. *)
Definition substr (s : string) (i : nat) : string :=
  substring i (String.length s - i) s.

(** The [while (i < len)] loop; every round but the last moves [i] forward,
    and [None] is a loop that has not ended after [fuel] rounds. *)
Fixpoint stringtok_loop (fuel : nat) (in_ delimiters : string) (i : nat)
  (container : list string) : option (list string) :=
  match fuel with
  | O => None
  | S fuel' =>
      if (i <? String.length in_)%nat then
        match find_first_not_of in_ delimiters i with
        | None => Some container
        | Some i' =>
            match find_first_of in_ delimiters i' with
            | None => Some (container ++ [substr in_ i'])%list
            | Some j =>
                stringtok_loop fuel' in_ delimiters (S j)
                  (container ++ [substring i' (j - i') in_])%list
            end
        end
      else Some container
  end.

(** The container is passed by reference; the tokens are pushed at its
    back. *)
Definition stringtok (container : list string) (in_ delimiters : string)
  : option (list string) :=
  stringtok_loop (S (String.length in_)) in_ delimiters 0 container.

(** ** The environment and Gnuplot::get_program_path *)

(** [getenv(name)]: the value is a C string. *)
Definition getenv (env : gmap string string) (name : string) : option string :=
  c_str <$> env !! name.

(** The separator of the entries of PATH. *)
Definition path_separator (os : platform) : string :=
  match os with Win32 => ";" | Unix => ":" end.

(** The [for] loop over the entries of PATH: [true] when it returned from
    inside the loop. *)
Fixpoint scan_path (os : platform) (ls : list string) : M Process bool :=
  match ls with
  | [] => ret false
  | i :: rest =>
      p <- get ;;
      let tmp := i ++ "/" ++ m_sGNUPlotFileName p in
      found <- file_exists tmp (program_mode os) ;;
      if found then
        p <- get ;; put (assign_GNUPlotPath i p) ;;; ret true
      else scan_path os rest
  end.

Definition get_program_path (os : platform) (env : gmap string string)
  : M Process bool :=
  p <- get ;;
  let tmp := m_sGNUPlotPath p ++ "/" ++ m_sGNUPlotFileName p in
  found <- file_exists tmp (program_mode os) ;;
  if found then ret true
  else
    match getenv env "PATH" with
    | None => throw (GnuplotException "Path is not set")
    | Some path =>
        match stringtok [] path (path_separator os) with
        | None => ret false                     (* not reached: the loop ends *)
        | Some ls =>
            found <- scan_path os ls ;;
            if found then ret true
            else
              p <- get ;;
              throw (GnuplotException
                       ("Can't find gnuplot neither in PATH nor in " ++ dq ++
                        m_sGNUPlotPath p ++ dq))
        end
    end.

(** ** The terminal: set_terminal_std, showonscreen, reset_all *)

(** The three branches of the [#if] that sets [terminal_std]: Windows, unix
    other than Apple, and Apple. *)
Inductive target : Set := TWin32 | TUnix | TApple.

Definition platform_of (t : target) : platform :=
  match t with TWin32 => Win32 | TUnix | TApple => Unix end.

(** The session and the process, with the static member the terminal is
    kept in. *)
Record Program : Type := MkProgram {
  terminal_std : string;           (* static std::string Gnuplot::terminal_std *)
  machine : Machine
}.

Definition initial_terminal_std (t : target) : string :=
  match t with TWin32 => "windows" | TUnix => "x11" | TApple => "aqua" end.

(** A member function that leaves [terminal_std] alone. *)
Definition on_machine {A} (c : M Machine A) : M Program A :=
  fun w => let '(r, m) := c (machine w) in (r, MkProgram (terminal_std w) m).

Definition set_terminal_std (t : target) (env : gmap string string)
  (type : string) : M Program unit :=
  (match t with
   | TWin32 => ret tt
   | TUnix | TApple =>
       if not_npos (find type "x11") &&
          negb (bool_decide (is_Some (getenv env "DISPLAY")))
       then throw (GnuplotException "Can't find DISPLAY variable")
       else ret tt
   end) ;;;
  w <- get ;; put (MkProgram type (machine w)).

Definition showonscreen : M Program unit :=
  on_machine (cmd "set output") ;;;
  w <- get ;;
  on_machine (cmd ("set terminal " ++ terminal_std w)).

Definition assign_nplots (n : Z) (g : Gnuplot) : Gnuplot :=
  MkGnuplot (gnucmd g) (valid g) (two_dim g) n (pstyle g) (smooth g)
            (tmpfile_list g).

Definition assign_pstyle (s : string) (g : Gnuplot) : Gnuplot :=
  MkGnuplot (gnucmd g) (valid g) (two_dim g) (nplots g) s (smooth g)
            (tmpfile_list g).

Definition assign_valid (b : bool) (g : Gnuplot) : Gnuplot :=
  MkGnuplot (gnucmd g) b (two_dim g) (nplots g) (pstyle g) (smooth g)
            (tmpfile_list g).

Definition assign_gnucmd (pipe : string) (g : Gnuplot) : Gnuplot :=
  MkGnuplot pipe (valid g) (two_dim g) (nplots g) (pstyle g) (smooth g)
            (tmpfile_list g).

(** [field = v;] on [*this]. *)
Definition assign (f : Gnuplot -> Gnuplot) : M Program unit :=
  on_machine (member (g <- get ;; put (f g))).

Definition reset_all : M Program unit :=
  assign (assign_nplots 0) ;;;
  on_machine (cmd "reset") ;;;
  on_machine (cmd "clear") ;;;
  assign (assign_pstyle "points") ;;;
  assign (assign_smooth "") ;;;
  showonscreen.

(** ** Gnuplot::init and the constructors *)

(** [popen_ok] is the system's answer to [popen]: a pipe to the child, which
    has received nothing yet, or a null pointer.  A null [gnucmd] is a pipe
    that has received nothing: the class writes to [gnucmd] only when [valid]
    holds, and [valid] is false where [gnucmd] is null. *)
Definition init (t : target) (env : gmap string string) (popen_ok : bool)
  : M Program unit :=
  (match t with
   | TUnix =>
       match getenv env "DISPLAY" with
       | None =>
           assign (assign_valid false) ;;;
           throw (GnuplotException "Can't find DISPLAY variable")
       | Some _ => ret tt
       end
   | TWin32 | TApple => ret tt
   end) ;;;
  found <- on_machine (static (get_program_path (platform_of t) env)) ;;
  if negb found then
    assign (assign_valid false) ;;;
    throw (GnuplotException "Can't find gnuplot")
  else
    assign (assign_gnucmd "") ;;;
    if negb popen_ok then
      assign (assign_valid false) ;;;
      throw (GnuplotException "Couldn't open connection to gnuplot")
    else
      assign (assign_nplots 0) ;;;
      assign (assign_valid true) ;;;
      assign (assign_smooth "") ;;;
      showonscreen.

(** The object a constructor starts from: the member initialisers
    [gnucmd(NULL), valid(false), two_dim(false), nplots(0)] and the empty
    strings and vector. *)
Definition new_object : Gnuplot := MkGnuplot "" false false 0 "" "" [].

(** [Gnuplot(style)]. *)
Definition Gnuplot_style (t : target) (env : gmap string string)
  (popen_ok : bool) (style : string) : M Program unit :=
  assign (fun _ => new_object) ;;;
  init t env popen_ok ;;;
  on_machine (member (set_style style)).

(** [Gnuplot(x, title, style, labelx, labely)], followed for [fuel] tests of
    the loop of [plot_x]. *)
Definition Gnuplot_x (fuel : nat) (t : target) (env : gmap string string)
  (popen_ok : bool) (o : tmp_oracle) (x : list double)
  (title style labelx labely : string) : M Program (option unit) :=
  assign (fun _ => new_object) ;;;
  init t env popen_ok ;;;
  on_machine (member (set_style style)) ;;;
  on_machine (set_xlabel labelx) ;;;
  on_machine (set_ylabel labely) ;;;
  on_machine (plot_x show_double fuel (platform_of t) o x title).

(** [Gnuplot(x, y, title, style, labelx, labely)]. *)
Definition Gnuplot_xy (t : target) (env : gmap string string) (popen_ok : bool)
  (o : tmp_oracle) (x y : list double) (title style labelx labely : string)
  : M Program unit :=
  assign (fun _ => new_object) ;;;
  init t env popen_ok ;;;
  on_machine (member (set_style style)) ;;;
  on_machine (set_xlabel labelx) ;;;
  on_machine (set_ylabel labely) ;;;
  on_machine (plot_xy show_double show_double (platform_of t) o x y title).

(** [Gnuplot(x, y, z, title, style, labelx, labely, labelz)]. *)
Definition Gnuplot_xyz (t : target) (env : gmap string string)
  (popen_ok : bool) (o : tmp_oracle) (x y z : list double)
  (title style labelx labely labelz : string) : M Program unit :=
  assign (fun _ => new_object) ;;;
  init t env popen_ok ;;;
  on_machine (member (set_style style)) ;;;
  on_machine (set_xlabel labelx) ;;;
  on_machine (set_ylabel labely) ;;;
  on_machine (set_zlabel labelz) ;;;
  on_machine (plot_xyz show_double show_double show_double (platform_of t) o
                       x y z title).

(** ** Vocabulary of the further statements *)

(** What a member function leaves alone when it only talks to the pipe. *)
Definition same_settings (g g' : Gnuplot) : Prop :=
  valid g' = valid g /\ pstyle g' = pstyle g /\ smooth g' = smooth g /\
  tmpfile_list g' = tmpfile_list g.

Definition same_plot_mode (g g' : Gnuplot) : Prop :=
  two_dim g' = two_dim g /\ nplots g' = nplots g.

(** The line was counted as a plot of dimension [d]. *)
Definition counted_plot (d : bool) (g g' : Gnuplot) : Prop :=
  two_dim g' = d /\ nplots g' = nplots g + 1.

(** The plot mode after a plot of dimension [d] that was sent as "replot"
    when the session already showed a plot of that dimension. *)
Definition after_plot (d : bool) (g g' : Gnuplot) : Prop :=
  two_dim g' = d /\
  nplots g' = if decide (0 < nplots g /\ two_dim g = d) then nplots g
              else nplots g + 1.

(** The pipe has received what it had, and then [text]. *)
Definition received (text : string) (g g' : Gnuplot) : Prop :=
  gnucmd g' = gnucmd g ++ text.

(** A text that names neither "replot" nor "splot". *)
Definition plain (s : string) : Prop :=
  ~ is_substring "replot" s /\ ~ is_substring "splot" s.

(** The session after [cmd(s)]. *)
Definition sent (s : string) (g : Gnuplot) : Gnuplot := snd (cmd_self s g).

(** Every character of [s] satisfies [P]. *)
Fixpoint all_chars (P : ascii -> bool) (s : string) : bool :=
  match s with
  | EmptyString => true
  | String c r => P c && all_chars P r
  end.

(** The characters a number is printed with. *)
Definition number_char (c : ascii) : bool := mem_char c "0123456789.e+-infa".

(** ** The member functions that only send lines, by kind *)

(** Those that take no argument. *)
Inductive switch : Set :=
| sw_set_grid | sw_unset_grid | sw_set_multiplot | sw_unset_multiplot
| sw_set_hidden3d | sw_unset_hidden3d | sw_unset_contour
| sw_set_surface | sw_unset_surface | sw_unset_legend | sw_unset_title
| sw_set_xautoscale | sw_set_yautoscale | sw_set_zautoscale
| sw_unset_xlogscale | sw_unset_ylogscale | sw_unset_zlogscale.

Definition run_switch (s : switch) : M Machine unit :=
  match s with
  | sw_set_grid => set_grid
  | sw_unset_grid => unset_grid
  | sw_set_multiplot => set_multiplot
  | sw_unset_multiplot => unset_multiplot
  | sw_set_hidden3d => set_hidden3d
  | sw_unset_hidden3d => unset_hidden3d
  | sw_unset_contour => unset_contour
  | sw_set_surface => set_surface
  | sw_unset_surface => unset_surface
  | sw_unset_legend => unset_legend
  | sw_unset_title => unset_title
  | sw_set_xautoscale => set_xautoscale
  | sw_set_yautoscale => set_yautoscale
  | sw_set_zautoscale => set_zautoscale
  | sw_unset_xlogscale => unset_xlogscale
  | sw_unset_ylogscale => unset_ylogscale
  | sw_unset_zlogscale => unset_zlogscale
  end.

(** Those whose arguments are numbers. *)
Inductive measure : Set :=
| ms_set_xlogscale (base : double)
| ms_set_ylogscale (base : double)
| ms_set_zlogscale (base : double)
| ms_set_pointsize (pointsize : double)
| ms_set_samples (samples : Z)
| ms_set_isosamples (isolines : Z)
| ms_set_xrange (iFrom iTo : double)
| ms_set_yrange (iFrom iTo : double)
| ms_set_zrange (iFrom iTo : double)
| ms_set_cbrange (iFrom iTo : double).

Definition run_measure (m : measure) : M Machine unit :=
  match m with
  | ms_set_xlogscale b => set_xlogscale b
  | ms_set_ylogscale b => set_ylogscale b
  | ms_set_zlogscale b => set_zlogscale b
  | ms_set_pointsize s => set_pointsize s
  | ms_set_samples n => set_samples n
  | ms_set_isosamples n => set_isosamples n
  | ms_set_xrange a b => set_xrange a b
  | ms_set_yrange a b => set_yrange a b
  | ms_set_zrange a b => set_zrange a b
  | ms_set_cbrange a b => set_cbrange a b
  end.

(** Those that send one text between fixed words. *)
Inductive caption : Set :=
| cp_set_title | cp_set_xlabel | cp_set_ylabel | cp_set_zlabel | cp_set_legend.

Definition run_caption (c : caption) (text : string) : M Machine unit :=
  match c with
  | cp_set_title => set_title text
  | cp_set_xlabel => set_xlabel text
  | cp_set_ylabel => set_ylabel text
  | cp_set_zlabel => set_zlabel text
  | cp_set_legend => set_legend text
  end.

(** Every member function that only sends lines, with its arguments. *)
Inductive request : Type :=
| rq_cmd (cmdstr : string)
| rq_switch (sw : switch)
| rq_measure (m : measure)
| rq_caption (c : caption) (text : string)
| rq_savetofigure (filename terminal : string)
| rq_set_contour (position : string)
| rq_plot_slope (a b : double) (title : string)
| rq_plot_equation (equation title : string)
| rq_plot_equation3d (equation title : string)
| rq_replot.

Definition run_request (r : request) : M Machine unit :=
  match r with
  | rq_cmd s => operator_shl s
  | rq_switch sw => run_switch sw
  | rq_measure m => run_measure m
  | rq_caption c text => run_caption c text
  | rq_savetofigure f t => savetofigure f t
  | rq_set_contour p => set_contour p
  | rq_plot_slope a b t => plot_slope a b t
  | rq_plot_equation e t => plot_equation e t
  | rq_plot_equation3d e t => plot_equation3d e t
  | rq_replot => replot
  end.

(** From [g] to [g'] nothing happened but that lines were sent: the
    settings are the same, the pipe has received some more text, and an
    invalid session is as it was. *)
Definition only_sent (g g' : Gnuplot) : Prop :=
  same_settings g g' /\
  (exists text, received text g g') /\
  (valid g = false -> g' = g).

(** The plots of a file, with their column numbers. *)
Inductive file_plot : Set :=
| fp_x (column : N)
| fp_xy (column_x column_y : N)
| fp_xy_err (column_x column_y column_dy : N)
| fp_xyz (column_x column_y column_z : N).

Definition run_file_plot (fp : file_plot) (filename title : string)
  : M Machine unit :=
  match fp with
  | fp_x c => plotfile_x filename c title
  | fp_xy cx cy => plotfile_xy filename cx cy title
  | fp_xy_err cx cy cd => plotfile_xy_err filename cx cy cd title
  | fp_xyz cx cy cz => plotfile_xyz filename cx cy cz title
  end.

(** [true] for the plots sent as "plot", [false] for those sent as
    "splot". *)
Definition file_plot_2d (fp : file_plot) : bool :=
  match fp with fp_xyz _ _ _ => false | _ => true end.

(** The data plots, with their vectors of [double]. *)
Inductive data_plot : Type :=
| dp_x (x : list double)
| dp_xy (x y : list double)
| dp_xy_err (x y dy : list double)
| dp_xyz (x y z : list double).

(** A data plot, followed for [fuel] tests of the loop of [plot_x]; the
    loops of the other plots always end. *)
Definition run_data_plot (fuel : nat) (os : platform) (o : tmp_oracle)
  (dp : data_plot) (title : string) : M Machine (option unit) :=
  match dp with
  | dp_x x => plot_x show_double fuel os o x title
  | dp_xy x y => returns (plot_xy show_double show_double os o x y title)
  | dp_xy_err x y dy =>
      returns (plot_xy_err show_double show_double show_double os o x y dy title)
  | dp_xyz x y z =>
      returns (plot_xyz show_double show_double show_double os o x y z title)
  end.

(** The loop of the plot ends within [fuel] tests.  The counter of [plot_x]
    is an [unsigned int]: it reaches the number of elements only if that is
    at most [UINT_MAX]. *)
Definition loop_ends (fuel : nat) (dp : data_plot) : Prop :=
  match dp with
  | dp_x x => Z.of_nat (length x) <= UINT_MAX /\ (length x < fuel)%nat
  | _ => True
  end.

Definition data_plot_2d (dp : data_plot) : bool :=
  match dp with dp_xyz _ _ _ => false | _ => true end.

(** The vectors are not empty and have one length. *)
Definition accepted (dp : data_plot) : Prop :=
  match dp with
  | dp_x x => x <> []
  | dp_xy x y => x <> [] /\ length x = length y
  | dp_xy_err x y dy => x <> [] /\ length x = length y /\ length y = length dy
  | dp_xyz x y z => x <> [] /\ length x = length y /\ length x = length z
  end.

(** ** Tokens *)

(** The maximal runs of characters of [s] that are not in [delims], in
    order, after the run [cur] that is being read. *)
Fixpoint tokens_from (delims cur s : string) : list string :=
  match s with
  | EmptyString => if empty cur then [] else [cur]
  | String c r =>
      if mem_char c delims then
        if empty cur then tokens_from delims "" r
        else cur :: tokens_from delims "" r
      else tokens_from delims (cur ++ String c "") r
  end.

Definition tokens (delims s : string) : list string := tokens_from delims "" s.

(** The texts of [l] with [sep] between them. *)
Fixpoint join (sep : ascii) (l : list string) : string :=
  match l with
  | [] => ""
  | [a] => a
  | a :: rest => a ++ String sep (join sep rest)
  end.

(** No character of [s] is in [delims]. *)
Definition free_of (delims s : string) : bool :=
  all_chars (fun c => negb (mem_char c delims)) s.

(** A token as [stringtok] pushes it: not empty and free of delimiters. *)
Definition is_token (delims t : string) : Prop :=
  t <> "" /\ free_of delims t = true.

(** The session a constructor that plots leaves: valid, with one plot of
    dimension [d], the style it was given, no smoothing, and one temp
    file. *)
Definition constructed (d : bool) (style name : string) (g : Gnuplot) : Prop :=
  valid g = true /\ nplots g = 1 /\ two_dim g = d /\ pstyle g = style /\
  smooth g = "" /\ tmpfile_list g = [name].

(** The line of one cell of an image. *)
Definition cell_line (iColumn iRow : nat) (v : N) : string :=
  show_uint (N.of_nat iColumn) ++ " " ++ show_uint (N.of_nat iRow) ++ " " ++
  show_uint v.

(** The file [name] holds the lines of the first [k] cells of the image
    [buf] of width [w], row by row. *)
Definition image_written (name : string) (buf : list N) (w k : nat)
  (p : Process) : Prop :=
  exists f ls,
    fs p !! name = Some f /\ lines (contents f) = (ls, "") /\
    length ls = k /\
    forall i v, (i < k)%nat -> buf !! i = Some v ->
      ls !! i = Some (cell_line (i mod w) (i / w) v).

(** ** The rows of a data plot *)

(** The values of a data plot as they are printed, row by row. *)
Definition printed_rows (dp : data_plot) : list (list string) :=
  match dp with
  | dp_x x => map (fun a => [show_double a]) x
  | dp_xy x y => zip_with (fun a b => [show_double a; show_double b]) x y
  | dp_xy_err x y dy =>
      zip_with (fun a bc => [show_double a; show_double (fst bc);
                             show_double (snd bc)]) x (zip y dy)
  | dp_xyz x y z =>
      zip_with (fun a bc => [show_double a; show_double (fst bc);
                             show_double (snd bc)]) x (zip y z)
  end.

(** The text of a file of rows: the fields of a row with one blank between
    them, and a newline after each row. *)
Definition file_text (rows : list (list string)) : string :=
  sstream (map (fun r => join " " r ++ nl) rows).

(** The file plot a data plot ends with. *)
Definition file_plot_of (dp : data_plot) : file_plot :=
  match dp with
  | dp_x _ => fp_x 1
  | dp_xy _ _ => fp_xy 1 2
  | dp_xy_err _ _ _ => fp_xy_err 1 2 3
  | dp_xyz _ _ _ => fp_xyz 1 2 3
  end.

(** The state a data plot sends its line from, when its temp file [name]
    was allocated and opened and [text] was written to it. *)
Definition after_writing (os : platform) (o : tmp_oracle) (name text : string)
  (st : Machine) : Machine :=
  MkMachine
    (append_to name text
       (MkProcess (wrap_int (tmpfile_num (proc st) + 1))
          (m_sGNUPlotFileName (proc st)) (m_sGNUPlotPath (proc st))
          (files_after_create os true (new_tmpfile o) name (fs (proc st)))))
    (push_back_tmpfile name (self st)).

(** ** More of the small run *)

(** The session of the small run on its process, and the oracle of its
    second temp file. *)
Definition example_machine : Machine :=
  MkMachine (process example_start) example_session.

Definition example_oracle : tmp_oracle := MkOracle (Some "abcdef") true true true.

(** The program of the small run before any session is made: unix, with
    DISPLAY set. *)
Definition example_env : gmap string string := {[ "DISPLAY" := ":0" ]}.

Definition example_program : Program :=
  MkProgram (initial_terminal_std TUnix)
            (MkMachine (process example_start) new_object).

(** A process with one data file, and a session on it. *)
Definition example_data : Machine :=
  MkMachine (initial_process Unix
               {[ "data.dat" := File "1 2" true false false ]})
            example_session.

(** A session that lists three temp files of which only the first is
    there. *)
Definition example_stale : Machine :=
  MkMachine (initial_process Unix {[ "a" := File "" true true false ]})
            (MkGnuplot "" true false 0 "points" "" ["a"; "b"; "c"]).

(* ===================================================================== *)
(** * Properties *)
(* ===================================================================== *)

(** Unfolds the plumbing of [M]. *)
Ltac monad_unfold :=
  repeat progress (unfold bind, get, put, ret, throw, static, member in *;
                   cbv beta in *).

(** ** Strings and integers *)

Lemma prefix_spec (t s : string) :
  String.prefix t s = true <-> exists post, s = t ++ post.
Proof.
  revert s; induction t as [|c t IH]; intros s; simpl.
  - split; [intros _; now exists s | now destruct s].
  - destruct s as [|d s]; simpl.
    + split; [discriminate | intros [post H]; discriminate].
    + destruct (ascii_dec c d) as [->|Hne].
      * rewrite IH. split; intros [post H]; exists post.
        -- now rewrite H.
        -- now injection H.
      * split; [discriminate | intros [post H]; injection H; congruence].
Qed.

Lemma index_zero_cons (t : string) (c : ascii) (s : string) :
  String.index 0 t (String c s) =
  if String.prefix t (String c s) then Some 0%nat
  else match String.index 0 t s with Some n => Some (S n) | None => None end.
Proof. reflexivity. Qed.

Lemma index_zero_spec (t s : string) :
  not_npos (String.index 0 t s) = true <-> is_substring t s.
Proof.
  induction s as [|c s IH].
  - destruct t as [|d t]; simpl.
    + split; [intros _; now exists "", "" | reflexivity].
    + split; [discriminate|].
      intros (pre & post & H). destruct pre; discriminate.
  - rewrite index_zero_cons.
    destruct (String.prefix t (String c s)) eqn:Hp.
    + split; [intros _ | reflexivity].
      apply prefix_spec in Hp as [post H]. exists "", post. now rewrite H.
    + assert (Hn : ~ exists post, String c s = t ++ post).
      { intros H. apply prefix_spec in H. congruence. }
      destruct (String.index 0 t s) eqn:Hi; simpl in *.
      * split; [intros _ | reflexivity].
        destruct (proj1 IH eq_refl) as (pre & post & H).
        exists (String c pre), post. simpl. now rewrite H.
      * split; [discriminate|].
        intros (pre & post & H). destruct pre as [|d pre]; simpl in H.
        -- exfalso. apply Hn. now exists post.
        -- injection H as _ H. apply IH. now exists pre, post.
Qed.

(** [find] finds exactly the substrings. *)
Lemma find_spec (s t : string) : not_npos (find s t) = true <-> is_substring t s.
Proof. apply index_zero_spec. Qed.

Lemma find_none (s t : string) :
  not_npos (find s t) = false <-> ~ is_substring t s.
Proof.
  rewrite <- find_spec. destruct (not_npos (find s t)); split; congruence.
Qed.

Lemma append_assoc (a b c : string) : (a ++ b) ++ c = a ++ (b ++ c).
Proof. induction a as [|x a IH]; simpl; [reflexivity | now rewrite IH]. Qed.

Lemma append_nil_r (a : string) : a ++ "" = a.
Proof. induction a as [|x a IH]; simpl; [reflexivity | now rewrite IH]. Qed.

Lemma is_substring_trans (a b s : string) :
  is_substring a b -> is_substring b s -> is_substring a s.
Proof.
  intros (p1 & q1 & ->) (p2 & q2 & ->).
  exists (p2 ++ p1), (q1 ++ q2).
  now rewrite !append_assoc.
Qed.

Lemma wrap_int_id (z : Z) : is_int z -> wrap_int z = z.
Proof.
  unfold is_int, INT_MIN, INT_MAX, wrap_int. intros H.
  rewrite Z.mod_small; lia.
Qed.

(** ** Gnuplot::cmd *)

(** [cmd] leaves the process alone and either returns at once or writes its
    line and classifies it. *)
Lemma cmd_member (cmdstr : string) (st : Machine) :
  cmd cmdstr st =
  (fst (cmd_self cmdstr (self st)),
   MkMachine (proc st) (snd (cmd_self cmdstr (self st)))).
Proof. unfold cmd, member. now destruct (cmd_self cmdstr (self st)). Qed.

(** C1 (as amended): on a valid session whose plot count is an [int] below
    [INT_MAX], [cmd(s)] returns, leaves the process as it is, and treats the
    plot mode by the first of "replot", "splot", "plot" that [s] contains:
    "replot" changes neither [two_dim] nor [nplots]; "splot" sets [two_dim]
    to false and adds one to [nplots]; "plot" sets [two_dim] to true and adds
    one to [nplots]; a string with none of them changes neither. *)
Theorem cmd_plot_mode (cmdstr : string) (st : Machine) :
  valid (self st) = true ->
  INT_MIN <= nplots (self st) < INT_MAX ->
  exists g', cmd cmdstr st = (Normal tt, MkMachine (proc st) g') /\
             plot_mode_after cmdstr (self st) g'.
Proof.
  intros Hv Hn. destruct st as [p g]; simpl in *.
  assert (Hw : wrap_int (nplots g + 1) = nplots g + 1).
  { apply wrap_int_id. unfold is_int, INT_MIN, INT_MAX in *. lia. }
  assert (Hsp : is_substring "plot" "splot") by (now exists "s", "").
  assert (Hrp : is_substring "plot" "replot") by (now exists "re", "").
  rewrite cmd_member. unfold cmd_self, bind, get, put, ret; simpl. rewrite Hv; simpl.
  unfold plot_mode_after.
  destruct (not_npos (find cmdstr "replot")) eqn:Hr;
    [|destruct (not_npos (find cmdstr "splot")) eqn:Hs;
      [|destruct (not_npos (find cmdstr "plot")) eqn:Hp]];
    eexists; (split; [reflexivity|]); simpl;
    rewrite ?find_spec, ?find_none in *; rewrite ?Hw;
    repeat split; try tauto; intros;
    exfalso; eauto using is_substring_trans.
Qed.

(** The theorem at work: a first "plot" on a fresh valid session. *)
Lemma cmd_plot_mode_witness :
  exists g',
    cmd "plot sin(x)"
        (MkMachine (initial_process Unix ∅)
                   (MkGnuplot "" true false 0 "points" "" [])) =
    (Normal tt, MkMachine (initial_process Unix ∅) g') /\
    plot_mode_after "plot sin(x)" (MkGnuplot "" true false 0 "points" "" []) g'.
Proof.
  apply (cmd_plot_mode "plot sin(x)"
           (MkMachine (initial_process Unix ∅)
                      (MkGnuplot "" true false 0 "points" "" []))).
  - reflexivity.
  - unfold INT_MIN, INT_MAX; simpl; lia.
Defined.

(** One more [cmd("plot")] on the session that has made [n] of them. *)
Lemma cmd_plot_once (p : Process) (n : nat) :
  Z.of_nat n < INT_MAX ->
  cmd "plot" (MkMachine p (session_after_plots n)) =
  (Normal tt, MkMachine p (session_after_plots (S n))).
Proof.
  intros Hn. rewrite cmd_member. cbn [self proc].
  unfold cmd_self. monad_unfold. cbn [valid session_after_plots negb].
  replace (not_npos (find "plot" "replot")) with false by reflexivity.
  replace (not_npos (find "plot" "splot")) with false by reflexivity.
  replace (not_npos (find "plot" "plot")) with true by reflexivity.
  cbn [fst snd]. unfold count_plot, fputs, session_after_plots.
  cbn [gnucmd valid nplots pstyle smooth tmpfile_list two_dim].
  rewrite wrap_int_id by (unfold is_int, INT_MIN, INT_MAX in *; lia).
  replace (Z.of_nat n + 1) with (Z.of_nat (S n)) by lia.
  reflexivity.
Qed.

(** A process can bring a session to any plot count an [int] holds. *)
Lemma plots_reachable (n : nat) :
  Z.of_nat n <= INT_MAX ->
  reachable Unix (MkSystem (initial_process Unix ∅) [session_after_plots n]).
Proof.
  induction n as [|n IH]; intros Hn.
  - exists ∅. eapply rtc_r; [apply rtc_refl|].
    apply (step_construct Unix (MkSystem (initial_process Unix ∅) [])
             (session_after_plots 0)); reflexivity.
  - destruct IH as [files Hr]; [lia|]. exists files.
    eapply rtc_r; [exact Hr|].
    apply (step_call Unix
             (MkSystem (initial_process Unix ∅) [session_after_plots n])
             0 (session_after_plots n) (call_cmd "plot") (Normal (Some tt))
             (MkMachine (initial_process Unix ∅) (session_after_plots (S n)))).
    + reflexivity.
    + cbn [run process]. unfold returns, bind.
      rewrite cmd_plot_once by lia. reflexivity.
Qed.

(** C1, as the claim states it, fails at the top of [int]: a session that
    has made [INT_MAX] plots is reachable and valid, and its next
    [cmd("plot")] cannot add one to [nplots]. *)
Lemma cmd_plot_mode_int_max :
  let g := session_after_plots (Z.to_nat INT_MAX) in
  let st := MkMachine (initial_process Unix ∅) g in
  reachable Unix (MkSystem (proc st) [g]) /\
  valid g = true /\ nplots g = INT_MAX /\
  ~ exists g', cmd "plot" st = (Normal tt, MkMachine (proc st) g') /\
               plot_mode_after "plot" g g'.
Proof.
  assert (Hmax : Z.of_nat (Z.to_nat INT_MAX) = INT_MAX)
    by (apply Z2Nat.id; discriminate).
  generalize dependent (Z.to_nat INT_MAX). intros n Hn g st.
  split; [apply plots_reachable; lia|].
  split; [reflexivity|]. split; [exact Hn|].
  intros (g' & Hrun & _ & _ & Hplot & _).
  subst st g. rewrite cmd_member in Hrun. cbn [self proc] in Hrun.
  unfold cmd_self in Hrun. monad_unfold.
  cbn [valid session_after_plots negb] in Hrun.
  replace (not_npos (find "plot" "replot")) with false in Hrun by reflexivity.
  replace (not_npos (find "plot" "splot")) with false in Hrun by reflexivity.
  replace (not_npos (find "plot" "plot")) with true in Hrun by reflexivity.
  cbn [fst snd] in Hrun. injection Hrun as <-.
  destruct Hplot as [_ Hplot].
  - rewrite <- find_none. reflexivity.
  - rewrite <- find_none. reflexivity.
  - rewrite <- find_spec. reflexivity.
  - unfold count_plot, fputs, session_after_plots in Hplot.
    cbn [nplots] in Hplot. rewrite Hn in Hplot. vm_compute in Hplot.
    discriminate.
Qed.

(** C8: on a session that is not valid, [cmd] does nothing at all: it
    returns, and the pipe, every data member and the process are as before. *)
Theorem cmd_invalid_noop (cmdstr : string) (st : Machine) :
  valid (self st) = false -> cmd cmdstr st = (Normal tt, st).
Proof.
  intros Hv. destruct st as [p g]; simpl in *.
  rewrite cmd_member. unfold cmd_self, bind, get, ret; simpl. now rewrite Hv.
Qed.

Lemma cmd_invalid_noop_witness :
  cmd "splot x*y"
      (MkMachine (initial_process Win32 ∅)
                 (MkGnuplot "" false true 3 "lines" "bezier" ["gnuplotiabcdef"])) =
  (Normal tt,
   MkMachine (initial_process Win32 ∅)
             (MkGnuplot "" false true 3 "lines" "bezier" ["gnuplotiabcdef"])).
Proof.
  apply (cmd_invalid_noop "splot x*y"
           (MkMachine (initial_process Win32 ∅)
                      (MkGnuplot "" false true 3 "lines" "bezier"
                                 ["gnuplotiabcdef"]))).
  reflexivity.
Defined.

(** ** Gnuplot::set_smooth *)

(** C7: [set_smooth(x)] returns; the smoothing is [x] when [x] contains one
    of "unique", "frequency", "csplines", "bezier" and empty when it contains
    none, so it is non-empty exactly in the first case; the pipe and all other
    data members are untouched. *)
Theorem set_smooth_spec (x : string) (g : Gnuplot) :
  let accepted := is_substring "unique" x \/ is_substring "frequency" x \/
                  is_substring "csplines" x \/ is_substring "bezier" x in
  exists g', set_smooth x g = (Normal tt, g') /\
    (smooth g' <> "" <-> accepted) /\
    (accepted -> smooth g' = x) /\
    (~ accepted -> smooth g' = "") /\
    gnucmd g' = gnucmd g /\ valid g' = valid g /\ two_dim g' = two_dim g /\
    nplots g' = nplots g /\ pstyle g' = pstyle g /\
    tmpfile_list g' = tmpfile_list g.
Proof.
  intros accepted. subst accepted.
  assert (Hne : forall t, t <> "" -> is_substring t x -> x <> "").
  { intros t Ht (pre & post & ->). destruct pre; [|discriminate].
    destruct t; [congruence | discriminate]. }
  unfold set_smooth, bind, get, put; simpl.
  destruct (not_npos (find x "unique")) eqn:H1;
  destruct (not_npos (find x "frequency")) eqn:H2;
  destruct (not_npos (find x "csplines")) eqn:H3;
  destruct (not_npos (find x "bezier")) eqn:H4; simpl;
  eexists; (split; [reflexivity|]); simpl;
  rewrite ?find_spec, ?find_none in *;
  (split; [|split; [|split; [|repeat split]]]); try tauto;
  try (split; [tauto|]; intros _);
  try (intros _; first [eapply Hne; [|exact H1] | eapply Hne; [|exact H2]
                       | eapply Hne; [|exact H3] | eapply Hne; [|exact H4]];
       discriminate);
  try (first [eapply Hne; [|exact H1] | eapply Hne; [|exact H2]
             | eapply Hne; [|exact H3] | eapply Hne; [|exact H4]];
       discriminate).
Qed.

(** ** Gnuplot::set_GNUPlotPath *)

(** C9: [set_GNUPlotPath(p)] returns true and makes [p] the plotter
    directory when [p/<plotter filename>] passes the platform's check
    (existence; execute permission too except on Windows); otherwise it
    returns false and the plotter directory becomes the empty string.  Nothing
    else of the process changes. *)
Theorem set_GNUPlotPath_spec (os : platform) (path : string) (p : Process) :
  set_GNUPlotPath os path p =
  (Normal (plotter_found os p path),
   MkProcess (tmpfile_num p) (m_sGNUPlotFileName p)
             (if plotter_found os p path then path else "") (fs p)).
Proof.
  unfold set_GNUPlotPath, plotter_found, file_exists, access, bind, get, put, ret.
  set (tmp := c_str (path ++ "/" ++ m_sGNUPlotFileName p)).
  destruct os; cbn -[String.append c_str]; fold tmp;
    destruct (fs p !! tmp) as [f|] eqn:E; cbn -[String.append c_str];
    try reflexivity.
  destruct (f_exec f); reflexivity.
Qed.

(** ** Rejected inputs of the data plots *)

(** C3: a data plot of several sequences that is given an empty sequence
    throws "std::vectors too small", and one given non-empty sequences of
    different lengths throws "Length of the std::vectors differs"; in both
    cases the whole state is as before the call: no file was created or
    opened, and [nplots], [two_dim], [tmpfile_list] and [tmpfile_num] are
    unchanged. *)
Theorem data_plot_rejects {X Y Z3 : Type} (show_x : X -> string)
  (show_y : Y -> string) (show_z : Z3 -> string) (os : platform)
  (o : tmp_oracle) (x : list X) (y : list Y) (z : list Z3) (title : string)
  (st : Machine) :
  (x = [] \/ y = [] ->
     plot_xy show_x show_y os o x y title st = (Raise too_small, st)) /\
  (x <> [] -> y <> [] -> length x <> length y ->
     plot_xy show_x show_y os o x y title st = (Raise length_differs, st)) /\
  (x = [] \/ y = [] \/ z = [] ->
     plot_xy_err show_x show_y show_z os o x y z title st = (Raise too_small, st) /\
     plot_xyz show_x show_y show_z os o x y z title st = (Raise too_small, st)) /\
  (x <> [] -> y <> [] -> z <> [] ->
   ~ (length x = length y /\ length y = length z) ->
     plot_xy_err show_x show_y show_z os o x y z title st =
       (Raise length_differs, st) /\
     plot_xyz show_x show_y show_z os o x y z title st =
       (Raise length_differs, st)).
Proof.
  unfold plot_xy, plot_xy_err, plot_xyz, too_small, length_differs, throw.
  split; [|split; [|split]].
  - intros [-> | ->]; simpl; [reflexivity|]. now rewrite orb_true_r.
  - intros Hx Hy Hl.
    destruct x as [|a x], y as [|b y]; try congruence; simpl in *.
    destruct (Nat.eqb_spec (length x) (length y)); [lia | reflexivity].
  - intros [-> | [-> | ->]]; simpl; rewrite ?orb_true_r; split; reflexivity.
  - intros Hx Hy Hz Hl.
    destruct x as [|a x], y as [|b y], z as [|c z]; try congruence; simpl in *.
    destruct (Nat.eqb_spec (length x) (length y));
      destruct (Nat.eqb_spec (length y) (length z));
      destruct (Nat.eqb_spec (length x) (length z));
      simpl; try (split; reflexivity); lia.
Qed.

(** The theorem at work: an empty [y], and then sequences of lengths 2 and 1,
    on a session that has plotted once. *)
Lemma data_plot_rejects_witness :
  let st := MkMachine (initial_process Unix ∅)
                      (MkGnuplot "" true true 1 "lines" "" []) in
  let o := MkOracle (Some "abcdef") true true true in
  plot_xy show_double show_double Unix o [dbl 1%float] [] "t" st =
    (Raise too_small, st) /\
  plot_xy show_double show_double Unix o [dbl 1%float; dbl 2%float] [dbl 3%float] "t" st =
    (Raise length_differs, st).
Proof.
  intros st o.
  pose proof (data_plot_rejects show_double show_double show_double Unix o
                [dbl 1%float] [] [] "t" st) as (Hsmall & _).
  pose proof (data_plot_rejects show_double show_double show_double Unix o
                [dbl 1%float; dbl 2%float] [dbl 3%float] [] "t" st) as (_ & Hdiff & _).
  split.
  - apply Hsmall. now right.
  - apply Hdiff; [discriminate | discriminate | simpl; lia].
Defined.

(** ** The file plots *)

Lemma sstream_acc (pieces : list string) (acc : string) :
  fold_left String.append pieces acc = acc ++ sstream pieces.
Proof.
  unfold sstream. revert acc.
  induction pieces as [|a l IH]; intros acc; simpl.
  - now rewrite append_nil_r.
  - rewrite IH, (IH a). now rewrite append_assoc.
Qed.

Lemma sstream_cons (a : string) (l : list string) :
  sstream (a :: l) = a ++ sstream l.
Proof. unfold sstream at 1. simpl. apply sstream_acc. Qed.

Lemma sstream_nil : sstream [] = "".
Proof. reflexivity. Qed.

Lemma empty_spec (s : string) : empty s = true <-> s = "".
Proof. destruct s; simpl; split; congruence. Qed.

Lemma empty_false (s : string) : empty s = false <-> s <> "".
Proof. destruct s; simpl; split; congruence. Qed.

(** A file that is there and may be read passes [file_available]. *)
Lemma file_available_ok (filename : string) (p : Process) (f : file) :
  fs p !! c_str filename = Some f -> f_read f = true ->
  file_available filename p = (Normal true, p).
Proof.
  intros Hf Hr. unfold file_available, file_exists, access, bind, get, ret.
  simpl. rewrite !Hf. simpl. rewrite ?Hf, ?Hr. simpl. rewrite ?Hf, ?Hr. reflexivity.
Qed.

(** The checks read the files and change nothing. *)
Lemma file_exists_pure (filename : string) (mode : Z) (p : Process) :
  snd (file_exists filename mode p) = p.
Proof.
  unfold file_exists. monad_unfold.
  destruct ((mode <? 0) || (7 <? mode)); reflexivity.
Qed.

Lemma file_available_pure (filename : string) (p : Process) :
  snd (file_available filename p) = p.
Proof.
  unfold file_available, file_exists. monad_unfold. cbn.
  repeat (match goal with |- context [if ?b then _ else _] => destruct b end);
    reflexivity.
Qed.

(** What a valid session's [cmd] writes. *)
Lemma cmd_valid_writes (cmdstr : string) (st : Machine) :
  valid (self st) = true ->
  gnucmd (self (snd (cmd cmdstr st))) = gnucmd (self st) ++ c_str (cmdstr ++ nl).
Proof.
  intros Hv. rewrite cmd_member. simpl.
  unfold cmd_self, bind, get, put, ret. rewrite Hv. simpl.
  repeat (match goal with |- context [if ?b then _ else _] => destruct b end);
    reflexivity.
Qed.

Lemma sstream_app (l1 l2 : list string) :
  sstream (l1 ++ l2) = sstream l1 ++ sstream l2.
Proof.
  induction l1 as [|a l1 IH]; simpl; [reflexivity|].
  now rewrite !sstream_cons, IH, append_assoc.
Qed.

Lemma verb_piece (g : Gnuplot) :
  (if (0 <? nplots g) && Bool.eqb (two_dim g) true then "replot " else "plot ") =
  plot_verb g ++ " ".
Proof.
  unfold plot_verb.
  destruct (Z.ltb_spec 0 (nplots g)), (two_dim g); simpl;
    case_decide; try reflexivity; intuition (lia || congruence).
Qed.

Lemma title_pieces (title : string) :
  sstream (if empty title then [" notitle "]
           else [" title " ++ dq; title; dq ++ " "]) = title_clause title.
Proof.
  unfold title_clause.
  destruct (empty title) eqn:Ht;
    [apply empty_spec in Ht | apply empty_false in Ht];
    case_decide; try congruence;
    rewrite !sstream_cons, sstream_nil, ?append_nil_r, ?append_assoc;
    reflexivity.
Qed.

Lemma style_pieces (g : Gnuplot) :
  sstream (if empty (smooth g) then ["with "; pstyle g]
           else ["smooth "; smooth g]) = style_clause g.
Proof.
  unfold style_clause.
  destruct (empty (smooth g)) eqn:Hs;
    [apply empty_spec in Hs | apply empty_false in Hs];
    case_decide; try congruence;
    rewrite !sstream_cons, sstream_nil, ?append_nil_r; reflexivity.
Qed.

(** C2: whatever the session, [plotfile_x] and [plotfile_xy] check the file
    and then hand [cmd] the line
    [<verb> "<file>" using <columns><title clause><style clause>], where the
    verb is "replot" when [nplots > 0] and [two_dim] holds and "plot"
    otherwise, the columns are the given indices in decimal (joined by a
    colon), the title clause is " notitle " for an empty title, and the line
    ends with "smooth <smooth>" when the smoothing is non-empty and with
    "with <style>" when it is empty; when the file is there and may be read
    and the session is valid, that line is what the pipe receives. *)
Theorem plotfile_command (filename : string) (column column_x column_y : N)
  (title : string) (st : Machine) :
  let cx := file_plot_command (self st) filename (show_uint column) title in
  let cxy := file_plot_command (self st) filename
               (show_uint column_x ++ ":" ++ show_uint column_y) title in
  plotfile_x filename column title st =
    (static (file_available filename) ;;; cmd cx) st /\
  plotfile_xy filename column_x column_y title st =
    (static (file_available filename) ;;; cmd cxy) st /\
  (forall f, fs (proc st) !! c_str filename = Some f -> f_read f = true ->
     valid (self st) = true ->
     gnucmd (self (snd (plotfile_x filename column title st))) =
       gnucmd (self st) ++ c_str (cx ++ nl) /\
     gnucmd (self (snd (plotfile_xy filename column_x column_y title st))) =
       gnucmd (self st) ++ c_str (cxy ++ nl)).
Proof.
  intros cx cxy.
  pose proof (file_available_pure filename (proc st)) as Hp.
  assert (Hx : plotfile_x filename column title st =
               (static (file_available filename) ;;; cmd cx) st).
  { unfold plotfile_x. monad_unfold.
    destruct (file_available filename (proc st)) as [[v|e] p];
      [|reflexivity].
    cbn [snd] in Hp. subst p. destruct st as [p g]. cbn [proc self]. f_equal.
    subst cx cxy. unfold file_plot_command. cbn [self].
    rewrite !sstream_app, title_pieces, style_pieces, verb_piece.
    rewrite !sstream_cons, sstream_nil, ?append_nil_r, ?append_assoc.
    reflexivity. }
  assert (Hxy : plotfile_xy filename column_x column_y title st =
                (static (file_available filename) ;;; cmd cxy) st).
  { unfold plotfile_xy. monad_unfold.
    destruct (file_available filename (proc st)) as [[v|e] p];
      [|reflexivity].
    cbn [snd] in Hp. subst p. destruct st as [p g]. cbn [proc self]. f_equal.
    subst cx cxy. unfold file_plot_command. cbn [self].
    rewrite !sstream_app, title_pieces, style_pieces, verb_piece.
    rewrite !sstream_cons, sstream_nil, ?append_nil_r, ?append_assoc.
    reflexivity. }
  split; [exact Hx | split; [exact Hxy|]].
  intros f Hf Hr Hv. rewrite Hx, Hxy. monad_unfold.
  rewrite (file_available_ok _ _ _ Hf Hr). destruct st as [p g].
  cbn [proc self] in *. split; now apply cmd_valid_writes.
Qed.

(** The theorem at work: the second data plot of a session, without a title
    (the file is the one [plot_xy] wrote). *)
Lemma plotfile_command_witness :
  let st := MkMachine
              (MkProcess 1 "gnuplot" "/usr/local/bin/"
                         {[ "/tmp/gnuplotiabcdef" := File "0 0" true true false ]})
              (MkGnuplot "" true true 1 "lines" "" ["/tmp/gnuplotiabcdef"]) in
  gnucmd (self (snd (plotfile_xy "/tmp/gnuplotiabcdef" 1 2 "" st))) =
  "replot " ++ dq ++ "/tmp/gnuplotiabcdef" ++ dq ++
  " using 1:2 notitle with lines" ++ nl.
Proof.
  intros st.
  pose proof (plotfile_command "/tmp/gnuplotiabcdef" 1 1 2 "" st)
    as (_ & _ & Hpipe).
  destruct (Hpipe (File "0 0" true true false) eq_refl eq_refl eq_refl)
    as [_ Hxy].
  rewrite Hxy. reflexivity.
Defined.

(** ** Gnuplot::create_tmpfile *)

Lemma c_str_idem (s : string) : c_str (c_str s) = c_str s.
Proof.
  induction s as [|c s IH]; simpl; [reflexivity|].
  destruct (Ascii.eqb c "000") eqn:E; simpl; [reflexivity|].
  now rewrite E, IH.
Qed.

Lemma tmp_name_c_str (os : platform) (sfx : string) :
  c_str (tmp_name os sfx) = tmp_name os sfx.
Proof. apply c_str_idem. Qed.

Lemma tmp_name_nonempty (os : platform) (sfx : string) : tmp_name os sfx <> "".
Proof. destruct os; discriminate. Qed.

(** The quota check comes first and leaves everything as it is. *)
Lemma create_tmpfile_quota (os : platform) (o : tmp_oracle) (tmp : ofstream)
  (st : Machine) :
  tmpfile_num (proc st) = GP_MAX_TMP_FILES os - 1 ->
  create_tmpfile os o tmp st = (Raise (GnuplotException (quota_message os)), st).
Proof.
  intros H. unfold create_tmpfile, bind, get, throw. simpl.
  rewrite H, Z.eqb_refl. destruct os; reflexivity.
Qed.

(** The unique-name primitive: a name that no file has, or nothing. *)
Lemma unique_name_fails (os : platform) (o : option string) (fresh : file)
  (p : Process) :
  (forall sfx, o = Some sfx ->
               String.length sfx <> 6%nat \/ fs p !! tmp_name os sfx <> None) ->
  unique_name os o fresh p = (Normal None, p).
Proof.
  intros H. destruct o as [sfx|]; [|reflexivity].
  unfold unique_name, bind, get, ret. fold (tmp_name os sfx).
  cbn [fst snd].
  destruct (Nat.eqb_spec (String.length sfx) 6) as [Hl|Hl]; [|reflexivity].
  cbn [negb]. destruct (fs p !! tmp_name os sfx) eqn:E; [reflexivity|].
  destruct (H sfx eq_refl); congruence.
Qed.

Lemma unique_name_succeeds (os : platform) (sfx : string) (fresh : file)
  (p : Process) :
  String.length sfx = 6%nat -> fs p !! tmp_name os sfx = None ->
  unique_name os (Some sfx) fresh p =
  (Normal (Some (tmp_name os sfx)),
   match os with
   | Win32 => p
   | Unix => assign_fs (<[tmp_name os sfx := fresh]> (fs p)) p
   end).
Proof.
  intros Hl Hf. unfold unique_name, bind, get, put, ret.
  fold (tmp_name os sfx). rewrite Hl, Hf. destruct os; reflexivity.
Qed.

(** A failure of the unique-name primitive throws and leaves everything as
    it is. *)
Lemma create_tmpfile_no_name (os : platform) (o : tmp_oracle) (tmp : ofstream)
  (st : Machine) :
  tmpfile_num (proc st) <> GP_MAX_TMP_FILES os - 1 ->
  (forall sfx, unique_suffix o = Some sfx ->
     String.length sfx <> 6%nat \/ fs (proc st) !! tmp_name os sfx <> None) ->
  exists msg, create_tmpfile os o tmp st = (Raise (GnuplotException msg), st).
Proof.
  intros Hq Hn. unfold create_tmpfile, bind, get, static, throw.
  cbn [fst snd]. destruct (Z.eqb_spec (tmpfile_num (proc st))
                             (GP_MAX_TMP_FILES os - 1)); [contradiction|].
  rewrite (unique_name_fails os _ _ _ Hn). destruct st. eexists. reflexivity.
Qed.

(** With a name in hand and a default-constructed stream, the call returns:
    whether the stream could be opened or not, the name joins
    [tmpfile_list] and [tmpfile_num] is incremented. *)
Lemma create_tmpfile_named (os : platform) (o : tmp_oracle) (sfx : string)
  (st : Machine) :
  tmpfile_num (proc st) <> GP_MAX_TMP_FILES os - 1 ->
  unique_suffix o = Some sfx ->
  String.length sfx = 6%nat ->
  fs (proc st) !! tmp_name os sfx = None ->
  create_tmpfile os o default_ofstream st =
  (Normal (tmp_name os sfx, stream_after_create (can_open o) (tmp_name os sfx)),
   MkMachine
     (MkProcess (wrap_int (tmpfile_num (proc st) + 1))
                (m_sGNUPlotFileName (proc st)) (m_sGNUPlotPath (proc st))
                (files_after_create os (can_open o) (new_tmpfile o)
                                    (tmp_name os sfx) (fs (proc st))))
     (push_back_tmpfile (tmp_name os sfx) (self st))).
Proof.
  intros Hq Ho Hl Hf.
  unfold create_tmpfile, bind, get, static, member, throw, put, ret.
  destruct (Z.eqb_spec (tmpfile_num (proc st)) (GP_MAX_TMP_FILES os - 1));
    [contradiction|].
  rewrite Ho, (unique_name_succeeds os sfx _ (proc st) Hl Hf).
  unfold ofstream_open, default_ofstream, bind, get, put, ret.
  destruct st as [p g]. cbn [proc self] in *.
  generalize dependent (tmp_name os sfx). intros name Hf.
  destruct (can_open o), os; cbn; unfold files_after_create, assign_fs,
    truncated; cbn; rewrite ?Hf, ?lookup_insert_eq,
    ?insert_insert_eq; reflexivity.
Qed.

(** C5 at the failing input: the unique-name primitive has named the file
    and the stream cannot be opened.  [open] sets [failbit] and the function
    asks [bad()], so nothing is thrown: the name is returned, joins
    [tmpfile_list], and [tmpfile_num] is incremented (Windows, then unix,
    where the primitive has already created the file), whatever the
    permissions [r] and [w] of a created file are. *)
Theorem create_tmpfile_open_failure_unnoticed (r w : bool) :
  create_tmpfile Win32 (MkOracle (Some "a01234") false r w) default_ofstream
    (MkMachine (initial_process Win32 ∅)
               (MkGnuplot "" true false 0 "points" "" [])) =
  (Normal ("gnuplotia01234", MkOfstream None true false),
   MkMachine (MkProcess 1 "pgnuplot.exe" "C:/program files/gnuplot/bin/" ∅)
             (MkGnuplot "" true false 0 "points" "" ["gnuplotia01234"])) /\
  create_tmpfile Unix (MkOracle (Some "a01234") false r w) default_ofstream
    (MkMachine (initial_process Unix ∅)
               (MkGnuplot "" true false 0 "points" "" [])) =
  (Normal ("/tmp/gnuplotia01234", MkOfstream None true false),
   MkMachine (MkProcess 1 "gnuplot" "/usr/local/bin/"
                        {[ "/tmp/gnuplotia01234" := File "" r w false ]})
             (MkGnuplot "" true false 0 "points" "" ["/tmp/gnuplotia01234"])).
Proof.
  split.
  - rewrite (create_tmpfile_named Win32 _ "a01234"); try reflexivity.
    simpl; lia.
  - rewrite (create_tmpfile_named Unix _ "a01234"); try reflexivity.
    simpl; lia.
Qed.

(** ** Gnuplot::remove_tmpfiles *)

Lemma remove_each_present (f : string) (l : list string) (p : Process) (x : file) :
  fs p !! c_str f = Some x ->
  remove_each (f :: l) p =
  remove_each l (assign_fs (delete (c_str f) (fs p)) p).
Proof.
  intros H. cbn [remove_each]. unfold remove. monad_unfold.
  now rewrite H.
Qed.

(** An entry whose file is not there stops the loop at once. *)
Lemma remove_each_missing (f : string) (l : list string) (p : Process) :
  fs p !! c_str f = None ->
  remove_each (f :: l) p =
  (Raise (GnuplotException
            ("Cannot remove temporary file " ++ dq ++ f ++ dq)), p).
Proof.
  intros H. cbn [remove_each]. unfold remove. monad_unfold.
  rewrite H. cbn [negb Z.eqb]. rewrite !sstream_cons, sstream_nil, append_nil_r.
  now rewrite !append_assoc.
Qed.

Lemma remove_each_statics (l : list string) (p p' : Process) (r : outcome unit) :
  remove_each l p = (r, p') ->
  tmpfile_num p' = tmpfile_num p /\
  m_sGNUPlotFileName p' = m_sGNUPlotFileName p /\
  m_sGNUPlotPath p' = m_sGNUPlotPath p /\
  dom (fs p') ⊆ dom (fs p).
Proof.
  revert p. induction l as [|f l IH]; intros p H.
  - injection H as <- <-. repeat split; set_solver.
  - destruct (fs p !! c_str f) as [x|] eqn:E.
    + rewrite (remove_each_present _ _ _ _ E) in H.
      apply IH in H as (-> & -> & -> & Hd). repeat split; try reflexivity.
      cbn in Hd. rewrite dom_delete in Hd. set_solver.
    + rewrite (remove_each_missing _ _ _ E) in H.
      injection H as <- <-. repeat split; set_solver.
Qed.

(** The loop comes to its end exactly when it could remove every entry in
    turn: the paths are distinct files that were there, and they are gone. *)
Lemma remove_each_done (l : list string) (p p' : Process) :
  remove_each l p = (Normal tt, p') ->
  NoDup (c_paths l) /\
  (forall q, q ∈ c_paths l -> is_Some (fs p !! q)) /\
  (forall q, fs p' !! q = if decide (q ∈ c_paths l) then None else fs p !! q).
Proof.
  revert p. induction l as [|f l IH]; intros p H.
  - injection H as <-. split; [constructor|]. split.
    + intros q Hq. cbn in Hq. set_solver.
    + intros q. case_decide as Hq; [cbn in Hq; set_solver | reflexivity].
  - destruct (fs p !! c_str f) as [x|] eqn:E;
      [|rewrite (remove_each_missing _ _ _ E) in H; discriminate].
    rewrite (remove_each_present _ _ _ _ E) in H.
    apply IH in H as (Hnd & Hin & Hout). cbn in Hin, Hout.
    assert (Hf : c_str f ∉ c_paths l).
    { intros Hq. destruct (Hin _ Hq) as [y Hy].
      now rewrite lookup_delete_eq in Hy. }
    split; [cbn; now constructor|]. split.
    + intros q Hq. cbn in Hq. apply elem_of_cons in Hq as [-> | Hq]; [eauto|].
      destruct (Hin _ Hq) as [y Hy].
      destruct (decide (c_str f = q)) as [<- | Hne];
        [now rewrite lookup_delete_eq in Hy|].
      rewrite lookup_delete_ne in Hy by done. eauto.
    + intros q. rewrite Hout. cbn [c_paths map].
      destruct (decide (c_str f = q)) as [<- | Hne].
      * rewrite lookup_delete_eq.
        repeat case_decide; try reflexivity; set_solver.
      * rewrite lookup_delete_ne by done.
        repeat case_decide; try reflexivity; set_solver.
Qed.

(** ** Frames: what the other member functions leave alone *)

Lemma cmd_frame (cmdstr : string) (st st' : Machine) (r : outcome unit) :
  cmd cmdstr st = (r, st') ->
  proc st' = proc st /\ tmpfile_list (self st') = tmpfile_list (self st).
Proof.
  rewrite cmd_member. intros H. injection H as _ <-. cbn [proc self].
  split; [reflexivity|].
  unfold cmd_self. monad_unfold.
  repeat (match goal with |- context [if ?b then _ else _] => destruct b end);
    reflexivity.
Qed.

(** A member function that checks a file and then sends one command. *)
Lemma checked_cmd_frame (filename : string) (line : Machine -> string)
  (st st' : Machine) (r : outcome unit) :
  (static (file_available filename) ;;; st0 <- get ;; cmd (line st0)) st
    = (r, st') ->
  proc st' = proc st /\ tmpfile_list (self st') = tmpfile_list (self st).
Proof.
  pose proof (file_available_pure filename (proc st)) as Hp.
  monad_unfold. destruct (file_available filename (proc st)) as [[b|e] p].
  - cbn in Hp. subst p. destruct st as [p g]. cbn [proc self].
    intros H. now apply cmd_frame in H.
  - cbn in Hp. subst p. destruct st. intros H. now injection H as _ <-.
Qed.

Lemma plotfile_x_frame f c t (st st' : Machine) (r : outcome unit) :
  plotfile_x f c t st = (r, st') ->
  proc st' = proc st /\ tmpfile_list (self st') = tmpfile_list (self st).
Proof. apply (checked_cmd_frame f (fun st0 => _)). Qed.

Lemma plotfile_xy_frame f cx cy t (st st' : Machine) (r : outcome unit) :
  plotfile_xy f cx cy t st = (r, st') ->
  proc st' = proc st /\ tmpfile_list (self st') = tmpfile_list (self st).
Proof. apply (checked_cmd_frame f (fun st0 => _)). Qed.

Lemma plotfile_xy_err_frame f cx cy cd t (st st' : Machine) (r : outcome unit) :
  plotfile_xy_err f cx cy cd t st = (r, st') ->
  proc st' = proc st /\ tmpfile_list (self st') = tmpfile_list (self st).
Proof. apply (checked_cmd_frame f (fun st0 => _)). Qed.

Lemma plotfile_xyz_frame f cx cy cz t (st st' : Machine) (r : outcome unit) :
  plotfile_xyz f cx cy cz t st = (r, st') ->
  proc st' = proc st /\ tmpfile_list (self st') = tmpfile_list (self st).
Proof. apply (checked_cmd_frame f (fun st0 => _)). Qed.

(** ** Writing through a stream *)

Lemma same_tmp_refl (p : Process) : same_tmp p p.
Proof. split; reflexivity. Qed.

Lemma same_tmp_trans (p q r : Process) :
  same_tmp p q -> same_tmp q r -> same_tmp p r.
Proof. intros [H1 H2] [H3 H4]. split; congruence. Qed.

(** A write returns, and changes at most the contents of the stream's
    file. *)
Lemma ofstream_write_same (s : string) (tmp : ofstream) (p : Process) :
  exists tmp' p', ofstream_write s tmp p = (Normal tmp', p') /\ same_tmp p p'.
Proof.
  unfold ofstream_write. monad_unfold.
  destruct (failbit tmp || badbit tmp); [eauto using same_tmp_refl|].
  destruct (sink tmp) as [name|]; [|eauto using same_tmp_refl].
  do 2 eexists. split; [reflexivity|]. split; [reflexivity|].
  cbn. apply dom_alter_L.
Qed.

Lemma writer_ret {T} (t : T) : writer (ret t).
Proof. intros p. exists t, p. split; [reflexivity | apply same_tmp_refl]. Qed.

Lemma writer_bind {A B} (c : M Process A) (k : A -> M Process B) :
  writer c -> (forall a, writer (k a)) -> writer (bind c k).
Proof.
  intros Hc Hk p. destruct (Hc p) as (a & p1 & E1 & S1).
  destruct (Hk a p1) as (b & p2 & E2 & S2).
  exists b, p2. unfold bind. rewrite E1. split; [exact E2|].
  eapply same_tmp_trans; eassumption.
Qed.

Lemma writer_write (s : string) (tmp : ofstream) : writer (ofstream_write s tmp).
Proof. intros p. apply ofstream_write_same. Qed.

Lemma writer_for_loop {T} (body : nat -> T -> M Process T) (n i : nat) (t : T) :
  (forall j u, writer (body j u)) -> writer (for_loop n i body t).
Proof.
  intros Hb. revert i t. induction n as [|n IH]; intros i t; cbn [for_loop].
  - apply writer_ret.
  - apply writer_bind; [apply Hb | intros a; apply IH].
Qed.

Lemma writer_for_loop_uint {T} (body : nat -> T -> M Process T) (fuel : nat)
  (n i : Z) (t : T) :
  (forall j u, writer (body j u)) -> writer (for_loop_uint fuel n i body t).
Proof.
  intros Hb. revert i t. induction fuel as [|fuel IH]; intros i t;
    cbn [for_loop_uint].
  - apply writer_ret.
  - destruct (i <? n); [|apply writer_ret].
    apply writer_bind; [apply Hb | intros a; apply IH].
Qed.

Lemma writer_row_x {X} (show_x : X -> string) (x : list X) i tmp :
  writer (row_x show_x x i tmp).
Proof.
  unfold row_x. destruct (x !! i); [|apply writer_ret].
  repeat (apply writer_bind; [apply writer_write | intros ?]).
  apply writer_write.
Qed.

Lemma writer_row_xy {X Y} (show_x : X -> string) (show_y : Y -> string)
  (x : list X) (y : list Y) i tmp :
  writer (row_xy show_x show_y x y i tmp).
Proof.
  unfold row_xy. destruct (x !! i); [|apply writer_ret].
  destruct (y !! i); [|apply writer_ret].
  repeat (apply writer_bind; [apply writer_write | intros ?]).
  apply writer_write.
Qed.

Lemma writer_row_xyz {X Y Z3} (show_x : X -> string) (show_y : Y -> string)
  (show_z : Z3 -> string) (x : list X) (y : list Y) (z : list Z3) i tmp :
  writer (row_xyz show_x show_y show_z x y z i tmp).
Proof.
  unfold row_xyz. destruct (x !! i); [|apply writer_ret].
  destruct (y !! i); [|apply writer_ret].
  destruct (z !! i); [|apply writer_ret].
  repeat (apply writer_bind; [apply writer_write | intros ?]).
  apply writer_write.
Qed.

Lemma writer_image_cell (buf : list N) (iRow iColumn : nat) t :
  writer (image_cell buf iRow iColumn t).
Proof.
  unfold image_cell. destruct t as [tmp iIndex].
  destruct (read_byte buf iIndex); [|apply writer_ret].
  repeat (apply writer_bind; [apply writer_write | intros ?]).
  apply writer_ret.
Qed.

(** ** The effect of every member function on the temp files *)

(** [create_tmpfile] on a default-constructed stream: it throws and leaves
    everything as it is, or it returns as [create_tmpfile_named] says. *)
Lemma create_tmpfile_cases (os : platform) (o : tmp_oracle) (st : Machine) :
  (exists msg,
     create_tmpfile os o default_ofstream st = (Raise (GnuplotException msg), st)) \/
  (exists sfx,
     tmpfile_num (proc st) <> GP_MAX_TMP_FILES os - 1 /\
     unique_suffix o = Some sfx /\ String.length sfx = 6%nat /\
     fs (proc st) !! tmp_name os sfx = None).
Proof.
  destruct (decide (tmpfile_num (proc st) = GP_MAX_TMP_FILES os - 1)) as [Hq|Hq].
  { left. eexists. now apply create_tmpfile_quota. }
  destruct (unique_suffix o) as [sfx|] eqn:Ho.
  - destruct (decide (String.length sfx = 6%nat)) as [Hl|Hl].
    + destruct (fs (proc st) !! tmp_name os sfx) as [x|] eqn:Hf.
      * left. apply create_tmpfile_no_name; [exact Hq|].
        intros s Hs. rewrite Ho in Hs. injection Hs as <-. right. congruence.
      * right. exists sfx. auto.
    + left. apply create_tmpfile_no_name; [exact Hq|].
      intros s Hs. rewrite Ho in Hs. injection Hs as <-. now left.
  - left. apply create_tmpfile_no_name; [exact Hq|].
    intros s Hs. rewrite Ho in Hs. discriminate.
Qed.

Lemma dom_files_after_create (os : platform) (opened : bool) (fresh : file)
  (name : string) (files : gmap string file) :
  dom (files_after_create os opened fresh name files) ⊆ dom files ∪ {[name]}.
Proof.
  unfold files_after_create. destruct os, opened;
    rewrite ?dom_insert; set_solver.
Qed.

(** The shape the data plots share: allocate, write, send one command. *)
Lemma data_plot_effect (os : platform) (o : tmp_oracle) {T R : Type}
  (write : ofstream -> M Process T) (emit : string -> T -> M Machine R)
  (unnamed : M Machine R) (st st' : Machine) (r : outcome R) :
  (forall tmp, writer (write tmp)) ->
  (forall name t s s' r', emit name t s = (r', s') ->
     proc s' = proc s /\ tmpfile_list (self s') = tmpfile_list (self s)) ->
  (r0 <- create_tmpfile os o default_ofstream ;;
   let '(name, tmp) := r0 in
   if empty name then unnamed
   else t <- static (write tmp) ;; emit name t) st = (r, st') ->
  tmp_effect os (proc st) (self st) (proc st') (self st').
Proof.
  intros Hw He. unfold bind at 1.
  destruct (create_tmpfile_cases os o st) as [[msg E] | (sfx & Hq & Ho & Hl & Hf)].
  - rewrite E. intros H. injection H as _ <-. now apply effect_keep.
  - rewrite (create_tmpfile_named os o sfx st Hq Ho Hl Hf). cbv iota beta.
    destruct (empty (tmp_name os sfx)) eqn:Hn.
    { apply empty_spec in Hn. now apply tmp_name_nonempty in Hn. }
    unfold bind, static. cbn [proc self].
    match goal with |- context [write ?tmp ?p] =>
      destruct (Hw tmp p) as (t & p1 & E1 & [S1 S2]); rewrite E1 end.
    intros H. apply He in H as [Hp Hl']. cbn [proc self] in *.
    cbn [tmpfile_num fs] in S1, S2.
    apply effect_allocate with (name := tmp_name os sfx).
    + exact Hq.
    + now rewrite Hp, S1.
    + exact Hf.
    + rewrite Hp, S2. apply dom_files_after_create.
    + apply tmp_name_c_str.
    + now rewrite Hl'.
Qed.

Lemma keep_effect (os : platform) (st st' : Machine) :
  proc st' = proc st -> tmpfile_list (self st') = tmpfile_list (self st) ->
  tmp_effect os (proc st) (self st) (proc st') (self st').
Proof.
  intros Hp Hl. apply effect_keep; [now rewrite Hp | now rewrite Hp | exact Hl].
Qed.

(** A call and what is made of its result leave the same state. *)
Lemma bind_ret_state {St A B : Type} (c : M St A) (f : A -> B) (s s' : St)
  (r : outcome B) :
  (a <- c ;; ret (f a)) s = (r, s') -> exists r0, c s = (r0, s').
Proof.
  unfold bind, ret. destruct (c s) as [[a|e] s1]; intros H;
    injection H as _ <-; eauto.
Qed.

Lemma plot_x_effect {X} (show_x : X -> string) fuel os o (x : list X) title
  (st st' : Machine) (r : outcome (option unit)) :
  plot_x show_x fuel os o x title st = (r, st') ->
  tmp_effect os (proc st) (self st) (proc st') (self st').
Proof.
  unfold plot_x. destruct (length x =? 0)%nat.
  { intros H. injection H as _ <-. now apply effect_keep. }
  apply (data_plot_effect os o
           (for_loop_uint fuel (Z.of_nat (length x)) 0 (row_x show_x x))
           (fun name w =>
              match w with
              | None => ret None
              | Some _ => returns (plotfile_x name 1 title)
              end)).
  - intros tmp. apply writer_for_loop_uint. intros. apply writer_row_x.
  - intros name [t|] s s' r'.
    + intros H. apply (bind_ret_state _ Some) in H as [r0 H].
      now apply plotfile_x_frame in H.
    + intros H. injection H as _ <-. auto.
Qed.

Lemma plot_xy_effect {X Y} (show_x : X -> string) (show_y : Y -> string) os o
  (x : list X) (y : list Y) title (st st' : Machine) (r : outcome unit) :
  plot_xy show_x show_y os o x y title st = (r, st') ->
  tmp_effect os (proc st) (self st) (proc st') (self st').
Proof.
  unfold plot_xy. destruct ((length x =? 0)%nat || (length y =? 0)%nat).
  { intros H. injection H as _ <-. now apply effect_keep. }
  destruct (negb (length x =? length y)%nat).
  { intros H. injection H as _ <-. now apply effect_keep. }
  apply (data_plot_effect os o (for_loop (length x) 0 (row_xy show_x show_y x y))
           (fun name _ => plotfile_xy name 1 2 title)).
  - intros tmp. apply writer_for_loop. intros. apply writer_row_xy.
  - intros name t s s' r'. apply plotfile_xy_frame.
Qed.

Lemma plot_xy_err_effect {X Y Z3} (show_x : X -> string) (show_y : Y -> string)
  (show_z : Z3 -> string) os o (x : list X) (y : list Y) (dy : list Z3) title
  (st st' : Machine) (r : outcome unit) :
  plot_xy_err show_x show_y show_z os o x y dy title st = (r, st') ->
  tmp_effect os (proc st) (self st) (proc st') (self st').
Proof.
  unfold plot_xy_err.
  destruct ((length x =? 0)%nat || (length y =? 0)%nat || (length dy =? 0)%nat).
  { intros H. injection H as _ <-. now apply effect_keep. }
  destruct (negb (length x =? length y)%nat || negb (length y =? length dy)%nat).
  { intros H. injection H as _ <-. now apply effect_keep. }
  apply (data_plot_effect os o
           (for_loop (length x) 0 (row_xyz show_x show_y show_z x y dy))
           (fun name _ => plotfile_xy_err name 1 2 3 title)).
  - intros tmp. apply writer_for_loop. intros. apply writer_row_xyz.
  - intros name t s s' r'. apply plotfile_xy_err_frame.
Qed.

Lemma plot_xyz_effect {X Y Z3} (show_x : X -> string) (show_y : Y -> string)
  (show_z : Z3 -> string) os o (x : list X) (y : list Y) (z : list Z3) title
  (st st' : Machine) (r : outcome unit) :
  plot_xyz show_x show_y show_z os o x y z title st = (r, st') ->
  tmp_effect os (proc st) (self st) (proc st') (self st').
Proof.
  unfold plot_xyz.
  destruct ((length x =? 0)%nat || (length y =? 0)%nat || (length z =? 0)%nat).
  { intros H. injection H as _ <-. now apply effect_keep. }
  destruct (negb (length x =? length y)%nat || negb (length x =? length z)%nat).
  { intros H. injection H as _ <-. now apply effect_keep. }
  apply (data_plot_effect os o
           (for_loop (length x) 0 (row_xyz show_x show_y show_z x y z))
           (fun name _ => plotfile_xyz name 1 2 3 title)).
  - intros tmp. apply writer_for_loop. intros. apply writer_row_xyz.
  - intros name t s s' r'. apply plotfile_xyz_frame.
Qed.

Lemma plot_image_effect os o (buf : list N) (w h : nat) title
  (st st' : Machine) (r : outcome unit) :
  plot_image os o buf w h title st = (r, st') ->
  tmp_effect os (proc st) (self st) (proc st') (self st').
Proof.
  unfold plot_image.
  apply (data_plot_effect os o
           (fun tmp => for_loop h 0
                         (fun iRow => for_loop w 0 (image_cell buf iRow))
                         (tmp, 0))
           (fun name _ => st0 <- get ;; cmd _)).
  - intros tmp. apply writer_for_loop. intros j u. apply writer_for_loop.
    intros. apply writer_image_cell.
  - intros name t s s' r'. monad_unfold. apply cmd_frame.
Qed.

Lemma remove_tmpfiles_effect os (st st' : Machine) (r : outcome unit) :
  remove_tmpfiles st = (r, st') ->
  tmp_effect os (proc st) (self st) (proc st') (self st').
Proof.
  unfold remove_tmpfiles. monad_unfold.
  destruct (0 <? length (tmpfile_list (self st)))%nat.
  - destruct (remove_each (tmpfile_list (self st)) (proc st)) as [[[]|e] p1] eqn:E.
    + intros H. injection H as _ <-. cbn [proc self].
      pose proof (remove_each_statics _ _ _ _ E) as (Hn & _).
      apply remove_each_done in E as (Hnd & Hin & Hout).
      apply effect_release; try assumption; cbn; [|reflexivity].
      now rewrite Hn.
    + intros H. injection H as _ <-. cbn [proc self].
      apply remove_each_statics in E as (Hn & _ & _ & Hd).
      now apply effect_keep.
  - intros H. injection H as _ <-. now apply effect_keep.
Qed.

Lemma run_effect (os : platform) (c : call) (st st' : Machine)
  (r : outcome (option unit)) :
  run os c st = (r, st') ->
  tmp_effect os (proc st) (self st) (proc st') (self st').
Proof.
  assert (K : forall c0 : M Machine unit,
    (forall r0, c0 st = (r0, st') ->
       tmp_effect os (proc st) (self st) (proc st') (self st')) ->
    returns c0 st = (r, st') ->
    tmp_effect os (proc st) (self st) (proc st') (self st')).
  { intros c0 Hc H. apply (bind_ret_state _ Some) in H as [r0 H]. eauto. }
  destruct c; cbn [run]; try (apply K; clear K r; intros r).
  - intros H. apply cmd_frame in H as [Hp Hl]. now apply keep_effect.
  - unfold set_style. monad_unfold.
    destruct (negb (pstyle (self st) =? stylestr)%string && negb (empty stylestr));
      intros H; injection H as _ <-; now apply effect_keep.
  - unfold set_smooth, assign_smooth. monad_unfold.
    match goal with |- context [if ?b then _ else _] => destruct b end;
      intros H; injection H as _ <-; now apply effect_keep.
  - unfold reset_plot. monad_unfold.
    intros H; injection H as _ <-; now apply effect_keep.
  - unfold replot. monad_unfold. destruct (0 <? nplots (self st)).
    + intros H. apply cmd_frame in H as [Hp Hl]. now apply keep_effect.
    + intros H; injection H as _ <-; now apply effect_keep.
  - monad_unfold. rewrite set_GNUPlotPath_spec.
    intros H; injection H as _ <-; now apply effect_keep.
  - intros H. apply plotfile_x_frame in H as [Hp Hl]. now apply keep_effect.
  - intros H. apply plotfile_xy_frame in H as [Hp Hl]. now apply keep_effect.
  - intros H. apply plotfile_xy_err_frame in H as [Hp Hl]. now apply keep_effect.
  - intros H. apply plotfile_xyz_frame in H as [Hp Hl]. now apply keep_effect.
  - apply plot_x_effect.
  - apply plot_xy_effect.
  - apply plot_xy_err_effect.
  - apply plot_xyz_effect.
  - apply plot_image_effect.
  - apply remove_tmpfiles_effect.
Qed.

(** ** The counter covers the outstanding temp files *)

Lemma elem_of_owned (q : string) (ss : list Gnuplot) :
  q ∈ owned ss <-> exists g, g ∈ ss /\ q ∈ c_paths (tmpfile_list g).
Proof.
  unfold owned. rewrite elem_of_union_list. split.
  - intros (X & HX & Hq). apply list_elem_of_fmap in HX as (g & -> & Hg).
    exists g. split; [exact Hg|]. now apply elem_of_list_to_set in Hq.
  - intros (g & Hg & Hq). exists (list_to_set (c_paths (tmpfile_list g))).
    split; [|now apply elem_of_list_to_set].
    apply list_elem_of_fmap. eauto.
Qed.

(** Replacing session [i] changes what is owned by at most what the new
    session lists. *)
Lemma owned_insert (ss : list Gnuplot) (i : nat) (g g' : Gnuplot) (q : string) :
  ss !! i = Some g ->
  q ∈ owned (<[i := g']> ss) ->
  q ∈ owned ss \/ q ∈ c_paths (tmpfile_list g').
Proof.
  intros Hi. rewrite !elem_of_owned. intros (h & Hh & Hq).
  apply list_elem_of_lookup in Hh as [j Hj].
  destruct (decide (i = j)) as [<- | Hne].
  - rewrite list_lookup_insert_eq in Hj by (eapply lookup_lt_Some; eauto).
    injection Hj as <-. now right.
  - rewrite list_lookup_insert_ne in Hj by done.
    left. exists h. split; [|exact Hq]. eapply list_elem_of_lookup_2; eauto.
Qed.

Lemma owned_lookup (ss : list Gnuplot) (i : nat) (g : Gnuplot) (q : string) :
  ss !! i = Some g -> q ∈ c_paths (tmpfile_list g) -> q ∈ owned ss.
Proof.
  intros Hi Hq. apply elem_of_owned. exists g. split; [|exact Hq].
  eapply list_elem_of_lookup_2; eauto.
Qed.

Lemma c_paths_app (l1 l2 : list string) :
  c_paths (l1 ++ l2) = (c_paths l1 ++ c_paths l2)%list.
Proof. apply map_app. Qed.

Lemma effect_preserves_inv (os : platform) (s : System) (i : nat)
  (g g' : Gnuplot) (p' : Process) :
  counter_inv os s ->
  sessions s !! i = Some g ->
  tmp_effect os (process s) g p' g' ->
  counter_inv os (MkSystem p' (<[i := g']> (sessions s))).
Proof.
  unfold counter_inv, outstanding. cbn [process sessions].
  intros [Hlo Hhi] Hi Heff.
  set (D := dom (fs (process s))) in *.
  set (U := owned (sessions s)) in *.
  set (U' := owned (<[i := g']> (sessions s))).
  destruct Heff as [Hn Hd Hl | name Hq Hn Hfresh Hd Hc Hl | Hnd Hin Hout Hn Hl].
  - (* nothing but files lost *)
    rewrite Hn. split; [|exact Hhi].
    etransitivity; [|exact Hlo]. apply inj_le, subseteq_size.
    intros q [Hq1 Hq2]%elem_of_intersection. apply elem_of_intersection.
    split; [set_solver|].
    destruct (owned_insert _ _ _ _ _ Hi Hq2) as [|Hq3]; [assumption|].
    rewrite Hl in Hq3. eapply owned_lookup; eauto.
  - (* one temp file allocated *)
    assert (Hsz : (size (dom (fs p') ∩ U') <= size (D ∩ U) + 1)%nat).
    { etransitivity; [apply (subseteq_size _ ((D ∩ U) ∪ {[name]}))|].
      - intros q [Hq1 Hq2]%elem_of_intersection.
        destruct (decide (q = name)) as [-> | Hne]; [set_solver|].
        apply elem_of_union_l, elem_of_intersection. split; [set_solver|].
        destruct (owned_insert _ _ _ _ _ Hi Hq2) as [|Hq3]; [assumption|].
        rewrite Hl, c_paths_app in Hq3. cbn in Hq3. rewrite Hc in Hq3.
        apply elem_of_app in Hq3 as [Hq3 | Hq3]; [|set_solver].
        eapply owned_lookup; eauto.
      - rewrite size_union_alt.
        apply Nat.add_le_mono_l.
        rewrite <- (size_singleton (C := gset string) name).
        apply subseteq_size. set_solver. }
    assert (Hw : wrap_int (tmpfile_num (process s) + 1) =
                 tmpfile_num (process s) + 1).
    { apply wrap_int_id. unfold is_int, INT_MIN, INT_MAX.
      destruct os; cbn in *; lia. }
    rewrite Hn, Hw. lia.
  - (* the session's files released *)
    set (L := list_to_set (c_paths (tmpfile_list g)) : gset string).
    assert (HL : L ⊆ D ∩ U).
    { intros q Hq%elem_of_list_to_set. apply elem_of_intersection. split.
      - apply elem_of_dom. now apply Hin.
      - eapply owned_lookup; eauto. }
    assert (Hsub : dom (fs p') ∩ U' ⊆ (D ∩ U) ∖ L).
    { intros q [Hq1 Hq2]%elem_of_intersection.
      apply elem_of_dom in Hq1 as [x Hx]. rewrite Hout in Hx.
      case_decide as Hq; [discriminate|].
      apply elem_of_difference. split.
      - apply elem_of_intersection. split; [apply elem_of_dom; eauto|].
        destruct (owned_insert _ _ _ _ _ Hi Hq2) as [|Hq3]; [assumption|].
        rewrite Hl in Hq3. contradiction.
      - intros HqL%elem_of_list_to_set. contradiction. }
    assert (HsL : size L = length (tmpfile_list g)).
    { unfold L. rewrite size_list_to_set by exact Hnd.
      unfold c_paths. now rewrite length_map. }
    pose proof (subseteq_size _ _ Hsub) as Hs1.
    pose proof (size_difference _ _ HL) as Hs2.
    pose proof (subseteq_size _ _ HL) as Hs3.
    assert (Hw1 : wrap_int (Z.of_nat (length (tmpfile_list g))) =
                  Z.of_nat (length (tmpfile_list g))).
    { apply wrap_int_id. unfold is_int, INT_MIN, INT_MAX.
      destruct os; cbn in *; lia. }
    assert (Hw2 : wrap_int (tmpfile_num (process s) -
                            Z.of_nat (length (tmpfile_list g))) =
                  tmpfile_num (process s) - Z.of_nat (length (tmpfile_list g))).
    { apply wrap_int_id. unfold is_int, INT_MIN, INT_MAX.
      destruct os; cbn in *; lia. }
    rewrite Hn, Hw1, Hw2. lia.
Qed.

(** With the same process, sessions that own no more keep the invariant. *)
Lemma counter_inv_sessions (os : platform) (s : System) (ss : list Gnuplot) :
  counter_inv os s ->
  owned ss ⊆ owned (sessions s) ->
  counter_inv os (MkSystem (process s) ss).
Proof.
  unfold counter_inv, outstanding. cbn [process sessions].
  intros [Hlo Hhi] Hsub. split; [|exact Hhi].
  etransitivity; [|exact Hlo]. apply inj_le, subseteq_size. set_solver.
Qed.

(** Every reachable state keeps [counter_inv]. *)
Lemma reachable_counter_inv (os : platform) (s : System) :
  reachable os s -> counter_inv os s.
Proof.
  intros [files Hr]. revert s Hr. apply rtc_ind_r.
  - unfold counter_inv, outstanding, owned. cbn.
    rewrite intersection_empty_r_L, size_empty. destruct os; cbn; lia.
  - intros s1 s2 _ Hstep IH.
    destruct Hstep as [s g _ _ _ Hg | s i g Hi | s i | s i g c r st' Hi Hrun].
    + eapply counter_inv_sessions; [exact IH|]. cbn [sessions].
      intros q (h & Hh & Hq)%elem_of_owned. apply elem_of_owned.
      apply elem_of_app in Hh as [Hh | Hh]; [eauto|].
      apply list_elem_of_singleton in Hh. subst h. rewrite Hg in Hq.
      cbn in Hq. set_solver.
    + eapply counter_inv_sessions; [exact IH|]. cbn [sessions].
      intros q (h & Hh & Hq)%elem_of_owned.
      apply elem_of_app in Hh as [Hh | Hh]; [apply elem_of_owned; eauto|].
      apply list_elem_of_singleton in Hh. subst h.
      eapply owned_lookup; eauto.
    + eapply counter_inv_sessions; [exact IH|]. cbn [sessions].
      intros q (h & Hh & Hq)%elem_of_owned. apply elem_of_owned.
      exists h. split; [|exact Hq].
      eapply list_elem_of_delete_inv; exact Hh.
    + apply run_effect in Hrun. cbn [proc self] in Hrun.
      eapply effect_preserves_inv; eauto.
Qed.

(** ** The counter and the cap *)

(** The call that returns has incremented the counter, as an [int], and
    appended the name it returns, which is not empty. *)
Lemma create_tmpfile_returns (os : platform) (o : tmp_oracle) (tmp tmp' : ofstream)
  (st st' : Machine) (name : string) :
  create_tmpfile os o tmp st = (Normal (name, tmp'), st') ->
  tmpfile_num (proc st) <> GP_MAX_TMP_FILES os - 1 /\
  tmpfile_num (proc st') = wrap_int (tmpfile_num (proc st) + 1) /\
  tmpfile_list (self st') = (tmpfile_list (self st) ++ [name])%list /\
  name <> "".
Proof.
  unfold create_tmpfile. monad_unfold.
  destruct (Z.eqb_spec (tmpfile_num (proc st)) (GP_MAX_TMP_FILES os - 1))
    as [Hq|Hq]; [discriminate|].
  destruct (unique_suffix o) as [sfx|];
    [|rewrite unique_name_fails by (intros ? [=]); discriminate].
  destruct (decide (String.length sfx = 6%nat)) as [Hl|Hl];
    [|rewrite unique_name_fails by (intros ? [= <-]; now left); discriminate].
  destruct (fs (proc st) !! tmp_name os sfx) eqn:Hf;
    [rewrite unique_name_fails by (intros ? [= <-]; right; congruence);
     discriminate|].
  rewrite (unique_name_succeeds os sfx _ (proc st) Hl Hf).
  unfold ofstream_open. monad_unfold.
  destruct (sink tmp), (can_open o), (badbit tmp); cbn; try discriminate;
    intros [= <- <- <-]; cbn; repeat split; try assumption;
    try apply tmp_name_nonempty; destruct os; reflexivity.
Qed.

(** C4: in every state the process can reach, [tmpfile_num] is at most
    [GP_MAX_TMP_FILES - 1] (63 on unix, 26 on Windows); an allocation
    attempted while it equals that bound throws the quota error and changes
    nothing; and an allocation that returns has incremented it by exactly
    one. *)
Theorem tmpfile_num_bounded (os : platform) (s : System) :
  reachable os s ->
  tmpfile_num (process s) <= GP_MAX_TMP_FILES os - 1 /\
  GP_MAX_TMP_FILES os - 1 = match os with Unix => 63 | Win32 => 26 end /\
  forall (g : Gnuplot) (o : tmp_oracle) (tmp : ofstream),
    (tmpfile_num (process s) = GP_MAX_TMP_FILES os - 1 ->
       create_tmpfile os o tmp (MkMachine (process s) g) =
       (Raise (GnuplotException (quota_message os)), MkMachine (process s) g)) /\
    (forall name tmp' st',
       create_tmpfile os o tmp (MkMachine (process s) g) =
         (Normal (name, tmp'), st') ->
       tmpfile_num (proc st') = tmpfile_num (process s) + 1).
Proof.
  intros Hr. apply reachable_counter_inv in Hr as [Hlo Hhi].
  split; [exact Hhi|]. split; [now destruct os|].
  intros g o tmp. split.
  - intros Hq. now apply create_tmpfile_quota.
  - intros name tmp' st' H.
    apply create_tmpfile_returns in H as (_ & Hn & _). cbn [proc] in Hn.
    rewrite Hn. apply wrap_int_id. unfold is_int, INT_MIN, INT_MAX.
    destruct os; cbn in *; lia.
Qed.

Lemma example_start_reachable : reachable Unix example_start.
Proof. eexists. apply rtc_refl. Qed.

Lemma example_system_reachable : reachable Unix example_system.
Proof.
  destruct example_start_reachable as [files Hr]. exists files.
  eapply rtc_r; [eapply rtc_r; [exact Hr|]|].
  - apply (step_construct Unix example_start example_session); reflexivity.
  - unfold example_system.
    apply (step_call Unix
             (MkSystem (process example_start) [example_session])
             0 example_session example_call
             (fst (run Unix example_call
                       (MkMachine (process example_start) example_session)))).
    + reflexivity.
    + apply surjective_pairing.
Qed.

(** The theorem at work: after one data plot the counter is 1, under the
    bound 63. *)
Lemma tmpfile_num_bounded_witness :
  tmpfile_num (process example_system) = 1 /\
  tmpfile_num (process example_system) <= GP_MAX_TMP_FILES Unix - 1.
Proof.
  split; [vm_compute; reflexivity|].
  apply (tmpfile_num_bounded Unix example_system example_system_reachable).
Defined.

(** ** Gnuplot::remove_tmpfiles, called twice *)

Lemma remove_tmpfiles_nonempty (st : Machine) :
  tmpfile_list (self st) <> [] ->
  remove_tmpfiles st =
  (static (remove_each (tmpfile_list (self st))) ;;;
   static (p <- get ;;
           put (assign_tmpfile_num
                  (wrap_int (tmpfile_num p -
                             wrap_int (Z.of_nat (length (tmpfile_list (self st))))))
                  p))) st.
Proof.
  intros H. unfold remove_tmpfiles. unfold bind at 1, get at 1.
  destruct (tmpfile_list (self st)); [contradiction | reflexivity].
Qed.

(** C10: [remove_tmpfiles] does not clear [tmpfile_list].  When a session of
    a reachable process has a non-empty list and the call succeeds: the
    list is as before, every file it names was there and is gone, and the
    counter went down by the length of the list; a second call at once
    throws (the first [remove] fails), and leaves the counter and everything
    else as the first call left them. *)
Theorem remove_tmpfiles_twice (os : platform) (s : System) (i : nat)
  (g : Gnuplot) (st1 : Machine) :
  reachable os s ->
  sessions s !! i = Some g ->
  tmpfile_list g <> [] ->
  remove_tmpfiles (MkMachine (process s) g) = (Normal tt, st1) ->
  tmpfile_list (self st1) = tmpfile_list g /\
  (forall f, f ∈ tmpfile_list g ->
     is_Some (fs (process s) !! c_str f) /\ fs (proc st1) !! c_str f = None) /\
  tmpfile_num (proc st1) =
    tmpfile_num (process s) - Z.of_nat (length (tmpfile_list g)) /\
  exists msg, remove_tmpfiles st1 = (Raise (GnuplotException msg), st1).
Proof.
  intros Hreach Hi Hne Hrun.
  pose proof (reachable_counter_inv os s Hreach) as Hinv.
  pose proof (remove_tmpfiles_effect os _ _ _ Hrun) as Heff.
  pose proof (effect_preserves_inv os s i g (self st1) (proc st1) Hinv Hi Heff)
    as Hinv'.
  rewrite remove_tmpfiles_nonempty in Hrun by exact Hne.
  monad_unfold. cbn [proc self] in Hrun.
  destruct (remove_each (tmpfile_list g) (process s)) as [[[]|e] p1] eqn:E;
    [|discriminate].
  injection Hrun as <-. cbn [proc self] in *.
  pose proof (remove_each_statics _ _ _ _ E) as (Hn & _).
  apply remove_each_done in E as (Hnd & Hin & Hout).
  assert (Hgone : forall f, f ∈ tmpfile_list g -> fs p1 !! c_str f = None).
  { intros f Hf. rewrite Hout. rewrite decide_True; [reflexivity|].
    unfold c_paths. apply list_elem_of_fmap. eauto. }
  split; [reflexivity|]. split; [|split].
  - intros f Hf. split; [|now apply Hgone].
    apply Hin. unfold c_paths. apply list_elem_of_fmap. eauto.
  - (* the counter covered the files, so the subtraction is exact *)
    assert (Hlen : Z.of_nat (length (tmpfile_list g)) <= tmpfile_num (process s)).
    { destruct Hinv as [Hlo _]. etransitivity; [|exact Hlo].
      apply inj_le. rewrite <- (length_map c_str), <- (size_list_to_set
        (C := gset string)) by exact Hnd.
      apply subseteq_size. intros q Hq%elem_of_list_to_set.
      apply elem_of_intersection. split.
      - apply elem_of_dom. now apply Hin.
      - eapply owned_lookup; eauto. }
    destruct Hinv as [Hlo Hhi].
    assert (Hmax : GP_MAX_TMP_FILES os - 1 <= 63) by (destruct os; cbn; lia).
    rewrite Hn, (wrap_int_id (Z.of_nat _)), wrap_int_id; [reflexivity | |];
      unfold is_int, INT_MIN, INT_MAX; lia.
  - rewrite remove_tmpfiles_nonempty by exact Hne.
    monad_unfold. cbn [proc self].
    remember (tmpfile_list g) as L eqn:El. destruct L as [|f l]; [contradiction|].
    eexists. rewrite remove_each_missing by (apply Hgone; left).
    reflexivity.
Qed.

(** The theorem at work: the session of the small run removes its one
    file. *)
Lemma remove_tmpfiles_twice_witness :
  let g := MkGnuplot
             ("plot " ++ dq ++ "/tmp/gnuplotiabcdef" ++ dq ++
              " using 1:2 title " ++ dq ++ "t" ++ dq ++ " with lines" ++ nl)
             true true 1 "lines" "" ["/tmp/gnuplotiabcdef"] in
  let st1 := snd (remove_tmpfiles (MkMachine (process example_system) g)) in
  tmpfile_num (proc st1) = 0 /\
  exists msg, remove_tmpfiles st1 = (Raise (GnuplotException msg), st1).
Proof.
  intros g st1.
  assert (Hi : sessions example_system !! 0%nat = Some g)
    by (vm_compute; reflexivity).
  assert (Hne : tmpfile_list g <> []) by discriminate.
  assert (Hrun : remove_tmpfiles (MkMachine (process example_system) g) =
                 (Normal tt, st1)).
  { assert (Hfst : fst (remove_tmpfiles (MkMachine (process example_system) g))
                   = Normal tt) by (vm_compute; reflexivity).
    unfold st1. destruct (remove_tmpfiles _) as [r st].
    cbn in Hfst |- *. now rewrite Hfst. }
  destruct (remove_tmpfiles_twice Unix example_system 0 g st1
              example_system_reachable Hi Hne Hrun) as (_ & _ & Hnum & Hagain).
  split; [|exact Hagain].
  rewrite Hnum. vm_compute. reflexivity.
Defined.

(** ** Fields and lines *)

Lemma no_space_app (a b : string) :
  no_space (a ++ b) = no_space a && no_space b.
Proof.
  induction a as [|c a IH]; simpl; [reflexivity|].
  now rewrite IH, andb_assoc.
Qed.

Lemma append_empty (a b : string) : a ++ b = "" -> a = "" /\ b = "".
Proof. destruct a; simpl; [auto | discriminate]. Qed.

Lemma empty_app_false (a b : string) : empty b = false -> empty (a ++ b) = false.
Proof. destruct a; simpl; auto. Qed.

Lemma fields_from_word (w cur s : string) :
  no_space w = true -> fields_from cur (w ++ s) = fields_from (cur ++ w) s.
Proof.
  revert cur. induction w as [|c w IH]; intros cur Hw; simpl.
  - now rewrite append_nil_r.
  - simpl in Hw. apply andb_prop in Hw as [Hc Hw].
    apply negb_true_iff in Hc. rewrite Hc, IH by exact Hw.
    now rewrite append_assoc.
Qed.

(** Two words with one blank between them are two fields. *)
Lemma fields_two_words (a b : string) :
  a <> "" -> b <> "" -> no_space a = true -> no_space b = true ->
  fields (a ++ " " ++ b) = [a; b].
Proof.
  intros Ha Hb Hsa Hsb. unfold fields.
  rewrite fields_from_word by exact Hsa. simpl.
  apply empty_false in Ha. rewrite Ha.
  rewrite <- (append_nil_r b) at 1.
  rewrite fields_from_word by exact Hsb. simpl.
  apply empty_false in Hb. now rewrite Hb.
Qed.

Lemma no_space_newline (c : ascii) : is_space c = false -> Ascii.eqb c "010" = false.
Proof.
  unfold is_space. intros H. repeat (apply orb_false_elim in H as [H ?]).
  assumption.
Qed.

Lemma lines_from_text (w cur s : string) :
  no_space w = true -> lines_from cur (w ++ s) = lines_from (cur ++ w) s.
Proof.
  revert cur. induction w as [|c w IH]; intros cur Hw; simpl.
  - now rewrite append_nil_r.
  - simpl in Hw. apply andb_prop in Hw as [Hc Hw].
    apply negb_true_iff in Hc. rewrite (no_space_newline _ Hc), IH by exact Hw.
    now rewrite append_assoc.
Qed.

(** A row of two words is one line. *)
Lemma lines_from_row (a b rest : string) :
  no_space a = true -> no_space b = true ->
  lines (a ++ " " ++ b ++ nl ++ rest) =
  ((a ++ " " ++ b) :: fst (lines rest), snd (lines rest)).
Proof.
  intros Ha Hb. unfold lines.
  rewrite lines_from_text by exact Ha. simpl.
  rewrite lines_from_text by exact Hb. simpl.
  destruct (lines_from "" rest) as [ls r]. simpl.
  now rewrite !append_assoc.
Qed.

(** The rows of [plot_xy], read back: one line for each index, and on each
    line the two renderings. *)
Lemma rows_xy_lines {X Y : Type} (show_x : X -> string) (show_y : Y -> string)
  (x : list X) (y : list Y) :
  length x = length y ->
  Forall (fun a => show_x a <> "" /\ no_space (show_x a) = true) x ->
  Forall (fun b => show_y b <> "" /\ no_space (show_y b) = true) y ->
  exists ls, lines (rows_xy show_x show_y x y) = (ls, "") /\
    length ls = length x /\
    forall i a b, x !! i = Some a -> y !! i = Some b ->
      exists l, ls !! i = Some l /\ fields l = [show_x a; show_y b].
Proof.
  revert y. induction x as [|a x IH]; intros [|b y] Hlen Hx Hy;
    try discriminate.
  - exists []. repeat split. intros i a b H. discriminate.
  - apply Forall_cons in Hx as [[Ha1 Ha2] Hx].
    apply Forall_cons in Hy as [[Hb1 Hb2] Hy].
    destruct (IH y) as (ls & Hls & Hn & Hf); [simpl in Hlen; lia | assumption..|].
    exists ((show_x a ++ " " ++ show_y b) :: ls).
    cbn [rows_xy]. rewrite lines_from_row, Hls by assumption.
    split; [reflexivity|]. split; [simpl; lia|].
    intros [|i] a' b' Ha' Hb'; simpl in *.
    + injection Ha' as <-. injection Hb' as <-. eexists. split; [reflexivity|].
      now apply fields_two_words.
    + now apply Hf.
Qed.

(** ** What a double is printed as *)

Lemma show_uint_plain (n : N) : show_uint n <> "" /\ no_space (show_uint n) = true.
Proof.
  unfold show_uint, NilZero.string_of_uint.
  assert (H : forall d, no_space (NilEmpty.string_of_uint d) = true).
  { induction d; simpl; auto. }
  destruct (N.to_uint n) eqn:E; try (split; [discriminate | apply H]).
  split; [discriminate | reflexivity].
Qed.

Lemma no_space_substring (n m : nat) (s : string) :
  no_space s = true -> no_space (substring n m s) = true.
Proof.
  revert n m. induction s as [|c s IH]; intros n m H; simpl in *.
  - destruct n, m; reflexivity.
  - apply andb_prop in H as [Hc Hs].
    destruct n; [destruct m; simpl; [reflexivity | now rewrite Hc, IH]|].
    now apply IH.
Qed.

Lemma no_space_strip_zeros (s : string) :
  no_space s = true -> no_space (strip_zeros s) = true.
Proof.
  induction s as [|c s IH]; intros H; simpl in *; [reflexivity|].
  apply andb_prop in H as [Hc Hs].
  destruct (empty (strip_zeros s) && Ascii.eqb c "0"); simpl; [reflexivity|].
  now rewrite Hc, IH.
Qed.

Lemma no_space_zeros (n : nat) : no_space (zeros n) = true.
Proof. induction n; simpl; auto. Qed.

Lemma with_fraction_plain (whole frac : string) :
  whole <> "" -> no_space whole = true -> no_space frac = true ->
  with_fraction whole frac <> "" /\ no_space (with_fraction whole frac) = true.
Proof.
  intros Hw Hsw Hsf. unfold with_fraction.
  destruct (empty (strip_zeros frac)); [auto|]. split.
  - intros H. apply append_empty in H as [H _]. contradiction.
  - rewrite !no_space_app, Hsw, no_space_strip_zeros by exact Hsf. reflexivity.
Qed.

Lemma substring_head_nonempty (n : nat) (s : string) :
  s <> "" -> substring 0 (S n) s <> "".
Proof. destruct s; [congruence | discriminate]. Qed.

Lemma show_exponent_plain (k : Z) :
  show_exponent k <> "" /\ no_space (show_exponent k) = true.
Proof.
  unfold show_exponent. split; [discriminate|].
  destruct (show_uint_plain (Z.to_N (Z.abs k))) as [_ H].
  destruct (k <? 0), (String.length _ <? 2)%nat; simpl; exact H.
Qed.

Lemma show_positive_plain (num den : Z) :
  show_positive num den <> "" /\ no_space (show_positive num den) = true.
Proof.
  unfold show_positive. destruct (six_digits num den) as [d k].
  destruct (show_uint_plain (Z.to_N d)) as [Hne Hns].
  set (ds := show_uint (Z.to_N d)) in *.
  destruct ((-4 <=? k) && (k <? 6)).
  - destruct (Z.leb_spec 0 k) as [Hk|Hk].
    + apply with_fraction_plain.
      * replace (Z.to_nat (k + 1)) with (S (Z.to_nat k)) by lia.
        now apply substring_head_nonempty.
      * now apply no_space_substring.
      * now apply no_space_substring.
    + apply with_fraction_plain; [discriminate | reflexivity|].
      now rewrite no_space_app, no_space_zeros, Hns.
  - destruct (show_exponent_plain k) as [He1 He2].
    destruct (with_fraction_plain (substring 0 1 ds) (substring 1 5 ds))
      as [Hf1 Hf2].
    + now apply substring_head_nonempty.
    + now apply no_space_substring.
    + now apply no_space_substring.
    + split.
      * intros H. apply append_empty in H as [H _]. contradiction.
      * now rewrite no_space_app, Hf2, He2.
Qed.

(** A double is always printed as one non-empty word. *)
Lemma show_double_plain (d : double) :
  show_double d <> "" /\ no_space (show_double d) = true.
Proof.
  destruct d as [f|]; [|split; (discriminate || reflexivity)].
  unfold show_double, show_sign.
  destruct (Prim2SF f) as [s | s | | s m e].
  - destruct s; split; (discriminate || reflexivity).
  - destruct s; split; (discriminate || reflexivity).
  - split; (discriminate || reflexivity).
  - destruct (0 <=? e);
      match goal with |- context [show_positive ?a ?b] =>
        destruct (show_positive_plain a b) as [H1 H2] end;
      destruct s; simpl; rewrite ?H2; split; try reflexivity; try assumption;
      discriminate.
Qed.

(** ** The file a data plot writes *)

Lemma ofstream_write_open (s name : string) (p : Process) :
  ofstream_write s (MkOfstream (Some name) false false) p =
  (Normal (MkOfstream (Some name) false false), append_to name s p).
Proof. reflexivity. Qed.

Lemma append_to_nil (name : string) (p : Process) : append_to name "" p = p.
Proof.
  unfold append_to, assign_fs. destruct p as [n a b files]. cbn. f_equal.
  apply map_eq. intros k. destruct (decide (k = name)) as [-> | Hne].
  - rewrite lookup_alter_eq. destruct (files !! name) as [[c r w e]|]; cbn;
      [|reflexivity]. unfold append_contents. cbn. now rewrite append_nil_r.
  - now rewrite lookup_alter_ne.
Qed.

Lemma append_to_twice (name a b : string) (p : Process) :
  append_to name b (append_to name a p) = append_to name (a ++ b) p.
Proof.
  unfold append_to, assign_fs. cbn. f_equal.
  apply map_eq. intros k. destruct (decide (k = name)) as [-> | Hne].
  - rewrite !lookup_alter_eq. destruct (fs p !! name) as [[c r w e]|]; cbn;
      [|reflexivity]. unfold append_contents. cbn. now rewrite append_assoc.
  - now rewrite !lookup_alter_ne.
Qed.

(** The loop of [plot_xy], from the index where the rows [xs], [ys] begin:
    it returns and has appended these rows to the file. *)
Lemma write_rows_xy {X Y : Type} (show_x : X -> string) (show_y : Y -> string)
  (name : string) (xs : list X) (ys : list Y) (px : list X) (py : list Y)
  (p : Process) :
  length px = length py -> length xs = length ys ->
  for_loop (length xs) (length px)
           (row_xy show_x show_y (px ++ xs) (py ++ ys))
           (MkOfstream (Some name) false false) p =
  (Normal (MkOfstream (Some name) false false),
   append_to name (rows_xy show_x show_y xs ys) p).
Proof.
  revert ys px py p. induction xs as [|a xs IH]; intros [|b ys] px py p Hp Hl;
    try discriminate.
  - cbn. unfold ret. now rewrite append_to_nil.
  - cbn [length for_loop]. unfold bind at 1. unfold row_xy at 1.
    rewrite list_lookup_middle by reflexivity.
    rewrite list_lookup_middle by exact Hp.
    monad_unfold. rewrite !ofstream_write_open. rewrite !append_to_twice.
    replace (px ++ a :: xs)%list with ((px ++ [a]) ++ xs)%list
      by (now rewrite <- app_assoc).
    replace (py ++ b :: ys)%list with ((py ++ [b]) ++ ys)%list
      by (now rewrite <- app_assoc).
    replace (S (length px)) with (length (px ++ [a]))
      by (rewrite length_app; simpl; lia).
    rewrite IH.
    + rewrite append_to_twice. cbn [rows_xy]. now rewrite !append_assoc.
    + rewrite !length_app. simpl. lia.
    + simpl in Hl. lia.
Qed.

(** [plot_xy] on good input whose temp file is allocated and opened: the
    file holds the rows and nothing else. *)
Lemma plot_xy_contents {X Y : Type} (show_x : X -> string) (show_y : Y -> string)
  (os : platform) (o : tmp_oracle) (sfx : string) (x : list X) (y : list Y)
  (title : string) (st : Machine) :
  x <> [] -> length x = length y -> allocates os o sfx st ->
  exists f,
    fs (proc (snd (plot_xy show_x show_y os o x y title st))) !! tmp_name os sfx
      = Some f /\
    contents f = rows_xy show_x show_y x y.
Proof.
  intros Hx Hl (Hq & Ho & Hs & Hf & Hopen).
  unfold plot_xy.
  destruct x as [|a x]; [contradiction|]. destruct y as [|b y]; [discriminate|].
  replace ((length (a :: x) =? 0)%nat || (length (b :: y) =? 0)%nat)
    with false by reflexivity.
  rewrite Hl, Nat.eqb_refl. cbn [negb]. rewrite <- Hl.
  unfold bind at 1.
  rewrite (create_tmpfile_named os o sfx st Hq Ho Hs Hf). rewrite Hopen.
  cbv iota beta.
  destruct (empty (tmp_name os sfx)) eqn:Hn.
  { apply empty_spec in Hn. now apply tmp_name_nonempty in Hn. }
  unfold bind at 1. unfold static at 1. cbn [proc self stream_after_create].
  pose proof (write_rows_xy show_x show_y (tmp_name os sfx) (a :: x) (b :: y)
                [] [] ) as Hw. cbn [app length] in Hw.
  rewrite Hw by (reflexivity || exact Hl). clear Hw.
  match goal with |- context [plotfile_xy ?n ?c1 ?c2 ?t ?s] =>
    destruct (plotfile_xy n c1 c2 t s) as [r st'] eqn:E end.
  apply plotfile_xy_frame in E as [Hp _]. cbn [snd]. rewrite Hp. cbn [proc].
  unfold append_to, assign_fs. cbn [fs].
  assert (Hfiles : files_after_create os true (new_tmpfile o) (tmp_name os sfx)
                     (fs (proc st)) =
                   <[tmp_name os sfx := new_tmpfile o]> (fs (proc st)))
    by (now destruct os).
  rewrite Hfiles, lookup_alter_eq, lookup_insert_eq. cbn.
  eexists. split; reflexivity.
Qed.

(** C6 (as amended): for non-empty [x] and [y] of equal length, when the
    temp file is allocated and its stream opens, the file [plot_xy] has
    written holds exactly [len(x)] newline-terminated lines and nothing after
    them, and line [i] has exactly two whitespace-separated fields: what the
    stream prints for [x[i]] and for [y[i]] (six significant digits). *)
Theorem plot_xy_file (os : platform) (o : tmp_oracle) (sfx : string)
  (x y : list double) (title : string) (st : Machine) :
  x <> [] -> length x = length y -> allocates os o sfx st ->
  exists f ls,
    fs (proc (snd (plot_xy show_double show_double os o x y title st)))
      !! tmp_name os sfx = Some f /\
    lines (contents f) = (ls, "") /\
    length ls = length x /\
    forall i a b, x !! i = Some a -> y !! i = Some b ->
      exists l, ls !! i = Some l /\ fields l = [show_double a; show_double b].
Proof.
  intros Hx Hl Ha.
  destruct (plot_xy_contents show_double show_double os o sfx x y title st
              Hx Hl Ha) as (f & Hf & Hc).
  destruct (rows_xy_lines show_double show_double x y Hl) as (ls & H1 & H2 & H3).
  - apply Forall_forall. intros a _. apply show_double_plain.
  - apply Forall_forall. intros b _. apply show_double_plain.
  - exists f, ls. rewrite Hc. auto.
Qed.

(** The theorem at work: the data plot of the small run. *)
Lemma plot_xy_file_witness :
  exists f ls,
    fs (proc (snd (plot_xy show_double show_double Unix
                     (MkOracle (Some "abcdef") true true true)
                     [dbl 1%float; dbl 2%float; dbl 3%float]
                     [dbl 4%float; dbl 5%float; dbl 6%float]
                     "t"
                     (MkMachine (process example_start) example_session))))
      !! tmp_name Unix "abcdef" = Some f /\
    lines (contents f) = (ls, "") /\
    length ls = 3%nat /\
    forall i a b,
      [dbl 1%float; dbl 2%float; dbl 3%float] !! i = Some a ->
      [dbl 4%float; dbl 5%float; dbl 6%float] !! i = Some b ->
      exists l, ls !! i = Some l /\ fields l = [show_double a; show_double b].
Proof.
  apply (plot_xy_file Unix (MkOracle (Some "abcdef") true true true) "abcdef"
           [dbl 1%float; dbl 2%float; dbl 3%float]
           [dbl 4%float; dbl 5%float; dbl 6%float] "t"
           (MkMachine (process example_start) example_session)).
  - discriminate.
  - reflexivity.
  - unfold allocates. cbn. repeat split; try reflexivity. lia.
Defined.

(** Two doubles that differ and are printed alike. *)
Lemma show_double_not_injective :
  (dbl 1234567%float <> dbl 1234568%float) /\
  show_double (dbl 1234567%float) = "1.23457e+06" /\
  show_double (dbl 1234568%float) = "1.23457e+06".
Proof.
  split; [|split; vm_compute; reflexivity].
  intros H.
  apply (f_equal (fun d => match d with
                           | dbl f => Prim2SF f
                           | neg_nan => S754_nan
                           end)) in H.
  vm_compute in H. discriminate.
Qed.

(** C6, as the claim states it, fails: no reading of the fields gives back
    every [x[i]], because the stream prints only six significant digits.
    The files written for [x = [1234567]] and for [x = [1234568]] are the
    same. *)
Lemma plot_xy_file_not_parsed_back :
  ~ exists parse : string -> option double,
      forall x y : list double, x <> [] -> length x = length y ->
        exists f ls,
          fs (proc (snd (plot_xy show_double show_double Unix
                           (MkOracle (Some "abcdef") true true true) x y ""
                           (MkMachine (process example_start) example_session))))
            !! "/tmp/gnuplotiabcdef" = Some f /\
          lines (contents f) = (ls, "") /\
          length ls = length x /\
          forall i a b, x !! i = Some a -> y !! i = Some b ->
            exists l f1 f2, ls !! i = Some l /\ fields l = [f1; f2] /\
                            parse f1 = Some a /\ parse f2 = Some b.
Proof.
  intros [parse H].
  assert (Hp : forall v : double,
            show_double v = "1.23457e+06" -> parse "1.23457e+06" = Some v).
  { intros v Hv.
    destruct (H [v] [dbl 1%float]) as (f & ls & Hf & Hls & _ & Hrow);
      [discriminate | reflexivity |].
    destruct (plot_xy_contents show_double show_double Unix
                (MkOracle (Some "abcdef") true true true) "abcdef" [v] [dbl 1%float] ""
                (MkMachine (process example_start) example_session))
      as (f' & Hf' & Hc).
    - discriminate.
    - reflexivity.
    - unfold allocates. cbn. repeat split; try reflexivity. lia.
    - change (tmp_name Unix "abcdef") with "/tmp/gnuplotiabcdef" in Hf'.
      rewrite Hf in Hf'. injection Hf' as <-.
      cbn [rows_xy] in Hc. rewrite Hv in Hc.
      replace (show_double (dbl 1)) with "1" in Hc by (vm_compute; reflexivity).
      rewrite Hc in Hls. vm_compute in Hls. injection Hls as <-.
      destruct (Hrow 0%nat v (dbl 1%float) eq_refl eq_refl)
        as (l & f1 & f2 & Hl & Hfields & Hp1 & _).
      injection Hl as <-. vm_compute in Hfields. injection Hfields as <- _.
      exact Hp1. }
  destruct show_double_not_injective as (Hne & H1 & H2).
  apply Hne. apply Hp in H1. apply Hp in H2. congruence.
Qed.

(** ** Further properties *)

(** The first data plot of a session with style "lines",
    [plot_xy([1,2,3],[4,5,6],"t")]: one data file with the three rows, the
    line [plot "<path>" using 1:2 title "t" with lines] on the pipe,
    [nplots = 1] and [two_dim = true]. *)
Theorem plot_xy_first_scenario :
  let r := run Unix example_call
               (MkMachine (process example_start) example_session) in
  fst r = Normal (Some tt) /\
  fs (proc (snd r)) !! "/tmp/gnuplotiabcdef" =
    Some (File ("1 4" ++ nl ++ "2 5" ++ nl ++ "3 6" ++ nl) true true false) /\
  gnucmd (self (snd r)) =
    "plot " ++ dq ++ "/tmp/gnuplotiabcdef" ++ dq ++ " using 1:2 title " ++
    dq ++ "t" ++ dq ++ " with lines" ++ nl /\
  nplots (self (snd r)) = 1 /\ two_dim (self (snd r)) = true /\
  tmpfile_list (self (snd r)) = ["/tmp/gnuplotiabcdef"] /\
  tmpfile_num (proc (snd r)) = 1.
Proof. vm_compute. repeat split; reflexivity. Qed.

(** The second data plot of that session, [plot_xy([0,1],[0,1])]: a second
    data file, and a second line on the pipe, which begins with "replot";
    the line contains "replot", so [cmd] leaves the plot mode alone:
    [two_dim] is still true and [nplots] is still 1. *)
Theorem plot_xy_second_scenario :
  let r := run Unix example_call_2
               (MkMachine (process example_system) example_session_1) in
  fst r = Normal (Some tt) /\
  fs (proc (snd r)) !! "/tmp/gnuplotighijkl" =
    Some (File ("0 0" ++ nl ++ "1 1" ++ nl) true true false) /\
  gnucmd (self (snd r)) =
    gnucmd example_session_1 ++
    "replot " ++ dq ++ "/tmp/gnuplotighijkl" ++ dq ++
    " using 1:2 notitle with lines" ++ nl /\
  nplots (self (snd r)) = 1 /\ two_dim (self (snd r)) = true /\
  tmpfile_list (self (snd r)) = ["/tmp/gnuplotiabcdef"; "/tmp/gnuplotighijkl"] /\
  tmpfile_num (proc (snd r)) = 2.
Proof. vm_compute. repeat split; reflexivity. Qed.

(** [plot_x] of an empty sequence throws "std::vector too small" and leaves
    the whole state as it is: no file, no command, [nplots] unchanged. *)
Theorem plot_x_rejects_empty {X : Type} (show_x : X -> string) (fuel : nat)
  (os : platform) (o : tmp_oracle) (title : string) (st : Machine) :
  plot_x show_x fuel os o [] title st =
  (Raise (GnuplotException "std::vector too small"), st).
Proof. reflexivity. Qed.

(** [replot()] never changes the plot mode: it sends "replot" when
    [nplots > 0] and nothing otherwise, and [cmd] passes a line that contains
    "replot" without counting it. *)
Theorem replot_keeps_plot_mode (st : Machine) :
  exists g', replot st = (Normal tt, MkMachine (proc st) g') /\
    nplots g' = nplots (self st) /\ two_dim g' = two_dim (self st) /\
    gnucmd g' =
      (if (0 <? nplots (self st)) && valid (self st)
       then gnucmd (self st) ++ "replot" ++ nl else gnucmd (self st)).
Proof.
  unfold replot. monad_unfold. destruct st as [p g]. cbn [proc self].
  destruct (0 <? nplots g); cbn [andb].
  - rewrite cmd_member. cbn [proc self]. unfold cmd_self. monad_unfold.
    destruct (valid g); cbn [negb fst snd].
    + replace (not_npos (find "replot" "replot")) with true by reflexivity.
      eexists. split; [reflexivity|]. repeat split.
    + eexists. split; [reflexivity|]. repeat split.
  - eexists. split; [reflexivity|]. repeat split.
Qed.

(** What [create_tmpfile] does with a default-constructed stream, which is
    what every caller passes, and when.  While [tmpfile_num] is
    [GP_MAX_TMP_FILES - 1] it throws the quota message.  Below that, when the
    unique-name primitive gives no six characters that make the name of no
    file, it throws as well.  Either way the state is unchanged.  In every
    other case it returns the name the primitive made: the name has joined
    [tmpfile_list], [tmpfile_num] is incremented, and the stream is open on
    the file or, when it could not be opened, is closed with [failbit] set:
    the failure to open throws nothing. *)
Theorem create_tmpfile_outcomes (os : platform) (o : tmp_oracle) (st : Machine) :
  let call := create_tmpfile os o default_ofstream st in
  let full := tmpfile_num (proc st) = GP_MAX_TMP_FILES os - 1 in
  let named sfx :=
    unique_suffix o = Some sfx /\ String.length sfx = 6%nat /\
    fs (proc st) !! tmp_name os sfx = None in
  (full -> call = (Raise (GnuplotException (quota_message os)), st)) /\
  (~ full -> (forall sfx, ~ named sfx) ->
     exists msg, call = (Raise (GnuplotException msg), st)) /\
  (forall sfx, ~ full -> named sfx ->
     call =
     (Normal (tmp_name os sfx,
              if can_open o
              then MkOfstream (Some (tmp_name os sfx)) false false
              else MkOfstream None true false),
      MkMachine
        (MkProcess (wrap_int (tmpfile_num (proc st) + 1))
           (m_sGNUPlotFileName (proc st)) (m_sGNUPlotPath (proc st))
           (files_after_create os (can_open o) (new_tmpfile o)
              (tmp_name os sfx) (fs (proc st))))
        (push_back_tmpfile (tmp_name os sfx) (self st)))).
Proof.
  cbv zeta. split; [|split].
  - apply create_tmpfile_quota.
  - intros Hq Hn. apply create_tmpfile_no_name; [exact Hq|].
    intros sfx Ho.
    destruct (decide (String.length sfx = 6%nat)) as [Hl|Hl]; [|now left].
    right. intros Hf. now apply (Hn sfx).
  - intros sfx Hq (Ho & Hl & Hf).
    now rewrite (create_tmpfile_named os o sfx st Hq Ho Hl Hf).
Qed.

(** The statement at work on unix, when the creation mask has left the file
    without write permission and the stream cannot be opened: the call
    returns the name, with the file listed and counted. *)
Lemma create_tmpfile_outcomes_witness :
  create_tmpfile Unix (MkOracle (Some "abcdef") false true false)
    default_ofstream example_machine =
  (Normal ("/tmp/gnuplotiabcdef", MkOfstream None true false),
   MkMachine
     (MkProcess 1 "gnuplot" "/usr/local/bin/"
        (<["/tmp/gnuplotiabcdef" := File "" true false false]>
           (fs (process example_start))))
     (MkGnuplot "" true false 0 "lines" "" ["/tmp/gnuplotiabcdef"])).
Proof.
  pose proof (create_tmpfile_outcomes Unix
                (MkOracle (Some "abcdef") false true false) example_machine)
    as H0.
  cbv zeta in H0. destruct H0 as (_ & _ & H).
  rewrite (H "abcdef"); [reflexivity | cbn; lia | repeat split; reflexivity].
Defined.

(** ** More on strings *)

Lemma string_app_eq_app (x1 x2 y1 y2 : string) :
  x1 ++ x2 = y1 ++ y2 ->
  exists l, (x1 = y1 ++ l /\ y2 = l ++ x2) \/ (y1 = x1 ++ l /\ x2 = l ++ y2).
Proof.
  revert y1. induction x1 as [|c x1 IH]; intros y1 H.
  - exists y1. right. split; [reflexivity | exact H].
  - destruct y1 as [|d y1].
    + exists (String c x1). left. split; [reflexivity | symmetry; exact H].
    + simpl in H. injection H as -> H. destruct (IH _ H) as [l [[-> ->]|[-> ->]]];
        exists l; [left | right]; split; reflexivity.
Qed.

Lemma mem_char_app (c : ascii) (a b : string) :
  mem_char c (a ++ b) = mem_char c a || mem_char c b.
Proof.
  induction a as [|d a IH]; simpl; [reflexivity|].
  now rewrite IH, orb_assoc.
Qed.

Lemma mem_char_here (c : ascii) (a b : string) :
  mem_char c (a ++ String c b) = true.
Proof.
  rewrite mem_char_app. simpl. rewrite Ascii.eqb_refl. simpl.
  now rewrite orb_true_r.
Qed.

Lemma is_substring_nil (s : string) : is_substring "" s.
Proof. exists "", s. reflexivity. Qed.

Lemma is_substring_app_l (t a b : string) :
  is_substring t a -> is_substring t (a ++ b).
Proof.
  intros (pre & post & ->). exists pre, (post ++ b).
  now rewrite !append_assoc.
Qed.

Lemma is_substring_app_r (t a b : string) :
  is_substring t b -> is_substring t (a ++ b).
Proof.
  intros (pre & post & ->). exists (a ++ pre), post.
  now rewrite !append_assoc.
Qed.

(** A character that [t] does not have separates the occurrences of [t]. *)
Lemma is_substring_split (t a b : string) (c : ascii) :
  mem_char c t = false ->
  is_substring t (a ++ String c b) -> is_substring t a \/ is_substring t b.
Proof.
  intros Hc (pre & post & H).
  apply string_app_eq_app in H as [l [[-> H]|[-> H]]].
  - apply string_app_eq_app in H as [l2 [[-> H]|[-> ->]]].
    + destruct l2 as [|d l2].
      * left. exists pre, "". now rewrite !append_nil_r.
      * simpl in H. injection H as -> _.
        now rewrite mem_char_here in Hc.
    + left. exists pre, l2. reflexivity.
  - destruct l as [|d l].
    + simpl in H. destruct t as [|e t].
      * left. apply is_substring_nil.
      * simpl in H. injection H as <- _. simpl in Hc.
        now rewrite Ascii.eqb_refl in Hc.
    + simpl in H. injection H as _ ->. right. now exists l, post.
Qed.

Lemma is_substring_cons (t : string) (c : ascii) (s : string) :
  is_substring t (String c s) ->
  String.prefix t (String c s) = true \/ is_substring t s.
Proof.
  intros (pre & post & H). destruct pre as [|d pre].
  - left. apply prefix_spec. now exists post.
  - simpl in H. injection H as _ ->. right. now exists pre, post.
Qed.

(** A text free of "plot" is free of the longer words. *)
Lemma no_plot_plain (s : string) : ~ is_substring "plot" s -> plain s.
Proof.
  intros H. split; intros Hc; apply H;
    (eapply is_substring_trans; [|exact Hc]).
  - now exists "re", "".
  - now exists "s", "".
Qed.

(** ** What one line does to a session *)

Lemma cmd_sent (s : string) (st : Machine) :
  cmd s st = (Normal tt, MkMachine (proc st) (sent s (self st))).
Proof.
  rewrite cmd_member. unfold sent. f_equal.
  unfold cmd_self. monad_unfold.
  repeat (match goal with |- context [if ?b then _ else _] => destruct b end);
    reflexivity.
Qed.

Lemma sent_invalid (s : string) (g : Gnuplot) : valid g = false -> sent s g = g.
Proof.
  intros Hv. unfold sent, cmd_self. monad_unfold. now rewrite Hv.
Qed.

Lemma sent_settings (s : string) (g : Gnuplot) : same_settings g (sent s g).
Proof.
  unfold sent, cmd_self, same_settings. monad_unfold.
  repeat (match goal with |- context [if ?b then _ else _] => destruct b end);
    cbn; auto.
Qed.

Lemma sent_received (s : string) (g : Gnuplot) :
  valid g = true -> received (c_str (s ++ nl)) g (sent s g).
Proof.
  intros Hv. unfold sent, cmd_self, received. monad_unfold. rewrite Hv.
  cbn [negb].
  repeat (match goal with |- context [if ?b then _ else _] => destruct b end);
    reflexivity.
Qed.

(** The plot mode after a line, by the words the line has. *)
Lemma sent_replot (s : string) (g : Gnuplot) :
  is_substring "replot" s -> same_plot_mode g (sent s g).
Proof.
  intros H. apply find_spec in H.
  unfold sent, cmd_self, same_plot_mode. monad_unfold. rewrite H.
  destruct (valid g); cbn; auto.
Qed.

Lemma sent_no_plot (s : string) (g : Gnuplot) :
  ~ is_substring "plot" s -> same_plot_mode g (sent s g).
Proof.
  intros H. destruct (no_plot_plain s H) as [H1 H2].
  apply find_none in H, H1, H2.
  unfold sent, cmd_self, same_plot_mode. monad_unfold. rewrite H, H1, H2.
  destruct (valid g); cbn; auto.
Qed.

Lemma sent_splot (s : string) (g : Gnuplot) :
  valid g = true -> INT_MIN <= nplots g < INT_MAX ->
  ~ is_substring "replot" s -> is_substring "splot" s ->
  counted_plot false g (sent s g).
Proof.
  intros Hv Hn H1 H2. apply find_none in H1. apply find_spec in H2.
  unfold sent, cmd_self, counted_plot. monad_unfold. rewrite Hv, H1, H2. cbn.
  split; [reflexivity|]. apply wrap_int_id. unfold is_int, INT_MIN, INT_MAX in *. lia.
Qed.

Lemma sent_plot (s : string) (g : Gnuplot) :
  valid g = true -> INT_MIN <= nplots g < INT_MAX ->
  ~ is_substring "replot" s -> ~ is_substring "splot" s ->
  is_substring "plot" s ->
  counted_plot true g (sent s g).
Proof.
  intros Hv Hn H1 H2 H3. apply find_none in H1, H2. apply find_spec in H3.
  unfold sent, cmd_self, counted_plot. monad_unfold. rewrite Hv, H1, H2, H3. cbn.
  split; [reflexivity|]. apply wrap_int_id. unfold is_int, INT_MIN, INT_MAX in *. lia.
Qed.

Lemma same_settings_refl (g : Gnuplot) : same_settings g g.
Proof. unfold same_settings. auto. Qed.

Lemma same_settings_trans (g1 g2 g3 : Gnuplot) :
  same_settings g1 g2 -> same_settings g2 g3 -> same_settings g1 g3.
Proof. unfold same_settings. intuition congruence. Qed.

Lemma same_plot_mode_trans (g1 g2 g3 : Gnuplot) :
  same_plot_mode g1 g2 -> same_plot_mode g2 g3 -> same_plot_mode g1 g3.
Proof. unfold same_plot_mode. intuition congruence. Qed.

(** ** The characters of a printed number *)

Lemma all_chars_app (P : ascii -> bool) (a b : string) :
  all_chars P (a ++ b) = all_chars P a && all_chars P b.
Proof.
  induction a as [|c a IH]; simpl; [reflexivity|].
  now rewrite IH, andb_assoc.
Qed.

Lemma all_chars_substring (P : ascii -> bool) (n m : nat) (s : string) :
  all_chars P s = true -> all_chars P (substring n m s) = true.
Proof.
  revert n m. induction s as [|c s IH]; intros n m H; simpl in *.
  - destruct n, m; reflexivity.
  - apply andb_prop in H as [Hc Hs].
    destruct n; [destruct m; simpl; [reflexivity | now rewrite Hc, IH]|].
    now apply IH.
Qed.

Lemma all_chars_strip_zeros (P : ascii -> bool) (s : string) :
  all_chars P s = true -> all_chars P (strip_zeros s) = true.
Proof.
  induction s as [|c s IH]; intros H; simpl in *; [reflexivity|].
  apply andb_prop in H as [Hc Hs].
  destruct (empty (strip_zeros s) && Ascii.eqb c "0"); simpl; [reflexivity|].
  now rewrite Hc, IH.
Qed.

Lemma all_chars_zeros (n : nat) : all_chars number_char (zeros n) = true.
Proof. induction n; simpl; auto. Qed.

Lemma show_uint_chars (n : N) : all_chars number_char (show_uint n) = true.
Proof.
  unfold show_uint, NilZero.string_of_uint.
  assert (H : forall d, all_chars number_char (NilEmpty.string_of_uint d) = true).
  { induction d; simpl; auto. }
  destruct (N.to_uint n); try apply H. reflexivity.
Qed.

Lemma show_int_chars (z : Z) : all_chars number_char (show_int z) = true.
Proof.
  unfold show_int. destruct (z <? 0); [|apply show_uint_chars].
  rewrite all_chars_app, show_uint_chars. reflexivity.
Qed.

Lemma with_fraction_chars (whole frac : string) :
  all_chars number_char whole = true -> all_chars number_char frac = true ->
  all_chars number_char (with_fraction whole frac) = true.
Proof.
  intros Hw Hf. unfold with_fraction.
  destruct (empty (strip_zeros frac)); [exact Hw|].
  rewrite !all_chars_app, Hw, all_chars_strip_zeros by exact Hf. reflexivity.
Qed.

Lemma show_exponent_chars (k : Z) :
  all_chars number_char (show_exponent k) = true.
Proof.
  unfold show_exponent.
  pose proof (show_uint_chars (Z.to_N (Z.abs k))) as H.
  destruct (k <? 0), (String.length _ <? 2)%nat; simpl; exact H.
Qed.

Lemma show_positive_chars (num den : Z) :
  all_chars number_char (show_positive num den) = true.
Proof.
  unfold show_positive. destruct (six_digits num den) as [d k].
  pose proof (show_uint_chars (Z.to_N d)) as Hd.
  destruct ((-4 <=? k) && (k <? 6)).
  - destruct (0 <=? k).
    + apply with_fraction_chars; now apply all_chars_substring.
    + apply with_fraction_chars; [reflexivity|].
      now rewrite all_chars_app, all_chars_zeros, Hd.
  - rewrite all_chars_app, show_exponent_chars, andb_true_r.
    apply with_fraction_chars; now apply all_chars_substring.
Qed.

(** A double is printed with digits, a point, a sign, an exponent mark, or
    as "inf" or "nan". *)
Lemma show_double_chars (d : double) :
  all_chars number_char (show_double d) = true.
Proof.
  destruct d as [f|]; [|reflexivity].
  unfold show_double, show_sign.
  destruct (Prim2SF f) as [s | s | | s m e].
  - now destruct s.
  - now destruct s.
  - reflexivity.
  - rewrite all_chars_app.
    replace (all_chars number_char (if s then "-" else "")) with true
      by (now destruct s).
    destruct (0 <=? e); apply show_positive_chars.
Qed.

Lemma all_chars_mem (P : ascii -> bool) (c : ascii) (s : string) :
  all_chars P s = true -> mem_char c s = true -> P c = true.
Proof.
  induction s as [|d s IH]; simpl; [discriminate|].
  intros H1 H2. apply andb_prop in H1 as [Hd Hs].
  apply orb_prop in H2 as [H2|H2]; [|now apply IH].
  apply Ascii.eqb_eq in H2. now subst.
Qed.

(** A word with a letter that no number has is in no printed number. *)
Lemma number_no_word (t s : string) (c : ascii) :
  mem_char c t = true -> number_char c = false ->
  all_chars number_char s = true -> ~ is_substring t s.
Proof.
  intros Hc Hn Hs (pre & post & ->).
  rewrite !all_chars_app in Hs.
  apply andb_prop in Hs as [_ Hs]. apply andb_prop in Hs as [Hs _].
  rewrite (all_chars_mem _ _ _ Hs Hc) in Hn. discriminate.
Qed.

Lemma show_double_no_plot (t : string) (d : double) :
  mem_char "p" t = true -> ~ is_substring t (show_double d).
Proof.
  intros H. eapply number_no_word; [exact H | reflexivity|].
  apply show_double_chars.
Qed.

Lemma show_int_no_plot (t : string) (z : Z) :
  mem_char "p" t = true -> ~ is_substring t (show_int z).
Proof.
  intros H. eapply number_no_word; [exact H | reflexivity|].
  apply show_int_chars.
Qed.

Lemma is_substring_empty (t : string) : is_substring t "" -> t = "".
Proof.
  intros (pre & post & H). destruct pre; [|discriminate].
  destruct t; [reflexivity | discriminate].
Qed.

(** A line without "plot" in it is written and nothing else happens. *)
Lemma sent_fputs (s : string) (g : Gnuplot) :
  valid g = true -> ~ is_substring "plot" s ->
  sent s g = fputs (c_str (s ++ nl)) g.
Proof.
  intros Hv Hs. destruct (no_plot_plain s Hs) as [H1 H2].
  apply find_none in Hs, H1, H2.
  unfold sent, cmd_self. monad_unfold. now rewrite Hv, Hs, H1, H2.
Qed.

(** ** The small run, for the statements that follow *)

Lemma example_plain (s : string) :
  not_npos (find s "replot") = false -> not_npos (find s "splot") = false ->
  plain s.
Proof. intros H1 H2. split; now apply find_none. Qed.

Lemma example_int_range : INT_MIN <= 0 < INT_MAX.
Proof. unfold INT_MIN, INT_MAX. lia. Qed.

Lemma example_allocates :
  allocates Unix example_oracle "abcdef" example_machine.
Proof. unfold allocates. cbn. repeat split; try reflexivity. lia. Qed.

(** ** The switches *)

(** Decides whether a word is in a line that is written out. *)
Ltac literal_word :=
  match goal with
  | |- ~ is_substring _ _ => apply find_none; reflexivity
  | |- is_substring _ _ => apply find_spec; reflexivity
  end.

Lemma two_lines (a b : string) (st : Machine) :
  (cmd a ;;; cmd b) st =
  (Normal tt, MkMachine (proc st) (sent b (sent a (self st)))).
Proof. unfold bind. now rewrite !cmd_sent. Qed.

Lemma two_quiet_lines (a b : string) (g : Gnuplot) :
  ~ is_substring "plot" a -> ~ is_substring "plot" b ->
  same_settings g (sent b (sent a g)) /\ same_plot_mode g (sent b (sent a g)).
Proof.
  intros Ha Hb. split.
  - eapply same_settings_trans; apply sent_settings.
  - eapply same_plot_mode_trans; apply sent_no_plot; assumption.
Qed.

(** The functions without arguments, on a valid session whose plot count is
    below [INT_MAX]: each returns and leaves the process, the style, the
    smoothing and the temp files alone.  [set_multiplot] and
    [unset_multiplot] send a line that has "plot" in it, so [cmd] counts a
    2-D plot: [two_dim] becomes true and [nplots] grows by one.  The others
    leave [two_dim] and [nplots] alone. *)
Theorem switch_plot_mode (sw : switch) (st : Machine) :
  valid (self st) = true -> INT_MIN <= nplots (self st) < INT_MAX ->
  exists g',
    run_switch sw st = (Normal tt, MkMachine (proc st) g') /\
    same_settings (self st) g' /\
    match sw with
    | sw_set_multiplot | sw_unset_multiplot => counted_plot true (self st) g'
    | _ => same_plot_mode (self st) g'
    end.
Proof.
  intros Hv Hn.
  destruct sw; cbn [run_switch];
    unfold set_grid, unset_grid, set_multiplot, unset_multiplot, set_hidden3d,
      unset_hidden3d, unset_contour, set_surface, unset_surface, unset_legend,
      unset_title, set_title, operator_shl, set_xautoscale, set_yautoscale,
      set_zautoscale, unset_xlogscale, unset_ylogscale, unset_zlogscale;
    rewrite ?two_lines, ?cmd_sent; eexists; (split; [reflexivity|]);
    try (apply two_quiet_lines; literal_word);
    (split; [apply sent_settings|]);
    try (apply sent_no_plot; literal_word);
    apply sent_plot; try assumption; literal_word.
Qed.

(** The statement at work: [set_multiplot] on the session of the small run. *)
Lemma switch_plot_mode_witness :
  exists g',
    run_switch sw_set_multiplot
      (MkMachine (initial_process Unix ∅) example_session) =
    (Normal tt, MkMachine (initial_process Unix ∅) g') /\
    same_settings example_session g' /\ counted_plot true example_session g'.
Proof.
  apply (switch_plot_mode sw_set_multiplot
           (MkMachine (initial_process Unix ∅) example_session)).
  - reflexivity.
  - unfold INT_MIN, INT_MAX. simpl. lia.
Defined.

(** ** The settings that take numbers *)

(** Takes a line apart at its fixed characters: what is left is the word in
    one of the texts the line was put together from. *)
Ltac word_in H :=
  repeat match type of H with
  | is_substring _ (String _ _) =>
      apply is_substring_cons in H as [H|H]; [cbn in H; discriminate H|]
  | is_substring _ (_ ++ String _ _) =>
      apply is_substring_split in H as [H|H]; [ | | reflexivity]
  | is_substring _ EmptyString =>
      apply is_substring_empty in H; discriminate H
  end.

Ltac number_word H :=
  match type of H with
  | is_substring ?t (show_double ?d) => exact (show_double_no_plot t d eq_refl H)
  | is_substring ?t (show_int ?z) => exact (show_int_no_plot t z eq_refl H)
  end.

(** A setting that takes numbers never touches the plot mode, whatever the
    numbers: the line it sends has no "plot" in it.  It returns, and leaves
    the process, the style, the smoothing and the temp files alone too. *)
Theorem measure_plot_mode (m : measure) (st : Machine) :
  exists g',
    run_measure m st = (Normal tt, MkMachine (proc st) g') /\
    same_settings (self st) g' /\ same_plot_mode (self st) g'.
Proof.
  destruct m; cbn [run_measure];
    unfold set_xlogscale, set_ylogscale, set_zlogscale, set_pointsize,
      set_samples, set_isosamples, set_xrange, set_yrange, set_zrange,
      set_cbrange;
    rewrite cmd_sent; eexists; (split; [reflexivity|]);
    (split; [apply sent_settings|]); apply sent_no_plot;
    rewrite !sstream_cons, sstream_nil, ?append_nil_r; intros H;
    cbn [String.append] in H; word_in H; number_word H.
Qed.

(** ** The settings that take a text *)

Ltac word_of H :=
  first [ exact H
        | apply is_substring_app_l; word_of H
        | apply is_substring_app_r; word_of H ].

(** A line that has the three words where a text has them is treated as the
    text would be. *)
Lemma sent_plot_mode_as (line text : string) (g : Gnuplot) :
  valid g = true -> INT_MIN <= nplots g < INT_MAX ->
  (forall t, t = "replot" \/ t = "splot" \/ t = "plot" ->
             (is_substring t line <-> is_substring t text)) ->
  plot_mode_after text g (sent line g).
Proof.
  intros Hv Hn Hw.
  pose proof (Hw "replot" (or_introl eq_refl)) as Hr.
  pose proof (Hw "splot" (or_intror (or_introl eq_refl))) as Hs.
  pose proof (Hw "plot" (or_intror (or_intror eq_refl))) as Hp.
  unfold plot_mode_after. repeat split.
  - apply sent_replot. tauto.
  - apply sent_replot. tauto.
  - apply sent_splot; tauto.
  - apply sent_splot; tauto.
  - apply sent_plot; tauto.
  - apply sent_plot; tauto.
  - apply sent_no_plot. tauto.
  - apply sent_no_plot. tauto.
Qed.

(** [set_title], [set_xlabel], [set_ylabel], [set_zlabel] and [set_legend]
    on a valid session whose plot count is below [INT_MAX]: each returns and
    leaves the process, the style, the smoothing and the temp files alone,
    and it treats the plot mode as [cmd] would for the text alone.  A title
    or label with "plot" in it (and no "replot") is counted as a plot:
    [nplots] grows by one and [two_dim] becomes false when the text has
    "splot" and true when it has not. *)
Theorem caption_plot_mode (c : caption) (text : string) (st : Machine) :
  valid (self st) = true -> INT_MIN <= nplots (self st) < INT_MAX ->
  exists g',
    run_caption c text st = (Normal tt, MkMachine (proc st) g') /\
    same_settings (self st) g' /\
    plot_mode_after text (self st) g'.
Proof.
  intros Hv Hn.
  destruct c; cbn [run_caption];
    unfold set_title, operator_shl, set_xlabel, set_ylabel, set_zlabel,
      set_legend;
    rewrite cmd_sent; eexists; (split; [reflexivity|]);
    (split; [apply sent_settings|]);
    (apply sent_plot_mode_as; [exact Hv | exact Hn |]);
    rewrite ?sstream_cons, ?sstream_nil, ?append_nil_r;
    intros t [-> | [-> | ->]];
    (split; intros H;
     [unfold dq in H; cbn [String.append] in H; word_in H; exact H
     | word_of H]).
Qed.

(** The statement at work: a label with "plot" in it. *)
Lemma caption_plot_mode_witness :
  exists g',
    run_caption cp_set_xlabel "plot number"
      (MkMachine (initial_process Unix ∅) example_session) =
    (Normal tt, MkMachine (initial_process Unix ∅) g') /\
    same_settings example_session g' /\
    plot_mode_after "plot number" example_session g'.
Proof.
  apply (caption_plot_mode cp_set_xlabel "plot number"
           (MkMachine (initial_process Unix ∅) example_session)).
  - reflexivity.
  - unfold INT_MIN, INT_MAX. simpl. lia.
Defined.

(** [savetofigure(filename, terminal)] on a valid session whose plot count
    is below [INT_MAX], for a terminal without "plot" in its name: the pipe
    receives [set terminal <terminal>] and [set output "<filename>"], and the
    plot mode is treated as [cmd] would for the file name alone: saving to a
    file with "plot" in its name is counted as a plot. *)
Theorem savetofigure_plot_mode (filename terminal : string) (st : Machine) :
  valid (self st) = true -> INT_MIN <= nplots (self st) < INT_MAX ->
  ~ is_substring "plot" terminal ->
  exists g',
    savetofigure filename terminal st = (Normal tt, MkMachine (proc st) g') /\
    same_settings (self st) g' /\
    received (c_str ("set terminal " ++ terminal ++ nl) ++
              c_str ("set output " ++ dq ++ filename ++ dq ++ nl))
             (self st) g' /\
    plot_mode_after filename (self st) g'.
Proof.
  intros Hv Hn Ht. unfold savetofigure. rewrite two_lines.
  eexists. split; [reflexivity|].
  rewrite !sstream_cons, sstream_nil, !append_nil_r.
  set (l1 := "set terminal " ++ terminal).
  set (l2 := ("set output " ++ dq) ++ filename ++ dq).
  assert (H1 : ~ is_substring "plot" l1).
  { subst l1. intros H. cbn [String.append] in H. word_in H. contradiction. }
  pose proof (sent_settings l1 (self st)) as S1.
  pose proof (sent_no_plot l1 (self st) H1) as [M1 M2].
  pose proof (sent_received l1 (self st) Hv) as R1.
  assert (Hv1 : valid (sent l1 (self st)) = true)
    by (destruct S1 as [-> _]; exact Hv).
  pose proof (sent_received l2 _ Hv1) as R2.
  split; [eapply same_settings_trans; [exact S1 | apply sent_settings]|].
  split.
  - unfold received in *. rewrite R2, R1. subst l1 l2.
    now rewrite !append_assoc.
  - assert (Hm : plot_mode_after filename (sent l1 (self st))
                                 (sent l2 (sent l1 (self st)))).
    { apply sent_plot_mode_as; [exact Hv1 | now rewrite M2 |].
      subst l2. intros t [-> | [-> | ->]];
        (split; intros H;
         [unfold dq in H; cbn [String.append] in H; word_in H; exact H
         | word_of H]). }
    unfold plot_mode_after in *. now rewrite M1, M2 in Hm.
Qed.

(** The statement at work: saving to "plot.ps". *)
Lemma savetofigure_plot_mode_witness :
  exists g',
    savetofigure "plot.ps" "postscript"
      (MkMachine (initial_process Unix ∅) example_session) =
    (Normal tt, MkMachine (initial_process Unix ∅) g') /\
    same_settings example_session g' /\
    received (c_str ("set terminal " ++ "postscript" ++ nl) ++
              c_str ("set output " ++ dq ++ "plot.ps" ++ dq ++ nl))
             example_session g' /\
    plot_mode_after "plot.ps" example_session g'.
Proof.
  apply (savetofigure_plot_mode "plot.ps" "postscript"
           (MkMachine (initial_process Unix ∅) example_session)).
  - reflexivity.
  - unfold INT_MIN, INT_MAX. simpl. lia.
  - apply find_none. reflexivity.
Defined.

(** ** What the sending functions never do *)

Lemma only_sent_line (s : string) (g : Gnuplot) : only_sent g (sent s g).
Proof.
  split; [apply sent_settings|]. split.
  - destruct (valid g) eqn:Hv.
    + eexists. now apply sent_received.
    + exists "". rewrite sent_invalid by exact Hv. unfold received.
      now rewrite append_nil_r.
  - apply sent_invalid.
Qed.

Lemma only_sent_trans (g1 g2 g3 : Gnuplot) :
  only_sent g1 g2 -> only_sent g2 g3 -> only_sent g1 g3.
Proof.
  intros (S1 & (t1 & R1) & I1) (S2 & (t2 & R2) & I2).
  split; [eapply same_settings_trans; eassumption|]. split.
  - exists (t1 ++ t2). unfold received in *. now rewrite R2, R1, append_assoc.
  - intros Hv. rewrite I2; [now apply I1|]. rewrite (I1 Hv). exact Hv.
Qed.

Lemma only_sent_refl (g : Gnuplot) : only_sent g g.
Proof.
  split; [apply same_settings_refl|]. split; [|reflexivity].
  exists "". unfold received. now rewrite append_nil_r.
Qed.

(** No function that only sends lines ever throws, and none touches the
    process (the static members, the files) or the session's style,
    smoothing, validity and temp-file list: all it can do is add text to what
    the pipe has received and, through [cmd], change the plot mode.  On an
    invalid session it does nothing at all. *)
Theorem request_only_sends (r : request) (st : Machine) :
  exists g',
    run_request r st = (Normal tt, MkMachine (proc st) g') /\
    only_sent (self st) g'.
Proof.
  destruct r as [s | sw | m | c text | f t | p | a b t | e t | e t | ];
    cbn [run_request].
  - unfold operator_shl. rewrite cmd_sent. eexists. split; [reflexivity|].
    apply only_sent_line.
  - destruct sw; cbn [run_switch];
      unfold set_grid, unset_grid, set_multiplot, unset_multiplot, set_hidden3d,
        unset_hidden3d, unset_contour, set_surface, unset_surface, unset_legend,
        unset_title, set_title, operator_shl, set_xautoscale, set_yautoscale,
        set_zautoscale, unset_xlogscale, unset_ylogscale, unset_zlogscale;
      rewrite ?two_lines, ?cmd_sent; eexists; (split; [reflexivity|]);
      try apply only_sent_line;
      (eapply only_sent_trans; apply only_sent_line).
  - destruct m; cbn [run_measure];
      unfold set_xlogscale, set_ylogscale, set_zlogscale, set_pointsize,
        set_samples, set_isosamples, set_xrange, set_yrange, set_zrange,
        set_cbrange;
      rewrite cmd_sent; eexists; (split; [reflexivity|]);
      apply only_sent_line.
  - destruct c; cbn [run_caption];
      unfold set_title, operator_shl, set_xlabel, set_ylabel, set_zlabel,
        set_legend;
      rewrite cmd_sent; eexists; (split; [reflexivity|]);
      apply only_sent_line.
  - unfold savetofigure. rewrite two_lines. eexists. split; [reflexivity|].
    eapply only_sent_trans; apply only_sent_line.
  - unfold set_contour.
    match goal with |- context [if ?b then _ else _] => destruct b end;
      rewrite cmd_sent; eexists; (split; [reflexivity|]); apply only_sent_line.
  - unfold plot_slope. monad_unfold. rewrite cmd_sent. eexists.
    split; [reflexivity|]. apply only_sent_line.
  - unfold plot_equation. monad_unfold. rewrite cmd_sent. eexists.
    split; [reflexivity|]. apply only_sent_line.
  - unfold plot_equation3d. monad_unfold. rewrite cmd_sent. eexists.
    split; [reflexivity|]. apply only_sent_line.
  - unfold replot. monad_unfold.
    destruct (0 <? nplots (self st)).
    + rewrite cmd_sent. eexists. split; [reflexivity|]. apply only_sent_line.
    + exists (self st). split; [now destruct st|]. apply only_sent_refl.
Qed.

(** ** The plots of functions *)

(** A line that begins with the verb the session calls for, and has no
    other plot word after it. *)
Lemma sent_plot_line (d : bool) (rest : string) (g : Gnuplot) :
  valid g = true -> INT_MIN <= nplots g < INT_MAX -> plain rest ->
  after_plot d g
    (sent ((if (0 <? nplots g) && Bool.eqb (two_dim g) d then "replot "
            else if d then "plot " else "splot ") ++ rest) g).
Proof.
  intros Hv Hn [Hr Hs]. unfold after_plot.
  destruct (Z.ltb_spec 0 (nplots g)) as [Hpos|Hpos];
    [destruct (Bool.eqb (two_dim g) d) eqn:Hd|]; cbn [andb].
  - apply Bool.eqb_prop in Hd.
    destruct (sent_replot ("replot " ++ rest) g) as [-> ->].
    { now exists "", (" " ++ rest). }
    split; [exact Hd|]. case_decide; [reflexivity | tauto].
  - apply Bool.eqb_false_iff in Hd.
    case_decide; [tauto|].
    destruct d.
    + apply sent_plot; try assumption.
      * intros Hw. cbn [String.append] in Hw. word_in Hw. contradiction.
      * intros Hw. cbn [String.append] in Hw. word_in Hw. contradiction.
      * now exists "", (" " ++ rest).
    + apply sent_splot; try assumption.
      * intros Hw. cbn [String.append] in Hw. word_in Hw. contradiction.
      * now exists "", (" " ++ rest).
  - case_decide; [lia|].
    destruct d.
    + apply sent_plot; try assumption.
      * intros Hw. cbn [String.append] in Hw. word_in Hw. contradiction.
      * intros Hw. cbn [String.append] in Hw. word_in Hw. contradiction.
      * now exists "", (" " ++ rest).
    + apply sent_splot; try assumption.
      * intros Hw. cbn [String.append] in Hw. word_in Hw. contradiction.
      * now exists "", (" " ++ rest).
Qed.

(** Closes a goal [False] from a plot word found in a number or in a text
    that is known to be plain. *)
Ltac plain_word H :=
  first [ number_word H
        | match goal with Hp : plain _ |- _ => destruct Hp; contradiction end
        | contradiction ].

(** [plot_slope], [plot_equation] and [plot_equation3d] on a valid session
    whose plot count is below [INT_MAX], when the equation, the title and the
    style name neither "replot" nor "splot".  Each returns and leaves the
    process and the settings alone.  A 2-D plot leaves [two_dim] true, a 3-D
    plot leaves it false; the line is sent as "replot" and [nplots] is left
    as it is when the session already showed a plot of that dimension, and
    [nplots] grows by one otherwise. *)
Theorem function_plot_mode (title : string) (st : Machine) :
  valid (self st) = true -> INT_MIN <= nplots (self st) < INT_MAX ->
  plain title -> plain (pstyle (self st)) ->
  (forall a b, exists g',
     plot_slope a b title st = (Normal tt, MkMachine (proc st) g') /\
     same_settings (self st) g' /\ after_plot true (self st) g') /\
  (forall equation, plain equation -> exists g',
     plot_equation equation title st = (Normal tt, MkMachine (proc st) g') /\
     same_settings (self st) g' /\ after_plot true (self st) g') /\
  (forall equation, plain equation -> exists g',
     plot_equation3d equation title st = (Normal tt, MkMachine (proc st) g') /\
     same_settings (self st) g' /\ after_plot false (self st) g').
Proof.
  intros Hv Hn Ht Hp. split; [|split].
  - intros a b. unfold plot_slope. monad_unfold. rewrite cmd_sent.
    eexists. split; [reflexivity|]. split; [apply sent_settings|].
    destruct (empty title); cbn [app];
      rewrite !sstream_cons, sstream_nil, ?append_nil_r;
      (apply (sent_plot_line true); [exact Hv | exact Hn|]);
      split; intros Hw; unfold dq in Hw; cbn [String.append] in Hw;
      word_in Hw; plain_word Hw.
  - intros e He. unfold plot_equation. monad_unfold. rewrite cmd_sent.
    eexists. split; [reflexivity|]. split; [apply sent_settings|].
    destruct (empty title); cbn [app];
      rewrite !sstream_cons, sstream_nil, ?append_nil_r;
      (apply (sent_plot_line true); [exact Hv | exact Hn|]);
      split; intros Hw; unfold dq in Hw; cbn [String.append] in Hw;
      word_in Hw; plain_word Hw.
  - intros e He. unfold plot_equation3d. monad_unfold. rewrite cmd_sent.
    eexists. split; [reflexivity|]. split; [apply sent_settings|].
    destruct (empty title); cbn [app];
      rewrite !sstream_cons, sstream_nil, ?append_nil_r;
      (apply (sent_plot_line false); [exact Hv | exact Hn|]);
      split; intros Hw; unfold dq in Hw; cbn [String.append] in Hw;
      word_in Hw; plain_word Hw.
Qed.

(** The statement at work on the session of the small run, with title "t". *)
Lemma function_plot_mode_witness :
  (forall a b, exists g',
     plot_slope a b "t" example_machine =
       (Normal tt, MkMachine (proc example_machine) g') /\
     same_settings example_session g' /\ after_plot true example_session g') /\
  (forall equation, plain equation -> exists g',
     plot_equation equation "t" example_machine =
       (Normal tt, MkMachine (proc example_machine) g') /\
     same_settings example_session g' /\ after_plot true example_session g') /\
  (forall equation, plain equation -> exists g',
     plot_equation3d equation "t" example_machine =
       (Normal tt, MkMachine (proc example_machine) g') /\
     same_settings example_session g' /\ after_plot false example_session g').
Proof.
  apply (function_plot_mode "t" example_machine).
  - reflexivity.
  - exact example_int_range.
  - apply example_plain; reflexivity.
  - apply example_plain; reflexivity.
Defined.

(** ** The plots of a file *)

Lemma file_available_missing (filename : string) (p : Process) :
  fs p !! c_str filename = None ->
  file_available filename p =
  (Raise (GnuplotException ("File " ++ dq ++ filename ++ dq ++ " does not exist")),
   p).
Proof.
  intros Hf. unfold file_available, file_exists, access. monad_unfold.
  cbn. now rewrite Hf.
Qed.

Lemma file_available_unreadable (filename : string) (p : Process) (f : file) :
  fs p !! c_str filename = Some f -> f_read f = false ->
  file_available filename p =
  (Raise (GnuplotException
            ("No read permission for File " ++ dq ++ filename ++ dq)), p).
Proof.
  intros Hf Hr. unfold file_available, file_exists, access. monad_unfold.
  cbn. rewrite Hf. cbn. now rewrite Hf, Hr.
Qed.

(** A file plot of a file that is not there, or that may not be read,
    throws before anything is sent: the session and the process are as they
    were.  The message names the file. *)
Theorem file_plot_rejects (fp : file_plot) (filename title : string)
  (st : Machine) :
  (fs (proc st) !! c_str filename = None ->
   run_file_plot fp filename title st =
   (Raise (GnuplotException
             ("File " ++ dq ++ filename ++ dq ++ " does not exist")), st)) /\
  (forall f, fs (proc st) !! c_str filename = Some f -> f_read f = false ->
   run_file_plot fp filename title st =
   (Raise (GnuplotException
             ("No read permission for File " ++ dq ++ filename ++ dq)), st)).
Proof.
  split.
  - intros Hf. destruct st as [p g]. cbn [proc] in Hf.
    destruct fp; cbn [run_file_plot];
      unfold plotfile_x, plotfile_xy, plotfile_xy_err, plotfile_xyz;
      unfold bind at 1; unfold static; cbn [proc self];
      now rewrite (file_available_missing filename p Hf).
  - intros f Hf Hr. destruct st as [p g]. cbn [proc] in Hf.
    destruct fp; cbn [run_file_plot];
      unfold plotfile_x, plotfile_xy, plotfile_xy_err, plotfile_xyz;
      unfold bind at 1; unfold static; cbn [proc self];
      now rewrite (file_available_unreadable filename p f Hf Hr).
Qed.

(** [file_exists] with a mode outside 0..7 throws a [std::runtime_error]
    (not a [GnuplotException]); with a mode in 0..7 it returns, and a file
    that passes the check for any mode passes the check for existence.
    [file_available] never returns false: it returns true or throws a
    [GnuplotException].  None of them changes anything. *)
Theorem file_checks (filename : string) (p : Process) :
  (forall mode, mode < 0 \/ 7 < mode ->
     exists msg, file_exists filename mode p = (Raise (runtime_error msg), p)) /\
  (forall mode, 0 <= mode <= 7 ->
     exists b, file_exists filename mode p = (Normal b, p) /\
               (b = true -> file_exists filename 0 p = (Normal true, p))) /\
  (file_available filename p = (Normal true, p) \/
   exists msg, file_available filename p = (Raise (GnuplotException msg), p)).
Proof.
  split; [|split].
  - intros mode Hm. unfold file_exists.
    replace ((mode <? 0) || (7 <? mode)) with true
      by (symmetry; apply orb_true_iff; lia).
    eexists. reflexivity.
  - intros mode Hm. unfold file_exists.
    replace ((mode <? 0) || (7 <? mode)) with false
      by (symmetry; apply orb_false_iff; lia).
    cbn [Z.ltb Z.compare orb]. monad_unfold. eexists. split; [reflexivity|].
    unfold access. destruct (fs p !! c_str filename); [reflexivity|discriminate].
  - destruct (fs p !! c_str filename) as [f|] eqn:Hf.
    + destruct (f_read f) eqn:Hr.
      * left. now apply (file_available_ok filename p f).
      * right. eexists. now apply (file_available_unreadable filename p f).
    + right. eexists. now apply file_available_missing.
Qed.

Lemma show_uint_no_plot (t : string) (n : N) :
  mem_char "p" t = true -> ~ is_substring t (show_uint n).
Proof.
  intros H. eapply number_no_word; [exact H | reflexivity|].
  apply show_uint_chars.
Qed.

Ltac file_word H :=
  first [ match type of H with
          | is_substring ?t (show_uint ?n) =>
              exact (show_uint_no_plot t n eq_refl H)
          end
        | plain_word H
        | match goal with
          | Hp : plain ?s, H' : is_substring _ ?s |- _ =>
              destruct Hp; contradiction
          end ].

(** A file that is there and may be read: the check passes and the line is
    sent. *)
Lemma file_plot_run (fp : file_plot) (filename title : string)
  (st : Machine) (f : file) :
  fs (proc st) !! c_str filename = Some f -> f_read f = true ->
  valid (self st) = true -> INT_MIN <= nplots (self st) < INT_MAX ->
  plain filename -> plain title -> plain (pstyle (self st)) ->
  plain (smooth (self st)) ->
  exists g',
    run_file_plot fp filename title st = (Normal tt, MkMachine (proc st) g') /\
    same_settings (self st) g' /\
    after_plot (file_plot_2d fp) (self st) g'.
Proof.
  intros Hf Hr Hv Hn Pf Pt Pp Ps. destruct st as [p g]. cbn [proc self] in *.
  destruct fp; cbn [run_file_plot file_plot_2d];
    unfold plotfile_x, plotfile_xy, plotfile_xy_err, plotfile_xyz;
    unfold bind at 1; unfold static; cbn [proc self];
    rewrite (file_available_ok filename p f Hf Hr);
    unfold bind, get; cbn [self]; rewrite cmd_sent; cbn [proc self];
    eexists; (split; [reflexivity|]); (split; [apply sent_settings|]);
    destruct (empty title); try destruct (empty (smooth g)); cbn [app];
    rewrite !sstream_cons, sstream_nil, ?append_nil_r;
    (first [ apply (sent_plot_line true) | apply (sent_plot_line false) ];
     [exact Hv | exact Hn|]);
    split; intros Hw; unfold dq in Hw; cbn [String.append] in Hw;
    word_in Hw; file_word Hw.
Qed.

(** A file plot of a file that is there and may be read, on a valid session
    whose plot count is below [INT_MAX], when the file name, the title, the
    style and the smoothing name neither "replot" nor "splot": it returns and
    leaves the process and the settings alone; [plotfile_xyz] leaves
    [two_dim] false and the others leave it true; the line is sent as
    "replot" and [nplots] is left as it is when the session already showed a
    plot of that dimension, and [nplots] grows by one otherwise. *)
Theorem file_plot_mode (fp : file_plot) (filename title : string)
  (st : Machine) (f : file) :
  fs (proc st) !! c_str filename = Some f -> f_read f = true ->
  valid (self st) = true -> INT_MIN <= nplots (self st) < INT_MAX ->
  plain filename -> plain title -> plain (pstyle (self st)) ->
  plain (smooth (self st)) ->
  exists g',
    run_file_plot fp filename title st = (Normal tt, MkMachine (proc st) g') /\
    same_settings (self st) g' /\
    after_plot (file_plot_2d fp) (self st) g'.
Proof. apply file_plot_run. Qed.

(** The statement at work: [plotfile_xy("data.dat", 1, 2, "t")] on a fresh session. *)
Lemma file_plot_mode_witness :
  exists g',
    run_file_plot (fp_xy 1 2) "data.dat" "t" example_data =
      (Normal tt, MkMachine (proc example_data) g') /\
    same_settings example_session g' /\ after_plot true example_session g'.
Proof.
  apply (file_plot_mode (fp_xy 1 2) "data.dat" "t" example_data
           (File "1 2" true false false)).
  - reflexivity.
  - reflexivity.
  - reflexivity.
  - exact example_int_range.
  - apply example_plain; reflexivity.
  - apply example_plain; reflexivity.
  - apply example_plain; reflexivity.
  - apply example_plain; reflexivity.
Defined.

(** ** The data plots, from allocation to the line sent *)

Lemma c_str_prefix (s : string) : exists rest, s = c_str s ++ rest.
Proof.
  induction s as [|c s [rest IH]]; [now exists ""|]. simpl.
  destruct (Ascii.eqb c "000"); [now exists (String c s)|].
  exists rest. simpl. now rewrite <- IH.
Qed.

Lemma is_substring_c_str (t s : string) :
  is_substring t (c_str s) -> is_substring t s.
Proof.
  intros H. destruct (c_str_prefix s) as [rest Hs]. rewrite Hs.
  now apply is_substring_app_l.
Qed.

(** The name of a temp file has a plot word only where the six characters
    have one. *)
Lemma tmp_name_plain (os : platform) (sfx : string) :
  plain sfx -> plain (tmp_name os sfx).
Proof.
  intros [H1 H2]. unfold tmp_name, tmp_stem.
  split; intros Hw; apply is_substring_c_str in Hw;
    destruct os; cbn [String.append] in Hw; word_in Hw; contradiction.
Qed.

(** A loop that writes one text for each index. *)
Lemma write_texts (name : string) (body : nat -> ofstream -> M Process ofstream)
  (texts : list string) :
  forall (k : nat) (p : Process),
  (forall i t p0, texts !! i = Some t ->
     body (k + i)%nat (MkOfstream (Some name) false false) p0 =
     (Normal (MkOfstream (Some name) false false), append_to name t p0)) ->
  for_loop (length texts) k body (MkOfstream (Some name) false false) p =
  (Normal (MkOfstream (Some name) false false),
   append_to name (sstream texts) p).
Proof.
  induction texts as [|t texts IH]; intros k p Hbody.
  - cbn. unfold ret. now rewrite append_to_nil.
  - cbn [length for_loop]. unfold bind.
    pose proof (Hbody O t p eq_refl) as E. rewrite Nat.add_0_r in E.
    rewrite E, IH.
    + now rewrite append_to_twice, sstream_cons.
    + intros i t' p0 Hi. replace (S k + i)%nat with (k + S i)%nat by lia.
      now apply Hbody.
Qed.

(** The rows of the data plots, written through a stream that is open on
    [name]. *)
Lemma rows_written (name : string) (dp : data_plot) (p : Process) :
  accepted dp ->
  let open := MkOfstream (Some name) false false in
  match dp with
  | dp_x x => for_loop (length x) 0 (row_x show_double x) open p
  | dp_xy x y =>
      for_loop (length x) 0 (row_xy show_double show_double x y) open p
  | dp_xy_err x y dy =>
      for_loop (length x) 0
        (row_xyz show_double show_double show_double x y dy) open p
  | dp_xyz x y z =>
      for_loop (length x) 0
        (row_xyz show_double show_double show_double x y z) open p
  end =
  (Normal open, append_to name (file_text (printed_rows dp)) p).
Proof.
  intros Hacc. cbv zeta. unfold file_text.
  assert (H3 : forall (x y z : list double), length x = length y ->
    length x = length z ->
    for_loop (length x) 0 (row_xyz show_double show_double show_double x y z)
      (MkOfstream (Some name) false false) p =
    (Normal (MkOfstream (Some name) false false),
     append_to name
       (sstream
          (map (fun r => join " " r ++ nl)
             (zip_with (fun a bc => [show_double a; show_double (fst bc);
                                     show_double (snd bc)]) x (zip y z)))) p)).
  { intros x y z Hy Hz.
    replace (length x) with
      (length (map (fun r => join " " r ++ nl)
                 (zip_with (fun a bc => [show_double a; show_double (fst bc);
                                         show_double (snd bc)]) x (zip y z))))
      at 1.
    2:{ rewrite length_map, length_zip_with, length_zip. lia. }
    apply write_texts. intros i t p0 Hi. cbn [Nat.add].
    rewrite list_lookup_fmap in Hi.
    destruct (zip_with _ x (zip y z) !! i) as [r|] eqn:Er; [|discriminate].
    injection Hi as <-.
    apply lookup_zip_with_Some in Er as (a & [b c] & -> & Ha & Hbc).
    apply lookup_zip_with_Some in Hbc as (b' & c' & Hp & Hb & Hc).
    injection Hp as <- <-.
    unfold row_xyz. rewrite Ha, Hb, Hc. monad_unfold.
    rewrite !ofstream_write_open, !append_to_twice. cbn [join fst snd].
    repeat first [rewrite !append_assoc | progress cbn [String.append]].
    reflexivity. }
  destruct dp as [x | x y | x y dy | x y z]; cbn [accepted printed_rows] in *.
  - replace (length x) with
      (length (map (fun r => join " " r ++ nl)
                 (map (fun a => [show_double a]) x))) at 1
      by (now rewrite !length_map).
    apply write_texts. intros i t p0 Hi. cbn [Nat.add].
    rewrite !list_lookup_fmap in Hi.
    destruct (x !! i) as [a|] eqn:Ea; [|discriminate]. injection Hi as <-.
    unfold row_x. rewrite Ea. monad_unfold.
    rewrite !ofstream_write_open, !append_to_twice. reflexivity.
  - destruct Hacc as [_ Hl].
    replace (length x) with
      (length (map (fun r => join " " r ++ nl)
                 (zip_with (fun a b => [show_double a; show_double b]) x y)))
      at 1.
    2:{ rewrite length_map, length_zip_with. lia. }
    apply write_texts. intros i t p0 Hi. cbn [Nat.add].
    rewrite list_lookup_fmap in Hi.
    destruct (zip_with _ x y !! i) as [r|] eqn:Er; [|discriminate].
    injection Hi as <-.
    apply lookup_zip_with_Some in Er as (a & b & -> & Ha & Hb).
    unfold row_xy. rewrite Ha, Hb. monad_unfold.
    rewrite !ofstream_write_open, !append_to_twice. cbn [join].
    repeat first [rewrite !append_assoc | progress cbn [String.append]].
    reflexivity.
  - destruct Hacc as (_ & H1 & H2). apply H3; congruence.
  - destruct Hacc as (_ & H1 & H2). apply H3; congruence.
Qed.

Lemma returns_run {St A : Type} (c c' : M St A) (s s' : St) :
  c s = c' s' -> returns c s = returns c' s'.
Proof. unfold returns, bind. now intros ->. Qed.

(** A loop that counts with an [unsigned int] up to a bound that such a
    counter can reach is the loop over the indices, once the fuel covers its
    tests. *)
Lemma for_loop_uint_ends {St T : Type} (body : nat -> T -> M St T) (n : nat) :
  Z.of_nat n <= UINT_MAX ->
  forall (k i fuel : nat) (t : T) (s : St),
  (i + k = n)%nat -> (k < fuel)%nat ->
  for_loop_uint fuel (Z.of_nat n) (Z.of_nat i) body t s =
  returns (for_loop k i body t) s.
Proof.
  intros Hn. unfold UINT_MAX in Hn.
  induction k as [|k IH]; intros i fuel t s Hi Hf;
    (destruct fuel as [|fuel]; [lia|]); cbn [for_loop_uint for_loop].
  - destruct (Z.ltb_spec (Z.of_nat i) (Z.of_nat n)); [lia | reflexivity].
  - destruct (Z.ltb_spec (Z.of_nat i) (Z.of_nat n)); [|lia].
    rewrite Nat2Z.id.
    replace (wrap_uint (Z.of_nat i + 1)) with (Z.of_nat (S i))
      by (unfold wrap_uint; rewrite Z.mod_small; lia).
    unfold returns, bind. destruct (body i t s) as [[t'|e] s']; [|reflexivity].
    rewrite IH by lia. reflexivity.
Qed.

(** Against a bound that the counter cannot reach, the loop is still running
    after any number of tests. *)
Lemma for_loop_uint_runs_on {T : Type} (body : nat -> T -> M Process T)
  (n : Z) :
  UINT_MAX < n -> (forall j u, writer (body j u)) ->
  forall (fuel : nat) (i : Z) (t : T) (p : Process), 0 <= i <= UINT_MAX ->
  exists p',
    for_loop_uint fuel n i body t p = (Normal None, p') /\ same_tmp p p'.
Proof.
  intros Hn Hb. unfold UINT_MAX in *.
  induction fuel as [|fuel IH]; intros i t p Hi; cbn [for_loop_uint].
  - exists p. split; [reflexivity | apply same_tmp_refl].
  - destruct (Z.ltb_spec i n); [|lia].
    unfold bind. destruct (Hb (Z.to_nat i) t p) as (t' & p1 & E & S1).
    rewrite E.
    destruct (IH (wrap_uint (i + 1)) t' p1) as (p2 & E2 & S2).
    + unfold wrap_uint. pose proof (Z.mod_pos_bound (i + 1) (2 ^ 32)). lia.
    + exists p2. split; [exact E2 | eapply same_tmp_trans; eassumption].
Qed.

(** The file of a data plot when the temp file was allocated and opened and
    [text] was written to it: it has the permissions it was created with. *)
Lemma written_file (os : platform) (o : tmp_oracle) (name text : string)
  (n : Z) (a b : string) (files : gmap string file) :
  fs (append_to name text
        (MkProcess n a b
           (files_after_create os true (new_tmpfile o) name files))) !! name =
  Some (File text (created_read o) (created_write o) false).
Proof.
  unfold append_to, assign_fs. cbn [fs].
  replace (files_after_create os true (new_tmpfile o) name files)
    with (<[name := new_tmpfile o]> files) by (now destruct os).
  now rewrite lookup_alter_eq, lookup_insert_eq.
Qed.

(** The shape the data plots share, when the temp file is allocated and
    opened: the line is sent from a state where the file is listed, counted
    and written. *)
Lemma data_plot_run (os : platform) (o : tmp_oracle) (sfx : string)
  {T R : Type} (write : ofstream -> M Process T)
  (emit : string -> T -> M Machine R) (unnamed : M Machine R) (st : Machine)
  (text : string) (t0 : T) :
  allocates os o sfx st ->
  (forall p,
     write (MkOfstream (Some (tmp_name os sfx)) false false) p =
     (Normal t0, append_to (tmp_name os sfx) text p)) ->
  (r0 <- create_tmpfile os o default_ofstream ;;
   let '(name, tmp) := r0 in
   if empty name then unnamed
   else t <- static (write tmp) ;; emit name t) st =
  emit (tmp_name os sfx) t0 (after_writing os o (tmp_name os sfx) text st).
Proof.
  intros (Hq & Ho & Hl & Hf & Hopen) Hw.
  unfold bind at 1.
  rewrite (create_tmpfile_named os o sfx st Hq Ho Hl Hf), Hopen.
  cbv iota beta.
  destruct (empty (tmp_name os sfx)) eqn:Hn.
  { apply empty_spec in Hn. now apply tmp_name_nonempty in Hn. }
  unfold bind at 1. unfold static at 1. cbn [proc self stream_after_create].
  now rewrite Hw.
Qed.

(** A data plot of accepted vectors whose temp file is allocated and opened
    and whose loop ends is the file plot of that file, made after the rows
    were written. *)
Lemma data_plot_as_file_plot (fuel : nat) (os : platform) (o : tmp_oracle)
  (sfx : string) (dp : data_plot) (title : string) (st : Machine) :
  accepted dp -> loop_ends fuel dp -> allocates os o sfx st ->
  run_data_plot fuel os o dp title st =
  returns (run_file_plot (file_plot_of dp) (tmp_name os sfx) title)
    (after_writing os o (tmp_name os sfx) (file_text (printed_rows dp)) st).
Proof.
  intros Hd He Ha.
  pose proof (fun p => rows_written (tmp_name os sfx) dp p Hd) as Hw.
  destruct dp as [x | x y | x y dy | x y z];
    cbn [run_data_plot file_plot_of run_file_plot]; cbn [accepted] in Hd;
    cbn [loop_ends] in He; cbv zeta in Hw.
  - destruct He as [Hu Hfuel]. unfold plot_x.
    destruct x as [|a x]; [contradiction|].
    replace (length (a :: x) =? 0)%nat with false by reflexivity.
    rewrite (data_plot_run os o sfx
               (for_loop_uint fuel (Z.of_nat (length (a :: x))) 0
                  (row_x show_double (a :: x)))
               (fun n w =>
                  match w with
                  | None => ret None
                  | Some _ => returns (plotfile_x n 1 title)
                  end) _ st (file_text (printed_rows (dp_x (a :: x))))
               (Some (MkOfstream (Some (tmp_name os sfx)) false false)) Ha).
    + reflexivity.
    + intros p.
      rewrite (for_loop_uint_ends (row_x show_double (a :: x))
                 (length (a :: x)) Hu (length (a :: x)) 0 fuel) by lia.
      unfold returns, bind. now rewrite Hw.
  - destruct Hd as [Hx Hl]. unfold plot_xy.
    destruct x as [|a x]; [contradiction|]. destruct y as [|b y]; [discriminate|].
    replace ((length (a :: x) =? 0)%nat || (length (b :: y) =? 0)%nat)
      with false by reflexivity.
    rewrite (proj2 (Nat.eqb_eq _ _) Hl). cbn [negb]. apply returns_run.
    now rewrite (data_plot_run os o sfx _ (fun n _ => plotfile_xy n 1 2 title) _
                   st _ _ Ha Hw).
  - destruct Hd as (Hx & Hl & Hl'). unfold plot_xy_err.
    destruct x as [|a x]; [contradiction|]. destruct y as [|b y]; [discriminate|].
    destruct dy as [|c dy]; [discriminate|].
    replace ((length (a :: x) =? 0)%nat || (length (b :: y) =? 0)%nat ||
             (length (c :: dy) =? 0)%nat) with false by reflexivity.
    rewrite (proj2 (Nat.eqb_eq _ _) Hl), (proj2 (Nat.eqb_eq _ _) Hl').
    cbn [negb orb]. apply returns_run.
    now rewrite (data_plot_run os o sfx _
                   (fun n _ => plotfile_xy_err n 1 2 3 title) _ st _ _ Ha Hw).
  - destruct Hd as (Hx & Hl & Hl'). unfold plot_xyz.
    destruct x as [|a x]; [contradiction|]. destruct y as [|b y]; [discriminate|].
    destruct z as [|c z]; [discriminate|].
    replace ((length (a :: x) =? 0)%nat || (length (b :: y) =? 0)%nat ||
             (length (c :: z) =? 0)%nat) with false by reflexivity.
    rewrite (proj2 (Nat.eqb_eq _ _) Hl), (proj2 (Nat.eqb_eq _ _) Hl').
    cbn [negb orb]. apply returns_run.
    now rewrite (data_plot_run os o sfx _
                   (fun n _ => plotfile_xyz n 1 2 3 title) _ st _ _ Ha Hw).
Qed.

Lemma file_plot_of_2d (dp : data_plot) :
  file_plot_2d (file_plot_of dp) = data_plot_2d dp.
Proof. now destruct dp. Qed.

(** Allocation, rows and line, one after the other. *)
Lemma data_plot_sent (fuel : nat) (os : platform) (o : tmp_oracle)
  (sfx : string) (dp : data_plot) (title : string) (st : Machine) :
  accepted dp -> loop_ends fuel dp -> allocates os o sfx st ->
  created_read o = true ->
  valid (self st) = true -> INT_MIN <= nplots (self st) < INT_MAX ->
  plain sfx -> plain title -> plain (pstyle (self st)) ->
  plain (smooth (self st)) ->
  exists p' g',
    run_data_plot fuel os o dp title st = (Normal (Some tt), MkMachine p' g') /\
    after_plot (data_plot_2d dp) (self st) g' /\
    tmpfile_list g' = (tmpfile_list (self st) ++ [tmp_name os sfx])%list /\
    valid g' = true /\ pstyle g' = pstyle (self st) /\
    smooth g' = smooth (self st).
Proof.
  intros Hd He Ha Hr Hv Hn Psfx Pt Pp Ps.
  rewrite (data_plot_as_file_plot fuel os o sfx dp title st Hd He Ha).
  set (st1 := after_writing os o (tmp_name os sfx)
                (file_text (printed_rows dp)) st).
  destruct (file_plot_run (file_plot_of dp) (tmp_name os sfx) title st1
              (File (file_text (printed_rows dp)) (created_read o)
                    (created_write o) false))
    as (g' & E & S & A);
    [ rewrite tmp_name_c_str; apply written_file | exact Hr
    | exact Hv | exact Hn | now apply tmp_name_plain | exact Pt | exact Pp
    | exact Ps | ].
  exists (proc st1), g'. unfold returns, bind, ret. rewrite E.
  split; [reflexivity|].
  rewrite <- file_plot_of_2d. split; [exact A|].
  destruct S as (-> & -> & -> & ->). subst st1. cbn. auto.
Qed.

(** A data plot of vectors that are accepted and that its loop can count,
    when the temp file is allocated, opened and may be read, on a valid
    session whose plot count is below [INT_MAX], when the six characters of
    the file's name, the title, the style and the smoothing name neither
    "replot" nor "splot": it returns, the name of the temp file joins
    [tmpfile_list], [plot_xyz] leaves [two_dim] false and the others leave it
    true, and [nplots] grows by one unless the session already showed a plot
    of that dimension: then the line is sent as "replot" and [nplots] is left
    as it is. *)
Theorem data_plot_mode (fuel : nat) (os : platform) (o : tmp_oracle)
  (sfx : string) (dp : data_plot) (title : string) (st : Machine) :
  accepted dp -> loop_ends fuel dp -> allocates os o sfx st ->
  created_read o = true ->
  valid (self st) = true -> INT_MIN <= nplots (self st) < INT_MAX ->
  plain sfx -> plain title -> plain (pstyle (self st)) ->
  plain (smooth (self st)) ->
  exists p' g',
    run_data_plot fuel os o dp title st = (Normal (Some tt), MkMachine p' g') /\
    after_plot (data_plot_2d dp) (self st) g' /\
    tmpfile_list g' = (tmpfile_list (self st) ++ [tmp_name os sfx])%list /\
    valid g' = true /\ pstyle g' = pstyle (self st) /\
    smooth g' = smooth (self st).
Proof. apply data_plot_sent. Qed.

(** The statement at work: a first [plot_x] of two values on the session of
    the small run, whose loop makes three tests. *)
Lemma data_plot_mode_witness :
  exists p' g',
    run_data_plot 3 Unix example_oracle
      (dp_x [dbl 1%float; dbl 2%float]) "t" example_machine =
      (Normal (Some tt), MkMachine p' g') /\
    after_plot true example_session g' /\
    tmpfile_list g' = [tmp_name Unix "abcdef"] /\
    valid g' = true /\ pstyle g' = "lines" /\ smooth g' = "".
Proof.
  apply (data_plot_mode 3 Unix example_oracle "abcdef"
           (dp_x [dbl 1%float; dbl 2%float]) "t" example_machine).
  - discriminate.
  - cbn. unfold UINT_MAX. lia.
  - exact example_allocates.
  - reflexivity.
  - reflexivity.
  - exact example_int_range.
  - apply example_plain; reflexivity.
  - apply example_plain; reflexivity.
  - apply example_plain; reflexivity.
  - apply example_plain; reflexivity.
Defined.

(** ** The file of a data plot *)

Lemma lines_from_line (w cur s : string) :
  all_chars (fun c => negb (Ascii.eqb c "010")) w = true ->
  lines_from cur (w ++ s) = lines_from (cur ++ w) s.
Proof.
  revert cur. induction w as [|c w IH]; intros cur Hw; simpl.
  - now rewrite append_nil_r.
  - simpl in Hw. apply andb_prop in Hw as [Hc Hw].
    apply negb_true_iff in Hc. rewrite Hc, IH by exact Hw.
    now rewrite append_assoc.
Qed.

Lemma join_line (r : list string) :
  Forall (fun t => t <> "" /\ no_space t = true) r ->
  all_chars (fun c => negb (Ascii.eqb c "010")) (join " " r) = true.
Proof.
  assert (Hw : forall t, no_space t = true ->
             all_chars (fun c => negb (Ascii.eqb c "010")) t = true).
  { induction t as [|c t IH]; [reflexivity|]. cbn. intros H.
    apply andb_prop in H as [Hc Ht]. apply negb_true_iff in Hc.
    now rewrite (no_space_newline _ Hc), IH. }
  induction 1 as [|a r [_ Ha] Hr IH]; [reflexivity|].
  destruct r as [|b r]; [now apply Hw|].
  change (join " " (a :: b :: r)) with (a ++ String " " (join " " (b :: r))).
  rewrite all_chars_app, Hw by exact Ha. cbn [all_chars andb].
  rewrite IH. reflexivity.
Qed.

Lemma join_fields (r : list string) :
  Forall (fun t => t <> "" /\ no_space t = true) r ->
  fields (join " " r) = r.
Proof.
  unfold fields. induction 1 as [|a r [Hne Ha] Hr IH]; [reflexivity|].
  apply empty_false in Hne. destruct r as [|b r].
  - cbn [join]. rewrite <- (append_nil_r a) at 1.
    rewrite fields_from_word by exact Ha. cbn. now rewrite Hne.
  - change (join " " (a :: b :: r)) with (a ++ String " " (join " " (b :: r))).
    rewrite fields_from_word by exact Ha.
    change (fields_from ("" ++ a) (String " " (join " " (b :: r))))
      with (if empty a then fields_from "" (join " " (b :: r))
            else a :: fields_from "" (join " " (b :: r))).
    now rewrite Hne, IH.
Qed.

(** A file of rows, read back: one line for each row, with the fields of
    the row. *)
Lemma file_text_lines (rows : list (list string)) :
  Forall (Forall (fun t => t <> "" /\ no_space t = true)) rows ->
  lines (file_text rows) = (map (join " ") rows, "") /\
  map fields (map (join " ") rows) = rows.
Proof.
  unfold lines, file_text.
  induction 1 as [|r rows Hr Hrows [IH1 IH2]]; [split; reflexivity|].
  cbn [map]. rewrite sstream_cons, append_assoc.
  rewrite lines_from_line by now apply join_line.
  change (lines_from ("" ++ join " " r) (nl ++ sstream (map (fun r0 => join " " r0 ++ nl) rows)))
    with (let '(ls, rest) :=
            lines_from "" (sstream (map (fun r0 => join " " r0 ++ nl) rows)) in
          (join " " r :: ls, rest)).
  rewrite IH1. split; [reflexivity|].
  now rewrite join_fields, IH2.
Qed.

Lemma printed_rows_plain (dp : data_plot) :
  Forall (Forall (fun t => t <> "" /\ no_space t = true)) (printed_rows dp).
Proof.
  apply Forall_forall. intros r Hr.
  destruct dp as [x | x y | x y dy | x y z]; cbn [printed_rows] in Hr.
  - apply list_elem_of_fmap in Hr as (a & -> & _).
    repeat constructor; apply show_double_plain.
  - apply list_elem_of_lookup in Hr as [i Hi].
    apply lookup_zip_with_Some in Hi as (a & b & -> & _).
    repeat constructor; apply show_double_plain.
  - apply list_elem_of_lookup in Hr as [i Hi].
    apply lookup_zip_with_Some in Hi as (a & b & -> & _).
    repeat constructor; apply show_double_plain.
  - apply list_elem_of_lookup in Hr as [i Hi].
    apply lookup_zip_with_Some in Hi as (a & b & -> & _).
    repeat constructor; apply show_double_plain.
Qed.

(** The file a data plot has written, when its vectors are accepted, its
    loop can count them and its temp file is allocated and opened: it holds
    one newline-terminated line for each index and nothing after them, and
    the whitespace-separated fields of the lines are, row by row, what the
    stream prints for the values: one field for [plot_x], two for [plot_xy],
    three for [plot_xy_err] and [plot_xyz]. *)
Theorem data_plot_file (fuel : nat) (os : platform) (o : tmp_oracle)
  (sfx : string) (dp : data_plot) (title : string) (st : Machine) :
  accepted dp -> loop_ends fuel dp -> allocates os o sfx st ->
  exists f ls,
    fs (proc (snd (run_data_plot fuel os o dp title st))) !! tmp_name os sfx
      = Some f /\
    lines (contents f) = (ls, "") /\
    map fields ls = printed_rows dp.
Proof.
  intros Hd He Ha.
  rewrite (data_plot_as_file_plot fuel os o sfx dp title st Hd He Ha).
  match goal with |- context [returns ?c ?s] =>
    destruct (returns c s) as [r st'] eqn:E end.
  apply (bind_ret_state _ Some) in E as [r0 E].
  assert (Hp : proc st' = proc (after_writing os o (tmp_name os sfx)
                                  (file_text (printed_rows dp)) st)).
  { destruct dp; cbn [file_plot_of run_file_plot] in E;
      [ eapply plotfile_x_frame | eapply plotfile_xy_frame
      | eapply plotfile_xy_err_frame | eapply plotfile_xyz_frame ]; exact E. }
  cbn [snd]. rewrite Hp. unfold after_writing. cbn [proc].
  rewrite written_file.
  destruct (file_text_lines (printed_rows dp) (printed_rows_plain dp))
    as [H1 H2].
  do 2 eexists. split; [reflexivity|]. split; [exact H1 | exact H2].
Qed.

(** The statement at work: [plot_xyz] of two points, one of them with the
    NaN whose sign bit is set. *)
Lemma data_plot_file_witness :
  exists f ls,
    fs (proc (snd (run_data_plot 0 Unix example_oracle
                     (dp_xyz [dbl 1%float; dbl 2%float]
                             [dbl 3%float; neg_nan]
                             [dbl 5%float; dbl 6%float]) "t" example_machine)))
      !! tmp_name Unix "abcdef" = Some f /\
    lines (contents f) = (ls, "") /\
    map fields ls = [["1"; "3"; "5"]; ["2"; "-nan"; "6"]].
Proof.
  apply (data_plot_file 0 Unix example_oracle "abcdef"
           (dp_xyz [dbl 1%float; dbl 2%float] [dbl 3%float; neg_nan]
                   [dbl 5%float; dbl 6%float])
           "t" example_machine).
  - repeat split; discriminate.
  - exact I.
  - exact example_allocates.
Defined.

(** ** The data plots when the stream cannot be opened *)

(** A stream that could not be opened takes no character. *)
Lemma write_unopened (s : string) (p : Process) :
  ofstream_write s (MkOfstream None true false) p =
  (Normal (MkOfstream None true false), p).
Proof. reflexivity. Qed.

Lemma rows_unopened (n : nat) (body : nat -> ofstream -> M Process ofstream)
  (p : Process) :
  (forall i p0, body i (MkOfstream None true false) p0 =
                (Normal (MkOfstream None true false), p0)) ->
  for_loop n 0 body (MkOfstream None true false) p =
  (Normal (MkOfstream None true false), p).
Proof.
  intros Hbody. generalize 0%nat. induction n as [|n IH]; intros i;
    [reflexivity|].
  cbn [for_loop]. unfold bind. now rewrite Hbody, IH.
Qed.

Lemma row_x_unopened {X} (show_x : X -> string) (x : list X) (i : nat)
  (p : Process) :
  row_x show_x x i (MkOfstream None true false) p =
  (Normal (MkOfstream None true false), p).
Proof. unfold row_x. now destruct (x !! i). Qed.

Lemma row_xy_unopened {X Y} (show_x : X -> string) (show_y : Y -> string)
  (x : list X) (y : list Y) (i : nat) (p : Process) :
  row_xy show_x show_y x y i (MkOfstream None true false) p =
  (Normal (MkOfstream None true false), p).
Proof. unfold row_xy. now destruct (x !! i), (y !! i). Qed.

Lemma row_xyz_unopened {X Y Z3} (show_x : X -> string) (show_y : Y -> string)
  (show_z : Z3 -> string) (x : list X) (y : list Y) (z : list Z3) (i : nat)
  (p : Process) :
  row_xyz show_x show_y show_z x y z i (MkOfstream None true false) p =
  (Normal (MkOfstream None true false), p).
Proof. unfold row_xyz. now destruct (x !! i), (y !! i), (z !! i). Qed.

Lemma data_plot_run_unopened (os : platform) (o : tmp_oracle) (sfx : string)
  {T R : Type} (write : ofstream -> M Process T)
  (emit : string -> T -> M Machine R) (unnamed : M Machine R) (st : Machine)
  (t0 : T) :
  tmpfile_num (proc st) <> GP_MAX_TMP_FILES os - 1 ->
  unique_suffix o = Some sfx -> String.length sfx = 6%nat ->
  fs (proc st) !! tmp_name os sfx = None -> can_open o = false ->
  (forall p, write (MkOfstream None true false) p = (Normal t0, p)) ->
  (r0 <- create_tmpfile os o default_ofstream ;;
   let '(name, tmp) := r0 in
   if empty name then unnamed
   else t <- static (write tmp) ;; emit name t) st =
  emit (tmp_name os sfx) t0
    (MkMachine
       (MkProcess (wrap_int (tmpfile_num (proc st) + 1))
          (m_sGNUPlotFileName (proc st)) (m_sGNUPlotPath (proc st))
          (files_after_create os false (new_tmpfile o) (tmp_name os sfx)
             (fs (proc st))))
       (push_back_tmpfile (tmp_name os sfx) (self st))).
Proof.
  intros Hq Ho Hl Hf Hopen Hw.
  unfold bind at 1.
  rewrite (create_tmpfile_named os o sfx st Hq Ho Hl Hf), Hopen.
  cbv iota beta.
  destruct (empty (tmp_name os sfx)) eqn:Hn.
  { apply empty_spec in Hn. now apply tmp_name_nonempty in Hn. }
  unfold bind at 1. unfold static at 1. cbn [proc self stream_after_create].
  now rewrite Hw.
Qed.

(** A data plot of accepted vectors, which its loop can count, whose temp
    file was named but whose stream could not be opened.  No row is written,
    and nothing is thrown for that.  On Windows, where naming a file does not
    create it, the plot then throws because the file does not exist.  On unix
    the file is there, empty, as it was created: the plot returns as if it
    had plotted the data when the file may be read, and throws if it may
    not.  Either way the name has joined [tmpfile_list] and [tmpfile_num]
    has been counted up. *)
Theorem data_plot_unopened (fuel : nat) (os : platform) (o : tmp_oracle)
  (sfx : string) (dp : data_plot) (title : string) (st : Machine) :
  accepted dp -> loop_ends fuel dp ->
  tmpfile_num (proc st) <> GP_MAX_TMP_FILES os - 1 ->
  unique_suffix o = Some sfx -> String.length sfx = 6%nat ->
  fs (proc st) !! tmp_name os sfx = None -> can_open o = false ->
  exists r p' g',
    run_data_plot fuel os o dp title st = (r, MkMachine p' g') /\
    tmpfile_list g' = (tmpfile_list (self st) ++ [tmp_name os sfx])%list /\
    tmpfile_num p' = wrap_int (tmpfile_num (proc st) + 1) /\
    match os with
    | Win32 =>
        r = Raise (GnuplotException
                     ("File " ++ dq ++ tmp_name os sfx ++ dq ++ " does not exist")) /\
        fs p' !! tmp_name os sfx = None
    | Unix =>
        r = (if created_read o then Normal (Some tt)
             else Raise (GnuplotException
                           ("No read permission for File " ++ dq ++
                            tmp_name os sfx ++ dq))) /\
        fs p' !! tmp_name os sfx =
          Some (File "" (created_read o) (created_write o) false)
    end.
Proof.
  intros Hd He Hq Ho Hl Hf Hopen.
  set (name := tmp_name os sfx) in *.
  set (st1 := MkMachine
       (MkProcess (wrap_int (tmpfile_num (proc st) + 1))
          (m_sGNUPlotFileName (proc st)) (m_sGNUPlotPath (proc st))
          (files_after_create os false (new_tmpfile o) name (fs (proc st))))
       (push_back_tmpfile name (self st))).
  assert (Hrun : forall fp : file_plot,
    exists r p' g',
      returns (run_file_plot fp name title) st1 = (r, MkMachine p' g') /\
      tmpfile_list g' = (tmpfile_list (self st) ++ [name])%list /\
      tmpfile_num p' = wrap_int (tmpfile_num (proc st) + 1) /\
      match os with
      | Win32 =>
          r = Raise (GnuplotException
                       ("File " ++ dq ++ name ++ dq ++ " does not exist")) /\
          fs p' !! name = None
      | Unix =>
          r = (if created_read o then Normal (Some tt)
               else Raise (GnuplotException
                             ("No read permission for File " ++ dq ++
                              name ++ dq))) /\
          fs p' !! name =
            Some (File "" (created_read o) (created_write o) false)
      end).
  { intros fp. destruct os.
    - assert (Hm : fs (proc st1) !! c_str name = None)
        by (subst name; rewrite tmp_name_c_str; exact Hf).
      assert (E : run_file_plot fp name title st1 =
                  (Raise (GnuplotException
                            ("File " ++ dq ++ name ++ dq ++ " does not exist")),
                   st1)).
      { destruct fp; cbn [run_file_plot];
          unfold plotfile_x, plotfile_xy, plotfile_xy_err, plotfile_xyz;
          unfold bind at 1; unfold static;
          now rewrite (file_available_missing name (proc st1) Hm). }
      do 3 eexists. unfold returns, bind. rewrite E.
      split; [reflexivity|]. cbn. auto.
    - assert (Hm : fs (proc st1) !! c_str name = Some (new_tmpfile o)).
      { subst name. rewrite tmp_name_c_str. cbn. apply lookup_insert_eq. }
      destruct (returns (run_file_plot fp name title) st1) as [r [p' g']] eqn:E.
      pose proof E as E0. apply (bind_ret_state _ Some) in E0 as [r0 E0].
      assert (Hfr : proc (MkMachine p' g') = proc st1 /\
                    tmpfile_list (self (MkMachine p' g')) =
                    tmpfile_list (self st1)).
      { destruct fp; cbn [run_file_plot] in E0;
          [ eapply plotfile_x_frame | eapply plotfile_xy_frame
          | eapply plotfile_xy_err_frame | eapply plotfile_xyz_frame ]; exact E0. }
      cbn [proc self] in Hfr. destruct Hfr as [-> Hl'].
      exists r, (proc st1), g'. split; [reflexivity|].
      split; [exact Hl'|]. split; [reflexivity|].
      split; [|subst name; now rewrite tmp_name_c_str in Hm].
      assert (Hr : fst (returns (run_file_plot fp name title) st1) =
                   if created_read o then Normal (Some tt)
                   else Raise (GnuplotException
                                 ("No read permission for File " ++ dq ++
                                  name ++ dq))).
      { destruct (created_read o) eqn:Hread.
        - destruct fp; cbn [run_file_plot];
            unfold returns, plotfile_x, plotfile_xy, plotfile_xy_err,
              plotfile_xyz;
            unfold bind at 1 2; unfold static;
            rewrite (file_available_ok name (proc st1) _ Hm Hread);
            unfold bind, get; now rewrite cmd_sent.
        - destruct fp; cbn [run_file_plot];
            unfold returns, plotfile_x, plotfile_xy, plotfile_xy_err,
              plotfile_xyz;
            unfold bind at 1 2; unfold static;
            now rewrite (file_available_unreadable name (proc st1) _ Hm Hread). }
      now rewrite E in Hr. }
  destruct dp as [x | x y | x y dy | x y z]; cbn [run_data_plot];
    cbn [accepted] in Hd; cbn [loop_ends] in He.
  - destruct He as [Hu Hfuel]. unfold plot_x.
    destruct x as [|a x]; [contradiction|].
    replace (length (a :: x) =? 0)%nat with false by reflexivity.
    rewrite (data_plot_run_unopened os o sfx
               (for_loop_uint fuel (Z.of_nat (length (a :: x))) 0
                  (row_x show_double (a :: x)))
               (fun n w =>
                  match w with
                  | None => ret None
                  | Some _ => returns (plotfile_x n 1 title)
                  end) _ st (Some (MkOfstream None true false)));
      try assumption.
    + apply (Hrun (fp_x 1)).
    + intros p.
      rewrite (for_loop_uint_ends (row_x show_double (a :: x))
                 (length (a :: x)) Hu (length (a :: x)) 0 fuel) by lia.
      unfold returns, bind.
      now rewrite rows_unopened by (intros; apply row_x_unopened).
  - destruct Hd as [Hx Hl']. unfold plot_xy.
    destruct x as [|a x]; [contradiction|]. destruct y as [|b y]; [discriminate|].
    rewrite Hl', Nat.eqb_refl. cbn [length Nat.eqb orb negb].
    destruct (Hrun (fp_xy 1 2)) as (r & p' & g' & E & H). exists r, p', g'.
    split; [|exact H]. rewrite <- E. apply returns_run.
    now rewrite (data_plot_run_unopened os o sfx _
                   (fun n _ => plotfile_xy n 1 2 title) _ st
                   (MkOfstream None true false))
      by (assumption || (intros p; apply rows_unopened; intros;
                         apply row_xy_unopened)).
  - destruct Hd as (Hx & Hl1 & Hl2). unfold plot_xy_err.
    destruct x as [|a x]; [contradiction|]. destruct y as [|b y]; [discriminate|].
    destruct dy as [|c dy]; [discriminate|].
    rewrite Hl1, Hl2, !Nat.eqb_refl. cbn [length Nat.eqb orb negb].
    destruct (Hrun (fp_xy_err 1 2 3)) as (r & p' & g' & E & H). exists r, p', g'.
    split; [|exact H]. rewrite <- E. apply returns_run.
    now rewrite (data_plot_run_unopened os o sfx _
                   (fun n _ => plotfile_xy_err n 1 2 3 title) _ st
                   (MkOfstream None true false))
      by (assumption || (intros p; apply rows_unopened; intros;
                         apply row_xyz_unopened)).
  - destruct Hd as (Hx & Hl1 & Hl2). unfold plot_xyz.
    destruct x as [|a x]; [contradiction|]. destruct y as [|b y]; [discriminate|].
    destruct z as [|c z]; [discriminate|].
    rewrite <- Hl2, <- Hl1, !Nat.eqb_refl. cbn [length Nat.eqb orb negb].
    destruct (Hrun (fp_xyz 1 2 3)) as (r & p' & g' & E & H). exists r, p', g'.
    split; [|exact H]. rewrite <- E. apply returns_run.
    now rewrite (data_plot_run_unopened os o sfx _
                   (fun n _ => plotfile_xyz n 1 2 3 title) _ st
                   (MkOfstream None true false))
      by (assumption || (intros p; apply rows_unopened; intros;
                         apply row_xyz_unopened)).
Qed.

(** The statement at work.  [plot_x] on Windows when the stream cannot be
    opened; [plot_xy] on unix when the creation mask has left the file
    without write permission; and [plot_xy] on unix when it has left the file
    without any permission. *)
Lemma data_plot_unopened_witness :
  (exists r p' g',
     run_data_plot 2 Win32 (MkOracle (Some "abcdef") false true true)
       (dp_x [dbl 1%float]) "t"
       (MkMachine (initial_process Win32 ∅) example_session) =
       (r, MkMachine p' g') /\
     tmpfile_list g' = [tmp_name Win32 "abcdef"] /\
     tmpfile_num p' = wrap_int (0 + 1) /\
     r = Raise (GnuplotException
                  ("File " ++ dq ++ tmp_name Win32 "abcdef" ++ dq ++
                   " does not exist")) /\
     fs p' !! tmp_name Win32 "abcdef" = None) /\
  (exists r p' g',
     run_data_plot 0 Unix (MkOracle (Some "abcdef") false true false)
       (dp_xy [dbl 1%float] [dbl 2%float]) "t"
       (MkMachine (initial_process Unix ∅) example_session) =
       (r, MkMachine p' g') /\
     tmpfile_list g' = [tmp_name Unix "abcdef"] /\
     tmpfile_num p' = wrap_int (0 + 1) /\
     r = Normal (Some tt) /\
     fs p' !! tmp_name Unix "abcdef" = Some (File "" true false false)) /\
  (exists r p' g',
     run_data_plot 0 Unix (MkOracle (Some "abcdef") false false false)
       (dp_xy [dbl 1%float] [dbl 2%float]) "t"
       (MkMachine (initial_process Unix ∅) example_session) =
       (r, MkMachine p' g') /\
     tmpfile_list g' = [tmp_name Unix "abcdef"] /\
     tmpfile_num p' = wrap_int (0 + 1) /\
     r = Raise (GnuplotException
                  ("No read permission for File " ++ dq ++
                   tmp_name Unix "abcdef" ++ dq)) /\
     fs p' !! tmp_name Unix "abcdef" = Some (File "" false false false)).
Proof.
  split; [|split].
  - apply (data_plot_unopened 2 Win32 (MkOracle (Some "abcdef") false true true)
             "abcdef" (dp_x [dbl 1%float]) "t"
             (MkMachine (initial_process Win32 ∅) example_session)).
    + discriminate.
    + cbn. unfold UINT_MAX. lia.
    + cbn. lia.
    + reflexivity.
    + reflexivity.
    + reflexivity.
    + reflexivity.
  - apply (data_plot_unopened 0 Unix (MkOracle (Some "abcdef") false true false)
             "abcdef" (dp_xy [dbl 1%float] [dbl 2%float]) "t"
             (MkMachine (initial_process Unix ∅) example_session)).
    + split; [discriminate | reflexivity].
    + exact I.
    + cbn. lia.
    + reflexivity.
    + reflexivity.
    + reflexivity.
    + reflexivity.
  - apply (data_plot_unopened 0 Unix (MkOracle (Some "abcdef") false false false)
             "abcdef" (dp_xy [dbl 1%float] [dbl 2%float]) "t"
             (MkMachine (initial_process Unix ∅) example_session)).
    + split; [discriminate | reflexivity].
    + exact I.
    + cbn. lia.
    + reflexivity.
    + reflexivity.
    + reflexivity.
    + reflexivity.
Defined.

(** ** The loop of Gnuplot::plot_x *)

Lemma returns_not_none {St A : Type} (c : M St A) (s : St) :
  fst (returns c s) <> Normal None.
Proof.
  unfold returns, bind, ret. destruct (c s) as [[a|e] s']; discriminate.
Qed.

(** [plot_x] counts its elements with an [unsigned int].  Once the temp file
    has its name, the call returns or throws within one test of the loop for
    each element and one more if the vector has at most [UINT_MAX] elements;
    if it has more, the counter wraps before it reaches their number and the
    call never returns, however long it is followed: the temp file is listed
    and counted, and the loop runs on. *)
Theorem plot_x_returns {X : Type} (show_x : X -> string) (os : platform)
  (o : tmp_oracle) (sfx : string) (x : list X) (title : string)
  (st : Machine) :
  x <> [] ->
  tmpfile_num (proc st) <> GP_MAX_TMP_FILES os - 1 ->
  unique_suffix o = Some sfx -> String.length sfx = 6%nat ->
  fs (proc st) !! tmp_name os sfx = None ->
  (Z.of_nat (length x) <= UINT_MAX ->
   forall fuel, (length x < fuel)%nat ->
     fst (plot_x show_x fuel os o x title st) <> Normal None) /\
  (UINT_MAX < Z.of_nat (length x) ->
   forall fuel, exists p',
     plot_x show_x fuel os o x title st =
       (Normal None,
        MkMachine p' (push_back_tmpfile (tmp_name os sfx) (self st))) /\
     tmpfile_num p' = wrap_int (tmpfile_num (proc st) + 1)).
Proof.
  intros Hx Hq Ho Hl Hf.
  assert (E0 : forall fuel,
    plot_x show_x fuel os o x title st =
    (w <- static (for_loop_uint fuel (Z.of_nat (length x)) 0 (row_x show_x x)
                    (stream_after_create (can_open o) (tmp_name os sfx))) ;;
     match w with
     | None => ret None
     | Some _ => returns (plotfile_x (tmp_name os sfx) 1 title)
     end)
      (MkMachine
         (MkProcess (wrap_int (tmpfile_num (proc st) + 1))
            (m_sGNUPlotFileName (proc st)) (m_sGNUPlotPath (proc st))
            (files_after_create os (can_open o) (new_tmpfile o)
               (tmp_name os sfx) (fs (proc st))))
         (push_back_tmpfile (tmp_name os sfx) (self st)))).
  { intros fuel. unfold plot_x. destruct x as [|a x]; [contradiction|].
    replace (length (a :: x) =? 0)%nat with false by reflexivity.
    unfold bind at 1.
    rewrite (create_tmpfile_named os o sfx st Hq Ho Hl Hf). cbv iota beta.
    destruct (empty (tmp_name os sfx)) eqn:Hn; [|reflexivity].
    apply empty_spec in Hn. now apply tmp_name_nonempty in Hn. }
  split.
  - intros Hu fuel Hfuel. rewrite E0. unfold bind at 1. unfold static at 1.
    cbn [proc self].
    rewrite (for_loop_uint_ends (row_x show_x x) (length x) Hu (length x) 0 fuel)
      by lia.
    match goal with |- context [returns (for_loop ?n ?i ?b ?t) ?p] =>
      destruct (writer_for_loop b n i t (fun j u => writer_row_x show_x x j u) p)
        as (t' & p1 & E1 & _) end.
    unfold returns at 1. unfold bind at 1. rewrite E1. cbn [ret].
    apply returns_not_none.
  - intros Hu fuel. rewrite E0. unfold bind at 1. unfold static at 1.
    cbn [proc self].
    match goal with |- context [for_loop_uint fuel ?n ?i ?b ?t ?p] =>
      destruct (for_loop_uint_runs_on b n Hu
                  (fun j u => writer_row_x show_x x j u) fuel i t p)
        as (p' & E1 & [S1 _]) end.
    { unfold UINT_MAX. lia. }
    rewrite E1. exists p'. split; [reflexivity | exact S1].
Qed.

(** The statement at work on a vector of two values, followed for three
    tests. *)
Lemma plot_x_returns_witness :
  fst (plot_x show_double 3 Unix example_oracle [dbl 1%float; dbl 2%float] "t"
         example_machine) <> Normal None.
Proof.
  destruct (plot_x_returns show_double Unix example_oracle "abcdef"
              [dbl 1%float; dbl 2%float] "t" example_machine) as [H _].
  - discriminate.
  - cbn. lia.
  - reflexivity.
  - reflexivity.
  - reflexivity.
  - apply H; [unfold UINT_MAX; cbn; lia | cbn; lia].
Defined.

(** ** stringtok *)

Lemma substring_all (s : string) : substring 0 (String.length s) s = s.
Proof. induction s as [|c s IH]; simpl; [reflexivity | now rewrite IH]. Qed.

Lemma substr_zero (s : string) : substr s 0 = s.
Proof. unfold substr. rewrite Nat.sub_0_r. apply substring_all. Qed.

Lemma substr_end (s : string) : substr s (String.length s) = "".
Proof.
  unfold substr. rewrite Nat.sub_diag.
  induction s as [|c s IH]; simpl; [reflexivity | exact IH].
Qed.

(** What a search from [i] finds: the characters from [i] on begin with a
    run [a] that fails [P], and then either end or go on with a character
    that satisfies [P], at the position found. *)
Lemma find_if_from_spec (P : ascii -> bool) (s : string) (i : nat) :
  (i <= String.length s)%nat ->
  match find_if_from P s i with
  | None => all_chars (fun c => negb (P c)) (substr s i) = true
  | Some k =>
      exists a c b,
        substr s i = a ++ String c b /\
        all_chars (fun c => negb (P c)) a = true /\ P c = true /\
        k = (i + String.length a)%nat /\ (k < String.length s)%nat /\
        substring i (k - i) s = a /\
        substr s k = String c b /\ substr s (S k) = b
  end.
Proof.
  revert i. induction s as [|d s IH]; intros i Hi.
  - simpl in Hi. assert (i = O) by lia. subst. reflexivity.
  - destruct i as [|i]; cbn [find_if_from].
    + destruct (P d) eqn:Hd.
      * exists "", d, s. rewrite substr_zero.
        split; [reflexivity|]. split; [reflexivity|]. split; [exact Hd|].
        split; [reflexivity|]. split; [cbn; lia|]. split; [reflexivity|].
        split; [reflexivity|]. apply (substr_zero s).
      * specialize (IH O (Nat.le_0_l _)).
        destruct (find_if_from P s 0) as [k|]; cbn [fmap option_fmap option_map].
        -- destruct IH as (a & c & b & E & Ha & Hc & Ek & Hk & Hs & E1 & E2).
           rewrite substr_zero in E. rewrite Nat.sub_0_r in Hs.
           exists (String d a), c, b. rewrite substr_zero.
           split; [cbn; now rewrite E|].
           split; [cbn; now rewrite Hd, Ha|]. split; [exact Hc|].
           split; [cbn; lia|]. split; [cbn; lia|].
           split; [cbn; now rewrite Hs|].
           split; [exact E1 | exact E2].
        -- rewrite substr_zero in *. cbn. now rewrite Hd, IH.
    + cbn in Hi. specialize (IH i ltac:(lia)).
      change (substr (String d s) (S i)) with (substr s i).
      destruct (find_if_from P s i) as [k|]; cbn [fmap option_fmap option_map];
        [|exact IH].
      destruct IH as (a & c & b & E & Ha & Hc & Ek & Hk & Hs & E1 & E2).
      exists a, c, b.
      split; [exact E|]. split; [exact Ha|]. split; [exact Hc|].
      split; [lia|]. split; [cbn; lia|].
      split; [exact Hs|]. split; [exact E1 | exact E2].
Qed.

Lemma tokens_skip (delims a rest : string) :
  all_chars (fun c => negb (negb (mem_char c delims))) a = true ->
  tokens_from delims "" (a ++ rest) = tokens_from delims "" rest.
Proof.
  induction a as [|c a IH]; intros H; [reflexivity|]. cbn in *.
  apply andb_prop in H as [Hc Ha]. rewrite negb_involutive in Hc.
  rewrite Hc. cbn. now apply IH.
Qed.

Lemma tokens_word (delims w cur rest : string) :
  free_of delims w = true ->
  tokens_from delims cur (w ++ rest) = tokens_from delims (cur ++ w) rest.
Proof.
  revert cur. induction w as [|c w IH]; intros cur H.
  - now rewrite append_nil_r.
  - cbn in *. apply andb_prop in H as [Hc Hw].
    apply negb_true_iff in Hc. rewrite Hc, IH by exact Hw.
    now rewrite append_assoc.
Qed.

(** The loop, from a position [i]: it ends, and has pushed the tokens of
    the characters from [i] on. *)
Lemma stringtok_loop_spec (in_ delimiters : string) (fuel i : nat)
  (container : list string) :
  (i <= String.length in_)%nat -> (String.length in_ - i < fuel)%nat ->
  stringtok_loop fuel in_ delimiters i container =
  Some (container ++ tokens (c_str delimiters) (substr in_ i))%list.
Proof.
  revert i container. induction fuel as [|fuel IH]; intros i container Hi Hf;
    [lia|].
  cbn [stringtok_loop].
  destruct (Nat.ltb_spec i (String.length in_)) as [Hlt|Hge].
  - unfold find_first_not_of, find_first_of.
    pose proof (find_if_from_spec
                  (fun c => negb (mem_char c (c_str delimiters))) in_ i Hi) as H1.
    destruct (find_if_from _ in_ i) as [i'|].
    + destruct H1 as (a & c & b & E & Ha & Hc & -> & Hk & Hs & E1 & _).
      set (i' := (i + String.length a)%nat) in *.
      unfold tokens at 1. rewrite E, tokens_skip by exact Ha. rewrite <- E1.
      pose proof (find_if_from_spec
                    (fun c => mem_char c (c_str delimiters)) in_ i'
                    ltac:(lia)) as H2.
      destruct (find_if_from _ in_ i') as [j|].
      * destruct H2 as (w & e & r & E' & Hw & He & -> & Hj & Hs' & E1' & E2').
        rewrite IH by lia. f_equal. rewrite <- app_assoc. f_equal.
        rewrite E', Hs'.
        rewrite tokens_word by exact Hw. cbn [append tokens_from].
        rewrite He. rewrite E2'.
        destruct w as [|x w]; [|reflexivity].
        cbn in E'. rewrite E' in E1. injection E1 as -> _.
        rewrite He in Hc. discriminate.
      * f_equal. f_equal. rewrite <- (append_nil_r (substr in_ i')) at 2.
        rewrite tokens_word by exact H2. cbn.
        rewrite E1. reflexivity.
    + rewrite <- (append_nil_r (substr in_ i)).
      unfold tokens. rewrite tokens_skip by exact H1. cbn.
      now rewrite app_nil_r.
  - assert (i = String.length in_) by lia. subst i.
    rewrite substr_end. cbn. now rewrite app_nil_r.
Qed.
Lemma free_of_app (delims a b : string) :
  free_of delims (a ++ b) = free_of delims a && free_of delims b.
Proof. apply all_chars_app. Qed.

Lemma tokens_from_are_tokens (delims cur s : string) :
  free_of delims cur = true ->
  Forall (is_token delims) (tokens_from delims cur s).
Proof.
  revert cur. induction s as [|c s IH]; intros cur Hc; cbn [tokens_from].
  - destruct (empty cur) eqn:E; [constructor|].
    apply empty_false in E. repeat constructor; assumption.
  - destruct (mem_char c delims) eqn:Hm.
    + destruct (empty cur) eqn:E; [now apply IH|].
      apply empty_false in E. constructor; [now split | now apply IH].
    + apply IH. rewrite free_of_app, Hc. cbn. now rewrite Hm.
Qed.

Lemma tokens_join (delims : string) (sep : ascii) (ts : list string) :
  mem_char sep delims = true -> Forall (is_token delims) ts ->
  tokens delims (join sep ts) = ts.
Proof.
  intros Hs. induction 1 as [|a ts [Hne Hfree] Hts IH]; [reflexivity|].
  unfold tokens in *. destruct ts as [|b ts].
  - cbn [join]. rewrite <- (append_nil_r a) at 1.
    rewrite tokens_word by exact Hfree. cbn.
    destruct (empty a) eqn:E; [now apply empty_spec in E | reflexivity].
  - change (join sep (a :: b :: ts)) with (a ++ String sep (join sep (b :: ts))).
    rewrite tokens_word by exact Hfree. cbn [append tokens_from].
    rewrite Hs, IH.
    destruct (empty a) eqn:E; [now apply empty_spec in E | reflexivity].
Qed.

(** [stringtok] always comes to an end, and it has pushed at the back of
    the container the maximal runs of characters that are not delimiters, in
    their order: every token is non-empty and has no delimiter in it, so
    delimiters at either end and repeated delimiters give no empty token. *)
Theorem stringtok_tokens (container : list string) (in_ delimiters : string) :
  stringtok container in_ delimiters =
    Some (container ++ tokens (c_str delimiters) in_)%list /\
  Forall (is_token (c_str delimiters)) (tokens (c_str delimiters) in_).
Proof.
  split.
  - unfold stringtok. rewrite stringtok_loop_spec by lia.
    now rewrite substr_zero.
  - now apply tokens_from_are_tokens.
Qed.

(** A round trip: texts that are tokens, joined by a delimiter, are what
    [stringtok] gives back. *)
Theorem stringtok_join (sep : ascii) (delimiters : string)
  (ts container : list string) :
  mem_char sep (c_str delimiters) = true ->
  Forall (is_token (c_str delimiters)) ts ->
  stringtok container (join sep ts) delimiters = Some (container ++ ts)%list.
Proof.
  intros Hs Hts. unfold stringtok. rewrite stringtok_loop_spec by lia.
  now rewrite substr_zero, tokens_join.
Qed.

(** The statement at work on a PATH of two entries. *)
Lemma stringtok_join_witness :
  stringtok [] (join ":" ["/usr/bin"; "/bin"]) ":" = Some ["/usr/bin"; "/bin"].
Proof.
  apply (stringtok_join ":" ":" ["/usr/bin"; "/bin"] []).
  - reflexivity.
  - repeat constructor; discriminate.
Defined.

(** ** Gnuplot::get_program_path *)

Lemma file_exists_program (os : platform) (path : string) (p : Process) :
  file_exists (path ++ "/" ++ m_sGNUPlotFileName p) (program_mode os) p =
  (Normal (plotter_found os p path), p).
Proof.
  unfold file_exists, plotter_found, access. monad_unfold.
  destruct os; cbn [program_mode];
    match goal with |- context [(?a <? ?b) || (?c <? ?d)] =>
      change ((a <? b) || (c <? d)) with false end;
    cbv beta iota;
    destruct (fs p !! _) as [f|]; try reflexivity.
  cbn. now rewrite !andb_true_r.
Qed.

(** The scan of the entries of PATH stops at the first one that has the
    plotter, and makes it the plotter's path. *)
Lemma scan_path_spec (os : platform) (ls : list string) (p : Process) :
  (Forall (fun d => plotter_found os p d = false) ls /\
   scan_path os ls p = (Normal false, p)) \/
  (exists before d after,
     ls = (before ++ d :: after)%list /\
     Forall (fun d => plotter_found os p d = false) before /\
     plotter_found os p d = true /\
     scan_path os ls p = (Normal true, assign_GNUPlotPath d p)).
Proof.
  induction ls as [|i ls IH].
  - left. split; [constructor | reflexivity].
  - assert (E0 : scan_path os (i :: ls) p =
                 if plotter_found os p i
                 then (Normal true, assign_GNUPlotPath i p)
                 else scan_path os ls p).
    { cbn [scan_path]. unfold bind at 1, get at 1. unfold bind at 1.
      rewrite file_exists_program. now destruct (plotter_found os p i). }
    rewrite E0. clear E0.
    destruct (plotter_found os p i) eqn:Hi.
    + right. exists [], i, ls.
      split; [reflexivity|]. split; [constructor|]. split; [exact Hi|].
      reflexivity.
    + destruct IH as [[Hall E] | (before & d & after & -> & Hb & Hd & E)].
      * left. split; [now constructor | exact E].
      * right. exists (i :: before), d, after.
        split; [reflexivity|]. split; [now constructor|].
        split; [exact Hd | exact E].
Qed.

Lemma path_separator_c_str (os : platform) :
  c_str (path_separator os) = path_separator os.
Proof. now destruct os. Qed.

(** The outcomes of [get_program_path], in the order it looks. *)
Lemma get_program_path_cases (os : platform) (env : gmap string string)
  (p : Process) :
  (plotter_found os p (m_sGNUPlotPath p) = true /\
   get_program_path os env p = (Normal true, p)) \/
  (plotter_found os p (m_sGNUPlotPath p) = false /\
   getenv env "PATH" = None /\
   get_program_path os env p =
   (Raise (GnuplotException "Path is not set"), p)) \/
  (exists path,
     plotter_found os p (m_sGNUPlotPath p) = false /\
     getenv env "PATH" = Some path /\
     Forall (fun d => plotter_found os p d = false)
            (tokens (path_separator os) path) /\
     get_program_path os env p =
     (Raise (GnuplotException
               ("Can't find gnuplot neither in PATH nor in " ++ dq ++
                m_sGNUPlotPath p ++ dq)), p)) \/
  (exists path before d after,
     plotter_found os p (m_sGNUPlotPath p) = false /\
     getenv env "PATH" = Some path /\
     tokens (path_separator os) path = (before ++ d :: after)%list /\
     Forall (fun d => plotter_found os p d = false) before /\
     plotter_found os p d = true /\
     get_program_path os env p = (Normal true, assign_GNUPlotPath d p)).
Proof.
  assert (E0 : get_program_path os env p =
    if plotter_found os p (m_sGNUPlotPath p) then (Normal true, p)
    else match getenv env "PATH" with
         | None => (Raise (GnuplotException "Path is not set"), p)
         | Some path =>
             match scan_path os (tokens (path_separator os) path) p with
             | (Normal true, p') => (Normal true, p')
             | (Normal false, p') =>
                 (Raise (GnuplotException
                           ("Can't find gnuplot neither in PATH nor in " ++
                            dq ++ m_sGNUPlotPath p' ++ dq)), p')
             | (Raise e, p') => (Raise e, p')
             end
         end).
  { unfold get_program_path. unfold bind at 1, get at 1. unfold bind at 1.
    rewrite file_exists_program.
    destruct (plotter_found os p (m_sGNUPlotPath p)); [reflexivity|].
    destruct (getenv env "PATH") as [path|]; [|reflexivity].
    unfold stringtok. rewrite stringtok_loop_spec by lia.
    rewrite substr_zero, path_separator_c_str. cbn [app].
    unfold bind at 1.
    destruct (scan_path os (tokens (path_separator os) path) p)
      as [[[|]|e] p']; reflexivity. }
  rewrite E0. clear E0.
  destruct (plotter_found os p (m_sGNUPlotPath p)) eqn:H0; [left; auto|].
  right. destruct (getenv env "PATH") as [path|] eqn:Hp; [|left; auto].
  right.
  destruct (scan_path_spec os (tokens (path_separator os) path) p)
    as [[Hall E] | (before & d & after & Ht & Hb & Hd & E)]; rewrite E.
  - left. exists path. auto.
  - right. exists path, before, d, after. auto 10.
Qed.

(** [get_program_path] never returns false: it returns true or throws a
    [GnuplotException].  When it returns, the plotter is at
    [m_sGNUPlotPath] (the file is there and, except on Windows, may be
    executed), and nothing but [m_sGNUPlotPath] has changed; when it throws,
    nothing has changed. *)
Theorem get_program_path_found (os : platform) (env : gmap string string)
  (p : Process) :
  match get_program_path os env p with
  | (Normal b, p') =>
      b = true /\ plotter_found os p' (m_sGNUPlotPath p') = true /\
      tmpfile_num p' = tmpfile_num p /\
      m_sGNUPlotFileName p' = m_sGNUPlotFileName p /\ fs p' = fs p
  | (Raise e, p') => p' = p /\ exists msg, e = GnuplotException msg
  end.
Proof.
  destruct (get_program_path_cases os env p)
    as [[H0 E] | [(H0 & Hp & E) | [(path & H0 & Hp & Hall & E)
       | (path & before & d & after & H0 & Hp & Ht & Hb & Hd & E)]]];
    rewrite E; cbn; eauto 10.
Qed.

(** Where [get_program_path] looks, and in which order: first at
    [m_sGNUPlotPath], and PATH is not read when the plotter is there; then,
    unless PATH is not set, in the entries of PATH from first to last, where
    the first that has the plotter becomes [m_sGNUPlotPath].  The entries are
    the tokens of PATH: an empty entry is never looked at. *)
Theorem get_program_path_search (os : platform) (env : gmap string string)
  (p : Process) :
  (plotter_found os p (m_sGNUPlotPath p) = true ->
   get_program_path os env p = (Normal true, p)) /\
  (plotter_found os p (m_sGNUPlotPath p) = false ->
   (getenv env "PATH" = None ->
    get_program_path os env p =
    (Raise (GnuplotException "Path is not set"), p)) /\
   (forall path, getenv env "PATH" = Some path ->
      (forall before d after,
         tokens (path_separator os) path = (before ++ d :: after)%list ->
         Forall (fun d => plotter_found os p d = false) before ->
         plotter_found os p d = true ->
         get_program_path os env p = (Normal true, assign_GNUPlotPath d p)) /\
      (Forall (fun d => plotter_found os p d = false)
              (tokens (path_separator os) path) ->
       get_program_path os env p =
       (Raise (GnuplotException
                 ("Can't find gnuplot neither in PATH nor in " ++ dq ++
                  m_sGNUPlotPath p ++ dq)), p)))).
Proof.
  destruct (get_program_path_cases os env p)
    as [[H0 E] | [(H0 & Hp & E) | [(path & H0 & Hp & Hall & E)
       | (path & before & d & after & H0 & Hp & Ht & Hb & Hd & E)]]].
  - split; [auto | congruence].
  - split; [congruence|]. intros _. split; [auto | congruence].
  - split; [congruence|]. intros _. split; [congruence|].
    intros path' Hp'. rewrite Hp in Hp'. injection Hp' as <-.
    split; [|auto]. intros b d a Ht Hb Hd. exfalso.
    rewrite Ht in Hall. apply Forall_app in Hall as [_ Hall].
    apply Forall_cons in Hall as [Hd' _]. congruence.
  - split; [congruence|]. intros _. split; [congruence|].
    intros path' Hp'. rewrite Hp in Hp'. injection Hp' as <-.
    split.
    + intros b' d' a' Ht' Hb' Hd'. rewrite E.
      assert (Hsame : before = b' /\ d = d').
      { rewrite Ht in Ht'. clear - Ht' Hb Hd Hb' Hd'.
        revert b' Ht' Hb'. induction before as [|x before IH]; intros b' Ht' Hb'.
        - destruct b' as [|y b']; cbn in Ht'.
          + now injection Ht' as ->.
          + injection Ht' as -> _. apply Forall_cons in Hb' as [Hy _]. congruence.
        - apply Forall_cons in Hb as [Hx Hb]. destruct b' as [|y b']; cbn in Ht'.
          + injection Ht' as -> _. congruence.
          + injection Ht' as -> Ht'. apply Forall_cons in Hb' as [_ Hb'].
            destruct (IH Hb b' Ht' Hb') as [-> ->]. auto. }
      destruct Hsame as [_ ->]. reflexivity.
    + intros Hall. exfalso. rewrite Ht in Hall.
      apply Forall_app in Hall as [_ Hall].
      apply Forall_cons in Hall as [Hd' _]. congruence.
Qed.

(** ** The terminal *)

Lemma on_machine_cmd (s : string) (w : Program) :
  on_machine (cmd s) w =
  (Normal tt,
   MkProgram (terminal_std w)
             (MkMachine (proc (machine w)) (sent s (self (machine w))))).
Proof. unfold on_machine. now rewrite cmd_sent. Qed.

Lemma assign_run (f : Gnuplot -> Gnuplot) (w : Program) :
  assign f w =
  (Normal tt,
   MkProgram (terminal_std w)
             (MkMachine (proc (machine w)) (f (self (machine w))))).
Proof. reflexivity. Qed.

Lemma bind_run {S A B : Type} (c : M S A) (k : A -> M S B) (s s' : S) (a : A) :
  c s = (Normal a, s') -> bind c k s = k a s'.
Proof. intros H. unfold bind. now rewrite H. Qed.

Lemma showonscreen_run (w : Program) :
  showonscreen w =
  (Normal tt,
   MkProgram (terminal_std w)
     (MkMachine (proc (machine w))
        (sent ("set terminal " ++ terminal_std w)
              (sent "set output" (self (machine w)))))).
Proof.
  unfold showonscreen. unfold bind at 1. rewrite on_machine_cmd.
  unfold bind, get. now rewrite on_machine_cmd.
Qed.

(** The two lines of [showonscreen] and what they do to a session. *)
Lemma terminal_lines (terminal : string) (g : Gnuplot) :
  valid g = true -> INT_MIN <= nplots g < INT_MAX ->
  let g' := sent ("set terminal " ++ terminal) (sent "set output" g) in
  same_settings g g' /\
  received ("set output" ++ nl ++ c_str ("set terminal " ++ terminal ++ nl)) g g' /\
  plot_mode_after terminal g g'.
Proof.
  intros Hv Hn.
  assert (H1 : ~ is_substring "plot" "set output") by literal_word.
  pose proof (sent_settings "set output" g) as S1.
  pose proof (sent_no_plot "set output" g H1) as [M1 M2].
  pose proof (sent_received "set output" g Hv) as R1.
  assert (Hv1 : valid (sent "set output" g) = true)
    by (destruct S1 as [-> _]; exact Hv).
  pose proof (sent_received ("set terminal " ++ terminal) _ Hv1) as R2.
  cbv zeta. split; [eapply same_settings_trans; [exact S1 | apply sent_settings]|].
  split.
  - unfold received in *. rewrite R2, R1. rewrite !append_assoc. reflexivity.
  - assert (Hm : plot_mode_after terminal (sent "set output" g)
                   (sent ("set terminal " ++ terminal) (sent "set output" g))).
    { apply sent_plot_mode_as; [exact Hv1 | now rewrite M2 |].
      intros t [-> | [-> | ->]];
        (split; intros Hw;
         [cbn [String.append] in Hw; word_in Hw; exact Hw | word_of Hw]). }
    unfold plot_mode_after in *. now rewrite M1, M2 in Hm.
Qed.

(** [showonscreen] on a valid session whose plot count is below [INT_MAX]:
    the pipe receives [set output] and [set terminal <terminal_std>], the
    process, the terminal and the settings are left alone, and the plot mode
    is treated as [cmd] would for the name of the terminal alone. *)
Theorem showonscreen_plot_mode (w : Program) :
  valid (self (machine w)) = true ->
  INT_MIN <= nplots (self (machine w)) < INT_MAX ->
  exists g',
    showonscreen w =
    (Normal tt, MkProgram (terminal_std w) (MkMachine (proc (machine w)) g')) /\
    same_settings (self (machine w)) g' /\
    received ("set output" ++ nl ++
              c_str ("set terminal " ++ terminal_std w ++ nl))
             (self (machine w)) g' /\
    plot_mode_after (terminal_std w) (self (machine w)) g'.
Proof.
  intros Hv Hn. rewrite showonscreen_run. eexists. split; [reflexivity|].
  now apply terminal_lines.
Qed.

(** The statement at work with the terminal "x11". *)
Lemma showonscreen_plot_mode_witness :
  exists g',
    showonscreen (MkProgram "x11" example_machine) =
    (Normal tt, MkProgram "x11" (MkMachine (proc example_machine) g')) /\
    same_settings example_session g' /\
    received ("set output" ++ nl ++ c_str ("set terminal " ++ "x11" ++ nl))
             example_session g' /\
    plot_mode_after "x11" example_session g'.
Proof.
  apply (showonscreen_plot_mode (MkProgram "x11" example_machine)).
  - reflexivity.
  - exact example_int_range.
Defined.

(** [set_terminal_std(type)]: outside Windows, a type with "x11" in it is
    refused when DISPLAY is not set, and nothing changes; every other type is
    taken as it is, on every platform, and nothing but [terminal_std]
    changes.  The [showonscreen] that follows sends that type. *)
Theorem set_terminal_std_spec (t : target) (env : gmap string string)
  (type : string) (w : Program) :
  (t <> TWin32 -> is_substring "x11" type -> getenv env "DISPLAY" = None ->
   set_terminal_std t env type w =
   (Raise (GnuplotException "Can't find DISPLAY variable"), w)) /\
  (t = TWin32 \/ ~ is_substring "x11" type \/ getenv env "DISPLAY" <> None ->
   set_terminal_std t env type w = (Normal tt, MkProgram type (machine w)) /\
   (valid (self (machine w)) = true ->
    gnucmd (self (machine (snd
      ((set_terminal_std t env type ;;; showonscreen) w)))) =
    gnucmd (self (machine w)) ++ "set output" ++ nl ++
    c_str ("set terminal " ++ type ++ nl))).
Proof.
  assert (Hcheck :
    set_terminal_std t env type w =
    if match t with TWin32 => false | _ => true end &&
       not_npos (find type "x11") &&
       negb (bool_decide (is_Some (getenv env "DISPLAY")))
    then (Raise (GnuplotException "Can't find DISPLAY variable"), w)
    else (Normal tt, MkProgram type (machine w))).
  { unfold set_terminal_std. monad_unfold.
    destruct t; cbn [andb]; try reflexivity;
      destruct (not_npos (find type "x11") && _); destruct w; reflexivity. }
  split.
  - intros Ht Hx Hd. rewrite Hcheck. apply find_spec in Hx. rewrite Hx, Hd.
    destruct t; [contradiction | reflexivity | reflexivity].
  - intros Hok.
    assert (E : set_terminal_std t env type w =
                (Normal tt, MkProgram type (machine w))).
    { rewrite Hcheck. destruct Hok as [-> | [Hx | Hd]]; [reflexivity | |].
      - apply find_none in Hx. rewrite Hx. now rewrite andb_false_r.
      - destruct (getenv env "DISPLAY") eqn:Hd'; [|contradiction].
        rewrite bool_decide_true by eauto. cbn. now rewrite andb_false_r. }
    split; [exact E|]. intros Hv.
    unfold bind. rewrite E, showonscreen_run. cbn [snd machine self terminal_std].
    pose proof (sent_settings "set output" (self (machine w))) as S1.
    pose proof (sent_received "set output" (self (machine w)) Hv) as R1.
    assert (Hv1 : valid (sent "set output" (self (machine w))) = true)
      by (destruct S1 as [-> _]; exact Hv).
    pose proof (sent_received ("set terminal " ++ type) _ Hv1) as R2.
    unfold received in *. rewrite R2, R1. now rewrite !append_assoc.
Qed.

(** [reset_all] on a valid session, when the name of the terminal has no
    "plot" in it: it returns; [nplots] is 0, the style is "points" and the
    smoothing is off; the pipe has received [reset], [clear], [set output]
    and [set terminal <terminal_std>].  [two_dim] is not reset, and the temp
    files are not touched: [tmpfile_list], the files and [tmpfile_num] are as
    before. *)
Theorem reset_all_spec (w : Program) :
  valid (self (machine w)) = true ->
  ~ is_substring "plot" (terminal_std w) ->
  let g := self (machine w) in
  reset_all w =
  (Normal tt,
   MkProgram (terminal_std w)
     (MkMachine (proc (machine w))
        (MkGnuplot
           (gnucmd g ++ "reset" ++ nl ++ "clear" ++ nl ++ "set output" ++ nl ++
            c_str ("set terminal " ++ terminal_std w ++ nl))
           true (two_dim g) 0 "points" "" (tmpfile_list g)))).
Proof.
  intros Hv Ht g.
  unfold reset_all.
  rewrite (bind_run _ _ _ _ _ (assign_run _ _)).
  rewrite (bind_run _ _ _ _ _ (on_machine_cmd _ _)).
  rewrite (bind_run _ _ _ _ _ (on_machine_cmd _ _)).
  rewrite (bind_run _ _ _ _ _ (assign_run _ _)).
  rewrite (bind_run _ _ _ _ _ (assign_run _ _)).
  rewrite showonscreen_run. cbn [machine self proc terminal_std].
  f_equal. f_equal. f_equal.
  assert (Ht' : ~ is_substring "plot" ("set terminal " ++ terminal_std w)).
  { intros Hw. cbn [String.append] in Hw. word_in Hw. contradiction. }
  rewrite (sent_fputs "reset") by (exact Hv || literal_word).
  rewrite (sent_fputs "clear") by (exact Hv || literal_word).
  rewrite (sent_fputs "set output") by (exact Hv || literal_word).
  rewrite (sent_fputs ("set terminal " ++ _)) by (exact Hv || exact Ht').
  unfold fputs, assign_nplots, assign_pstyle, assign_smooth.
  cbn [gnucmd valid two_dim nplots pstyle smooth tmpfile_list].
  subst g. rewrite Hv. f_equal. now rewrite !append_assoc.
Qed.

(** The statement at work on the session of the small run. *)
Lemma reset_all_spec_witness :
  reset_all (MkProgram "x11" example_machine) =
  (Normal tt,
   MkProgram "x11"
     (MkMachine (proc example_machine)
        (MkGnuplot
           ("" ++ "reset" ++ nl ++ "clear" ++ nl ++ "set output" ++ nl ++
            c_str ("set terminal " ++ "x11" ++ nl))
           true false 0 "points" "" []))).
Proof.
  apply (reset_all_spec (MkProgram "x11" example_machine)).
  - reflexivity.
  - apply find_none. reflexivity.
Defined.

(** ** Gnuplot::init and the constructors *)

(** [init], by the checks it makes. *)
Lemma init_cases (t : target) (env : gmap string string) (popen_ok : bool)
  (w : Program) :
  let T := terminal_std w in
  let p := proc (machine w) in
  let g := self (machine w) in
  init t env popen_ok w =
  if match t with TUnix => true | _ => false end &&
     negb (bool_decide (is_Some (getenv env "DISPLAY")))
  then (Raise (GnuplotException "Can't find DISPLAY variable"),
        MkProgram T (MkMachine p (assign_valid false g)))
  else
    match get_program_path (platform_of t) env p with
    | (Raise e, p') => (Raise e, MkProgram T (MkMachine p' g))
    | (Normal false, p') =>
        (Raise (GnuplotException "Can't find gnuplot"),
         MkProgram T (MkMachine p' (assign_valid false g)))
    | (Normal true, p') =>
        if popen_ok then
          showonscreen
            (MkProgram T
               (MkMachine p'
                  (assign_smooth ""
                     (assign_valid true
                        (assign_nplots 0 (assign_gnucmd "" g))))))
        else
          (Raise (GnuplotException "Couldn't open connection to gnuplot"),
           MkProgram T (MkMachine p' (assign_valid false (assign_gnucmd "" g))))
    end.
Proof.
  cbv zeta. unfold init.
  assert (Hd : forall k : unit -> M Program unit,
    bind (match t with
          | TUnix =>
              match getenv env "DISPLAY" with
              | None =>
                  assign (assign_valid false) ;;;
                  throw (GnuplotException "Can't find DISPLAY variable")
              | Some _ => ret tt
              end
          | _ => ret tt
          end) k w =
    if match t with TUnix => true | _ => false end &&
       negb (bool_decide (is_Some (getenv env "DISPLAY")))
    then (Raise (GnuplotException "Can't find DISPLAY variable"),
          MkProgram (terminal_std w)
            (MkMachine (proc (machine w))
                       (assign_valid false (self (machine w)))))
    else k tt w).
  { intros k. destruct t; cbn [andb]; try reflexivity.
    destruct (getenv env "DISPLAY") eqn:E.
    - rewrite bool_decide_true by eauto. reflexivity.
    - rewrite bool_decide_false by (intros [x Hx]; discriminate). reflexivity. }
  rewrite Hd. clear Hd.
  destruct (_ && _); [reflexivity|].
  unfold bind at 1. unfold on_machine at 1, static at 1.
  destruct w as [T [p g]]. cbn [machine proc self terminal_std].
  destruct (get_program_path (platform_of t) env p) as [[[|]|e] p'];
    cbn [negb]; try reflexivity.
  rewrite (bind_run _ _ _ _ _ (assign_run _ _)).
  destruct popen_ok; cbn [negb]; [|reflexivity].
  rewrite (bind_run _ _ _ _ _ (assign_run _ _)).
  rewrite (bind_run _ _ _ _ _ (assign_run _ _)).
  rewrite (bind_run _ _ _ _ _ (assign_run _ _)).
  reflexivity.
Qed.

Lemma get_program_path_outcome (os : platform) (env : gmap string string)
  (p : Process) :
  (exists p', get_program_path os env p = (Normal true, p')) \/
  (exists msg, get_program_path os env p = (Raise (GnuplotException msg), p) /\
               msg <> "Can't find gnuplot").
Proof.
  destruct (get_program_path_cases os env p)
    as [[H0 E] | [(H0 & Hp & E) | [(path & H0 & Hp & Hall & E)
       | (path & before & d & after & H0 & Hp & Ht & Hb & Hd & E)]]];
    rewrite E; [left | right | right | left]; eauto;
    (eexists; split; [reflexivity | discriminate]).
Qed.

Lemma set_style_run (style : string) (g : Gnuplot) :
  pstyle g = "" ->
  set_style style g = (Normal tt, assign_pstyle style g).
Proof.
  intros Hp. unfold set_style. monad_unfold. rewrite Hp.
  destruct style as [|c s]; cbn; [|reflexivity].
  unfold assign_pstyle. destruct g; cbn in *. now subst.
Qed.

Lemma set_style_returns (style : string) (g : Gnuplot) :
  fst (set_style style g) = Normal tt.
Proof.
  unfold set_style. monad_unfold.
  now destruct (negb (String.eqb (pstyle g) style) && negb (empty style)).
Qed.

(** [init] on the object of the member initialisers, when everything
    works. *)
Lemma init_new_object (t : target) (env : gmap string string) (T : string)
  (p p' : Process) :
  (t = TUnix -> getenv env "DISPLAY" <> None) ->
  get_program_path (platform_of t) env p = (Normal true, p') ->
  ~ is_substring "plot" T ->
  init t env true (MkProgram T (MkMachine p new_object)) =
  (Normal tt,
   MkProgram T
     (MkMachine p'
        (MkGnuplot ("set output" ++ nl ++ c_str ("set terminal " ++ T ++ nl))
                   true false 0 "" "" []))).
Proof.
  intros Hd Hp Ht.
  rewrite init_cases. cbn [machine proc self terminal_std].
  replace (match t with TUnix => true | _ => false end &&
           negb (bool_decide (is_Some (getenv env "DISPLAY")))) with false.
  2:{ destruct t; try reflexivity. cbn [andb].
      destruct (getenv env "DISPLAY") eqn:E; [|now specialize (Hd eq_refl)].
      now rewrite bool_decide_true by eauto. }
  rewrite Hp, showonscreen_run. cbn [machine proc self terminal_std].
  f_equal. f_equal. f_equal.
  rewrite (sent_fputs "set output") by (reflexivity || literal_word).
  rewrite (sent_fputs ("set terminal " ++ _)).
  - reflexivity.
  - reflexivity.
  - intros Hw. cbn [String.append] in Hw. word_in Hw. contradiction.
Qed.

(** The first steps of every constructor. *)
Lemma constructor_start {R : Type} (t : target) (env : gmap string string)
  (style : string) (w : Program) (p' : Process) (k : M Program R) :
  (t = TUnix -> getenv env "DISPLAY" <> None) ->
  get_program_path (platform_of t) env (proc (machine w)) = (Normal true, p') ->
  ~ is_substring "plot" (terminal_std w) ->
  (assign (fun _ => new_object) ;;;
   init t env true ;;;
   on_machine (member (set_style style)) ;;; k) w =
  k (MkProgram (terminal_std w)
       (MkMachine p'
          (MkGnuplot ("set output" ++ nl ++
                      c_str ("set terminal " ++ terminal_std w ++ nl))
                     true false 0 style "" []))).
Proof.
  intros Hd Hp Ht.
  rewrite (bind_run _ _ _ _ _ (assign_run _ _)).
  cbn [machine proc self terminal_std].
  rewrite (bind_run _ _ _ _ _ (init_new_object t env _ _ p' Hd Hp Ht)).
  unfold bind at 1. unfold on_machine at 1, member at 1.
  cbn [machine proc self terminal_std].
  now rewrite set_style_run by reflexivity.
Qed.

(** The session a constructor leaves when everything works: DISPLAY is set
    where it is asked for, the plotter is found, the pipe opens, and the name
    of the terminal has no "plot" in it.  The session is valid, shows no
    plot ([nplots] is 0 and [two_dim] false), has the style it was given, no
    smoothing and no temp file, and its pipe has received [set output] and
    [set terminal <terminal_std>]. *)
Theorem Gnuplot_style_session (t : target) (env : gmap string string)
  (style : string) (w : Program) (p' : Process) :
  (t = TUnix -> getenv env "DISPLAY" <> None) ->
  get_program_path (platform_of t) env (proc (machine w)) = (Normal true, p') ->
  ~ is_substring "plot" (terminal_std w) ->
  Gnuplot_style t env true style w =
  (Normal tt,
   MkProgram (terminal_std w)
     (MkMachine p'
        (MkGnuplot ("set output" ++ nl ++
                    c_str ("set terminal " ++ terminal_std w ++ nl))
                   true false 0 style "" []))).
Proof.
  intros Hd Hp Ht. unfold Gnuplot_style.
  rewrite (bind_run _ _ _ _ _ (assign_run _ _)).
  cbn [machine proc self terminal_std].
  rewrite (bind_run _ _ _ _ _ (init_new_object t env _ _ p' Hd Hp Ht)).
  unfold on_machine, member. cbn [machine proc self terminal_std].
  now rewrite set_style_run by reflexivity.
Qed.

(** The statement at work on unix, with DISPLAY set and the plotter where
    [m_sGNUPlotPath] says. *)
Lemma Gnuplot_style_session_witness :
  Gnuplot_style TUnix {[ "DISPLAY" := ":0" ]} true "lines"
    (MkProgram "x11" (MkMachine (process example_start) new_object)) =
  (Normal tt,
   MkProgram "x11"
     (MkMachine (process example_start)
        (MkGnuplot ("set output" ++ nl ++ c_str ("set terminal " ++ "x11" ++ nl))
                   true false 0 "lines" "" []))).
Proof.
  apply (Gnuplot_style_session TUnix {[ "DISPLAY" := ":0" ]} "lines"
           (MkProgram "x11" (MkMachine (process example_start) new_object))
           (process example_start)).
  - intros _. discriminate.
  - reflexivity.
  - apply find_none. reflexivity.
Defined.

(** How a constructor fails.  On unix other than Apple, without DISPLAY:
    "Can't find DISPLAY variable", before the plotter is looked for.  When the
    plotter is not found: the exception of [get_program_path].  When the pipe
    cannot be opened: "Couldn't open connection to gnuplot".  Each time the
    object is as the member initialisers made it, invalid and without a
    line sent.  "Can't find gnuplot" is never thrown: [get_program_path]
    does not return false. *)
Theorem Gnuplot_style_throws (t : target) (env : gmap string string)
  (popen_ok : bool) (style : string) (w : Program) :
  let T := terminal_std w in
  let p := proc (machine w) in
  (t = TUnix -> getenv env "DISPLAY" = None ->
   Gnuplot_style t env popen_ok style w =
   (Raise (GnuplotException "Can't find DISPLAY variable"),
    MkProgram T (MkMachine p new_object))) /\
  ((t = TUnix -> getenv env "DISPLAY" <> None) ->
   (forall e p', get_program_path (platform_of t) env p = (Raise e, p') ->
      Gnuplot_style t env popen_ok style w =
      (Raise e, MkProgram T (MkMachine p new_object))) /\
   (forall p', get_program_path (platform_of t) env p = (Normal true, p') ->
      popen_ok = false ->
      Gnuplot_style t env popen_ok style w =
      (Raise (GnuplotException "Couldn't open connection to gnuplot"),
       MkProgram T (MkMachine p' new_object)))) /\
  fst (Gnuplot_style t env popen_ok style w) <>
  Raise (GnuplotException "Can't find gnuplot").
Proof.
  cbv zeta.
  assert (E0 : Gnuplot_style t env popen_ok style w =
               (init t env popen_ok ;;; on_machine (member (set_style style)))
                 (MkProgram (terminal_std w)
                            (MkMachine (proc (machine w)) new_object))).
  { unfold Gnuplot_style. now rewrite (bind_run _ _ _ _ _ (assign_run _ _)). }
  rewrite E0. clear E0. unfold bind.
  rewrite init_cases. cbn [machine proc self terminal_std].
  split; [|split].
  - intros -> Hd. rewrite Hd.
    rewrite bool_decide_false by (intros [x Hx]; discriminate). reflexivity.
  - intros Hd.
    replace (match t with TUnix => true | _ => false end &&
             negb (bool_decide (is_Some (getenv env "DISPLAY")))) with false.
    2:{ destruct t; try reflexivity. cbn [andb].
        destruct (getenv env "DISPLAY") eqn:E; [|now specialize (Hd eq_refl)].
        now rewrite bool_decide_true by eauto. }
    split.
    + intros e p' Hp.
      destruct (get_program_path_outcome (platform_of t) env (proc (machine w)))
        as [[p1 E] | (msg & E & _)]; rewrite E in Hp; [discriminate|].
      injection Hp as <- <-. now rewrite E.
    + intros p' Hp ->. now rewrite Hp.
  - destruct (_ && _); [discriminate|].
    destruct (get_program_path_outcome (platform_of t) env (proc (machine w)))
      as [[p1 E] | (msg & E & Hm)]; rewrite E.
    + destruct popen_ok; [|discriminate].
      rewrite showonscreen_run. unfold on_machine, member.
      cbn [machine proc self terminal_std].
      match goal with |- context [set_style style ?g0] =>
        pose proof (set_style_returns style g0) as Hr;
        destruct (set_style style g0) as [r g'] end.
      cbn in *. subst r. discriminate.
    + cbn. congruence.
Qed.

(** A label without "plot" in it. *)
Lemma label_sent (pre text : string) (T : string) (p : Process) (g : Gnuplot) :
  valid g = true -> ~ is_substring "plot" (sstream [pre ++ dq; text; dq]) ->
  on_machine (cmd (sstream [pre ++ dq; text; dq])) (MkProgram T (MkMachine p g)) =
  (Normal tt,
   MkProgram T
     (MkMachine p (fputs (c_str (sstream [pre ++ dq; text; dq] ++ nl)) g))).
Proof.
  intros Hv Hl. rewrite on_machine_cmd. cbn [machine proc self terminal_std].
  now rewrite sent_fputs.
Qed.

Ltac label_word :=
  rewrite !sstream_cons, sstream_nil, ?append_nil_r; intros Hw;
  unfold dq in Hw; cbn [String.append] in Hw; word_in Hw; contradiction.

Lemma returns_inv {St A : Type} (c : M St A) (s s' : St) (a : A) :
  returns c s = (Normal (Some a), s') -> c s = (Normal a, s').
Proof.
  unfold returns, bind, ret. destruct (c s) as [[v|e] s1]; intros H;
    inversion H; reflexivity.
Qed.

Lemma on_machine_returns_inv {A : Type} (c : M Machine A) (w w' : Program)
  (a : A) :
  on_machine (returns c) w = (Normal (Some a), w') ->
  on_machine c w = (Normal a, w').
Proof.
  unfold on_machine. destruct (returns c (machine w)) as [r m] eqn:E.
  intros H. injection H as -> <-. apply returns_inv in E. now rewrite E.
Qed.

(** The constructors that plot, when everything works: the session is
    started as by [Gnuplot(style)], the labels (without "plot" in them) are
    sent, and the data plot of accepted vectors is made from a temp file that
    is allocated and opened and may be read; for [Gnuplot(x, ...)], whose
    plot counts with an [unsigned int], the vector has at most [UINT_MAX]
    elements.  The session that is left is valid, shows one plot ([nplots]
    is 1) of the dimension of the data, has the style it was given and no
    smoothing, and lists the one temp file. *)
Theorem data_constructor_session (fuel : nat) (t : target)
  (env : gmap string string) (o : tmp_oracle) (sfx : string)
  (x y z : list double) (title style labelx labely labelz : string)
  (w : Program) (p' : Process) :
  (t = TUnix -> getenv env "DISPLAY" <> None) ->
  get_program_path (platform_of t) env (proc (machine w)) = (Normal true, p') ->
  ~ is_substring "plot" (terminal_std w) ->
  ~ is_substring "plot" labelx -> ~ is_substring "plot" labely ->
  ~ is_substring "plot" labelz ->
  plain title -> plain style -> plain sfx ->
  allocates (platform_of t) o sfx (MkMachine p' new_object) ->
  created_read o = true ->
  let name := tmp_name (platform_of t) sfx in
  let T := terminal_std w in
  (accepted (dp_x x) -> loop_ends fuel (dp_x x) -> exists p'' g,
     Gnuplot_x fuel t env true o x title style labelx labely w =
       (Normal (Some tt), MkProgram T (MkMachine p'' g)) /\
     constructed true style name g) /\
  (accepted (dp_xy x y) -> exists p'' g,
     Gnuplot_xy t env true o x y title style labelx labely w =
       (Normal tt, MkProgram T (MkMachine p'' g)) /\
     constructed true style name g) /\
  (accepted (dp_xyz x y z) -> exists p'' g,
     Gnuplot_xyz t env true o x y z title style labelx labely labelz w =
       (Normal tt, MkProgram T (MkMachine p'' g)) /\
     constructed false style name g).
Proof.
  intros Hd Hp Ht Hx Hy Hz Pt Ps Psfx Ha Hread. cbv zeta.
  assert (Hplot : forall (dp : data_plot) (pipe : string), accepted dp ->
    loop_ends fuel dp ->
    exists p'' g,
      on_machine (run_data_plot fuel (platform_of t) o dp title)
        (MkProgram (terminal_std w)
           (MkMachine p' (MkGnuplot pipe true false 0 style "" []))) =
      (Normal (Some tt), MkProgram (terminal_std w) (MkMachine p'' g)) /\
      constructed (data_plot_2d dp) style (tmp_name (platform_of t) sfx) g).
  { intros dp pipe Hdp He.
    assert (Hn0 : INT_MIN <= 0 < INT_MAX) by (unfold INT_MIN, INT_MAX; lia).
    assert (Pe : plain "") by (split; literal_word).
    destruct (data_plot_sent fuel (platform_of t) o sfx dp title
                (MkMachine p' (MkGnuplot pipe true false 0 style "" []))
                Hdp He Ha Hread eq_refl Hn0 Psfx Pt Ps Pe)
      as (p'' & g & E & [A1 A2] & L & V & S1 & S2).
    exists p'', g. unfold on_machine. cbn [machine terminal_std].
    rewrite E. split; [reflexivity|].
    cbn [self nplots two_dim pstyle smooth tmpfile_list] in *.
    unfold constructed. rewrite A1, A2, L, V, S1, S2.
    case_decide; [lia|]. auto 10. }
  split; [|split].
  - intros Hacc He.
    unfold Gnuplot_x. rewrite (constructor_start t env style w p') by assumption.
    unfold set_xlabel, set_ylabel.
    erewrite bind_run by (apply label_sent; [reflexivity | label_word]).
    erewrite bind_run by (apply label_sent; [reflexivity | label_word]).
    apply (Hplot (dp_x x) _ Hacc He).
  - intros Hacc.
    unfold Gnuplot_xy. rewrite (constructor_start t env style w p') by assumption.
    unfold set_xlabel, set_ylabel.
    erewrite bind_run by (apply label_sent; [reflexivity | label_word]).
    erewrite bind_run by (apply label_sent; [reflexivity | label_word]).
    eassert (H := Hplot (dp_xy x y) _ Hacc I).
    destruct H as (p'' & g & E & C). exists p'', g. split; [|exact C].
    apply on_machine_returns_inv. exact E.
  - intros Hacc.
    unfold Gnuplot_xyz. rewrite (constructor_start t env style w p') by assumption.
    unfold set_xlabel, set_ylabel, set_zlabel.
    erewrite bind_run by (apply label_sent; [reflexivity | label_word]).
    erewrite bind_run by (apply label_sent; [reflexivity | label_word]).
    erewrite bind_run by (apply label_sent; [reflexivity | label_word]).
    eassert (H := Hplot (dp_xyz x y z) _ Hacc I).
    destruct H as (p'' & g & E & C). exists p'', g. split; [|exact C].
    apply on_machine_returns_inv. exact E.
Qed.

(** The statement at work: the three constructors on unix, with DISPLAY set
    and the plotter where [m_sGNUPlotPath] says. *)
Lemma data_constructor_session_witness :
  (accepted (dp_x [dbl 1%float]) -> loop_ends 2 (dp_x [dbl 1%float]) ->
   exists p'' g,
     Gnuplot_x 2 TUnix example_env true example_oracle [dbl 1%float] "t"
       "lines" "x" "y" example_program =
       (Normal (Some tt), MkProgram "x11" (MkMachine p'' g)) /\
     constructed true "lines" (tmp_name Unix "abcdef") g) /\
  (accepted (dp_xy [dbl 1%float] [dbl 2%float]) -> exists p'' g,
     Gnuplot_xy TUnix example_env true example_oracle [dbl 1%float]
       [dbl 2%float] "t" "lines" "x" "y" example_program =
       (Normal tt, MkProgram "x11" (MkMachine p'' g)) /\
     constructed true "lines" (tmp_name Unix "abcdef") g) /\
  (accepted (dp_xyz [dbl 1%float] [dbl 2%float] [dbl 3%float]) -> exists p'' g,
     Gnuplot_xyz TUnix example_env true example_oracle
       [dbl 1%float] [dbl 2%float] [dbl 3%float] "t" "lines" "x" "y" "z"
       example_program =
       (Normal tt, MkProgram "x11" (MkMachine p'' g)) /\
     constructed false "lines" (tmp_name Unix "abcdef") g).
Proof.
  apply (data_constructor_session 2 TUnix example_env example_oracle "abcdef"
           [dbl 1%float] [dbl 2%float] [dbl 3%float] "t" "lines" "x" "y" "z"
           example_program (process example_start)).
  - intros _. discriminate.
  - reflexivity.
  - apply find_none. reflexivity.
  - apply find_none. reflexivity.
  - apply find_none. reflexivity.
  - apply find_none. reflexivity.
  - apply example_plain; reflexivity.
  - apply example_plain; reflexivity.
  - apply example_plain; reflexivity.
  - exact example_allocates.
  - reflexivity.
Defined.

(** ** Gnuplot::remove_tmpfiles, stopped half way *)

Lemma remove_each_stops (before after : list string) (f : string) (p : Process) :
  NoDup (c_paths before) ->
  (forall q, q ∈ c_paths before -> is_Some (fs p !! q)) ->
  fs p !! c_str f = None \/ c_str f ∈ c_paths before ->
  exists p',
    remove_each (before ++ f :: after) p =
    (Raise (GnuplotException
              ("Cannot remove temporary file " ++ dq ++ f ++ dq)), p') /\
    tmpfile_num p' = tmpfile_num p /\
    forall q, fs p' !! q =
              if decide (q ∈ c_paths before) then None else fs p !! q.
Proof.
  revert p. induction before as [|b before IH]; intros p Hnd Hin Hf.
  - destruct Hf as [Hf | Hf]; [|cbn in Hf; set_solver].
    exists p. cbn [app]. rewrite (remove_each_missing _ _ _ Hf).
    split; [reflexivity|]. split; [reflexivity|].
    intros q. case_decide as Hq; [cbn in Hq; set_solver | reflexivity].
  - cbn [c_paths map] in Hnd, Hin, Hf. apply NoDup_cons in Hnd as [Hb Hnd].
    destruct (Hin (c_str b)) as [x Hx]; [set_solver|].
    cbn [app]. rewrite (remove_each_present _ _ _ _ Hx).
    destruct (IH (assign_fs (delete (c_str b) (fs p)) p)) as (p' & E & Hn & Hfs).
    + exact Hnd.
    + intros q Hq. cbn [fs assign_fs].
      rewrite lookup_delete_ne by (intros <-; contradiction).
      apply Hin. set_solver.
    + cbn [fs assign_fs]. destruct Hf as [Hf | Hf].
      * left. destruct (decide (c_str b = c_str f)) as [-> | Hne];
          [apply lookup_delete_eq | now rewrite lookup_delete_ne].
      * apply elem_of_cons in Hf as [Hf | Hf]; [|now right].
        left. rewrite Hf. apply lookup_delete_eq.
    + exists p'. split; [exact E|]. split; [exact Hn|].
      intros q. rewrite Hfs. cbn [fs assign_fs c_paths map].
      destruct (decide (c_str b = q)) as [<- | Hne].
      * rewrite lookup_delete_eq.
        repeat case_decide; try reflexivity; set_solver.
      * rewrite lookup_delete_ne by done.
        repeat case_decide; try reflexivity; set_solver.
Qed.

(** [remove_tmpfiles] stops at the first entry of [tmpfile_list] whose file
    it cannot remove (the file is not there, or an earlier entry named it):
    it throws an exception that names the entry; the files of the entries
    before it are gone, and no other file is touched; [tmpfile_num] is not
    counted down for them, and [tmpfile_list] is as it was. *)
Theorem remove_tmpfiles_stops (before after : list string) (f : string)
  (st : Machine) :
  tmpfile_list (self st) = (before ++ f :: after)%list ->
  NoDup (c_paths before) ->
  (forall q, q ∈ c_paths before -> is_Some (fs (proc st) !! q)) ->
  fs (proc st) !! c_str f = None \/ c_str f ∈ c_paths before ->
  exists p',
    remove_tmpfiles st =
    (Raise (GnuplotException
              ("Cannot remove temporary file " ++ dq ++ f ++ dq)),
     MkMachine p' (self st)) /\
    tmpfile_num p' = tmpfile_num (proc st) /\
    forall q, fs p' !! q =
              if decide (q ∈ c_paths before) then None else fs (proc st) !! q.
Proof.
  intros Hl Hnd Hin Hf.
  destruct (remove_each_stops before after f (proc st) Hnd Hin Hf)
    as (p' & E & Hn & Hfs).
  exists p'. split; [|auto].
  rewrite remove_tmpfiles_nonempty by (rewrite Hl; now destruct before).
  unfold bind. unfold static at 1. now rewrite Hl, E.
Qed.

(** The statement at work: of three listed files only the first is there. *)
Lemma remove_tmpfiles_stops_witness :
  exists p',
    remove_tmpfiles example_stale =
    (Raise (GnuplotException
              ("Cannot remove temporary file " ++ dq ++ "b" ++ dq)),
     MkMachine p' (self example_stale)) /\
    tmpfile_num p' = tmpfile_num (proc example_stale) /\
    forall q, fs p' !! q =
              if decide (q ∈ c_paths ["a"]) then None
              else fs (proc example_stale) !! q.
Proof.
  apply (remove_tmpfiles_stops ["a"] ["c"] "b" example_stale).
  - reflexivity.
  - cbn. repeat constructor. set_solver.
  - intros q Hq. cbn in Hq. apply list_elem_of_singleton in Hq as ->.
    eexists. reflexivity.
  - left. reflexivity.
Defined.

(** ** The file of an image *)

Lemma lines_from_app (cur a b : string) :
  lines_from cur (a ++ b) =
  (fst (lines_from cur a) ++ fst (lines_from (snd (lines_from cur a)) b),
   snd (lines_from (snd (lines_from cur a)) b))%list.
Proof.
  revert cur. induction a as [|c a IH]; intros cur; cbn [append lines_from].
  - cbn. now destruct (lines_from cur b).
  - destruct (Ascii.eqb c "010").
    + rewrite IH. destruct (lines_from "" a) as [la ra]. cbn.
      now destruct (lines_from ra b).
    + apply IH.
Qed.

Lemma cell_line_lines (c r : nat) (v : N) :
  lines (cell_line c r v ++ nl) = ([cell_line c r v], "").
Proof.
  unfold lines, cell_line.
  destruct (show_uint_plain (N.of_nat c)) as [_ H1].
  destruct (show_uint_plain (N.of_nat r)) as [_ H2].
  destruct (show_uint_plain v) as [_ H3].
  rewrite !append_assoc.
  rewrite lines_from_text by exact H1. cbn [append lines_from Ascii.eqb].
  cbn [Bool.eqb]. cbn [lines_from].
  rewrite lines_from_text by exact H2. cbn [append lines_from Ascii.eqb].
  cbn [Bool.eqb].
  rewrite lines_from_text by exact H3. cbn.
  now rewrite !append_assoc.
Qed.

Lemma cell_line_fields (c r : nat) (v : N) :
  fields (cell_line c r v) =
  [show_uint (N.of_nat c); show_uint (N.of_nat r); show_uint v].
Proof.
  unfold fields, cell_line.
  destruct (show_uint_plain (N.of_nat c)) as [E1 H1].
  destruct (show_uint_plain (N.of_nat r)) as [E2 H2].
  destruct (show_uint_plain v) as [E3 H3].
  apply empty_false in E1, E2, E3.
  rewrite fields_from_word by exact H1. cbn. rewrite E1.
  rewrite fields_from_word by exact H2. cbn. rewrite E2.
  rewrite <- (append_nil_r (show_uint v)) at 1.
  rewrite fields_from_word by exact H3. cbn. now rewrite E3.
Qed.

(** A loop whose rounds return and keep an invariant of the index, the
    value and the state. *)
Lemma for_loop_invariant_at {St T : Type} (J : nat -> T -> St -> Prop)
  (body : nat -> T -> M St T) (n : nat) :
  forall i,
  (forall j t s, (i <= j < i + n)%nat -> J j t s ->
     exists t' s', body j t s = (Normal t', s') /\ J (S j) t' s') ->
  forall t s, J i t s ->
    exists t' s', for_loop n i body t s = (Normal t', s') /\ J (n + i)%nat t' s'.
Proof.
  induction n as [|n IH]; intros i Hbody t s Hj.
  - exists t, s. split; [reflexivity | exact Hj].
  - cbn [for_loop]. unfold bind.
    destruct (Hbody i t s ltac:(lia) Hj) as (t1 & s1 & E1 & J1). rewrite E1.
    destruct (IH (S i)) with (t := t1) (s := s1) as (t2 & s2 & E2 & J2).
    + intros j t0 s0 Hj0. apply Hbody. lia.
    + exact J1.
    + exists t2, s2. split; [exact E2|].
      now replace (S n + i)%nat with (n + S i)%nat by lia.
Qed.
Lemma image_cell_step (name : string) (buf : list N) (w r c idx : nat)
  (p : Process) :
  (c < w)%nat -> idx = (r * w + c)%nat -> (idx < length buf)%nat ->
  Z.of_nat idx < INT_MAX ->
  image_written name buf w idx p ->
  exists p',
    image_cell buf r c (MkOfstream (Some name) false false, Z.of_nat idx) p =
    (Normal (MkOfstream (Some name) false false, Z.of_nat (S idx)), p') /\
    image_written name buf w (S idx) p'.
Proof.
  intros Hc Hidx Hlen Hmax (f & ls & Hf & Hls & Hk & Hcells).
  destruct (lookup_lt_is_Some_2 buf idx Hlen) as [v Hv].
  assert (Hread : read_byte buf (Z.of_nat idx) = Some v).
  { unfold read_byte. destruct (Z.ltb_spec (Z.of_nat idx) 0); [lia|].
    now rewrite Nat2Z.id. }
  assert (Hnext : wrap_int (Z.of_nat idx + 1) = Z.of_nat (S idx)).
  { rewrite wrap_int_id by (unfold is_int, INT_MIN, INT_MAX in *; lia). lia. }
  unfold image_cell. rewrite Hread, Hnext. monad_unfold.
  rewrite !ofstream_write_open, !append_to_twice.
  eexists. split; [reflexivity|].
  unfold image_written, append_to, assign_fs. cbn [fs].
  rewrite lookup_alter_eq, Hf. cbn [fmap option_fmap option_map].
  exists (append_contents
            (show_uint (N.of_nat c) ++ " " ++ show_uint (N.of_nat r) ++ " " ++
             show_uint v ++ nl) f), (ls ++ [cell_line c r v])%list.
  split; [reflexivity|]. cbn [contents append_contents].
  split; [|split].
  - replace (show_uint (N.of_nat c) ++ " " ++ show_uint (N.of_nat r) ++ " " ++
             show_uint v ++ nl) with (cell_line c r v ++ nl)
      by (unfold cell_line; now rewrite !append_assoc).
    unfold lines in *. rewrite lines_from_app, Hls. cbn [fst snd].
    pose proof (cell_line_lines c r v) as Hl. unfold lines in Hl.
    now rewrite Hl.
  - rewrite length_app. cbn. lia.
  - intros i v' Hi Hv'. destruct (decide (i = idx)) as [-> | Hne].
    + rewrite Hv in Hv'. injection Hv' as <-.
      rewrite lookup_app_r by lia. rewrite Hk, Nat.sub_diag. cbn.
      f_equal. rewrite Hidx.
      replace (r * w + c)%nat with (c + r * w)%nat by lia.
      rewrite Nat.Div0.mod_add, Nat.div_add by lia.
      rewrite Nat.mod_small, Nat.div_small by lia. reflexivity.
    + rewrite lookup_app_l by lia. apply Hcells; [lia | exact Hv'].
Qed.

(** The two loops of [plot_image], on a stream that is open on [name], for
    an image whose cells an [int] can count. *)
Lemma image_loops (name : string) (buf : list N) (w h : nat) (p : Process) :
  (h * w <= length buf)%nat -> Z.of_nat (h * w) <= INT_MAX ->
  image_written name buf w 0 p ->
  exists t p',
    for_loop h 0 (fun iRow => for_loop w 0 (image_cell buf iRow))
             (MkOfstream (Some name) false false, 0) p = (Normal t, p') /\
    image_written name buf w (h * w) p'.
Proof.
  intros Hlen Hmax H0.
  destruct (for_loop_invariant_at
              (fun r (t : ofstream * Z) p0 =>
                 t = (MkOfstream (Some name) false false,
                      Z.of_nat (r * w)) /\
                 image_written name buf w (r * w) p0)
              (fun iRow => for_loop w 0 (image_cell buf iRow)) h O)
    with (t := (MkOfstream (Some name) false false, 0)) (s := p)
    as (t' & p' & E & -> & Hw).
  - intros r t p0 Hr (-> & Hw).
    destruct (for_loop_invariant_at
                (fun c (t : ofstream * Z) p1 =>
                   t = (MkOfstream (Some name) false false,
                        Z.of_nat (r * w + c)) /\
                   image_written name buf w (r * w + c) p1)
                (image_cell buf r) w O)
      with (t := (MkOfstream (Some name) false false, Z.of_nat (r * w)))
           (s := p0)
      as (t' & p' & E & -> & Hw').
    + intros c t p1 Hc (-> & Hw1).
      destruct (image_cell_step name buf w r c (r * w + c) p1)
        as (p2 & E2 & W2); try assumption; try reflexivity; [lia | nia | nia |].
      exists (MkOfstream (Some name) false false,
              Z.of_nat (S (r * w + c))), p2.
      split; [exact E2|]. split; [do 2 f_equal; lia|].
      now replace (r * w + S c)%nat with (S (r * w + c)) by lia.
    + split; [do 2 f_equal; lia|].
      now replace (r * w + 0)%nat with (r * w)%nat by lia.
    + exists (MkOfstream (Some name) false false,
              Z.of_nat (r * w + (w + 0))), p'.
      split; [exact E|]. split; [do 2 f_equal; lia|].
      now replace (S r * w)%nat with (r * w + (w + 0))%nat by lia.
  - split; [reflexivity | exact H0].
  - exists (MkOfstream (Some name) false false, Z.of_nat ((h + 0) * w)), p'.
    split; [exact E|]. now replace (h * w)%nat with ((h + 0) * w)%nat by lia.
Qed.

(** [plot_image] of a buffer that holds the [iWidth * iHeight] bytes of the
    image, when an [int] can count the cells (there are at most [INT_MAX])
    and the temp file is allocated and opened: it returns, and the file
    holds one line for each cell and nothing else, row after row and, in a
    row, column after column; the line of a cell has three fields: the
    column, the row and the byte, in decimal. *)
Theorem plot_image_file (os : platform) (o : tmp_oracle) (sfx : string)
  (ucPicBuf : list N) (iWidth iHeight : nat) (title : string) (st : Machine) :
  allocates os o sfx st ->
  Z.of_nat iWidth <= UINT_MAX -> Z.of_nat iHeight <= UINT_MAX ->
  Z.of_nat (iHeight * iWidth) <= INT_MAX ->
  (iHeight * iWidth <= length ucPicBuf)%nat ->
  Forall (fun v => (v < 256)%N) ucPicBuf ->
  exists p' g' f ls,
    plot_image os o ucPicBuf iWidth iHeight title st =
      (Normal tt, MkMachine p' g') /\
    fs p' !! tmp_name os sfx = Some f /\
    lines (contents f) = (ls, "") /\
    length ls = (iHeight * iWidth)%nat /\
    forall r c v, (r < iHeight)%nat -> (c < iWidth)%nat ->
      ucPicBuf !! (r * iWidth + c)%nat = Some v ->
      exists l, ls !! (r * iWidth + c)%nat = Some l /\
        fields l = [show_uint (N.of_nat c); show_uint (N.of_nat r); show_uint v].
Proof.
  intros (Hq & Ho & Hl & Hf & Hopen) _ _ Hmax Hlen _.
  unfold plot_image. unfold bind at 1.
  rewrite (create_tmpfile_named os o sfx st Hq Ho Hl Hf), Hopen.
  cbv iota beta.
  destruct (empty (tmp_name os sfx)) eqn:Hn.
  { apply empty_spec in Hn. now apply tmp_name_nonempty in Hn. }
  unfold bind at 1. unfold static at 1. cbn [proc self stream_after_create].
  match goal with |- context [for_loop _ _ _ _ ?p] => set (p0 := p) end.
  destruct (image_loops (tmp_name os sfx) ucPicBuf iWidth iHeight p0 Hlen Hmax)
    as (t & p' & E & f & ls & Hf' & Hls & Hk & Hcells).
  { exists (new_tmpfile o), []. subst p0. cbn [fs].
    split; [|split; [reflexivity | split; [reflexivity | intros; lia]]].
    replace (files_after_create os true (new_tmpfile o) (tmp_name os sfx)
               (fs (proc st)))
      with (<[tmp_name os sfx := new_tmpfile o]> (fs (proc st)))
      by (now destruct os).
    apply lookup_insert_eq. }
  rewrite E. unfold bind, get. rewrite cmd_sent. cbn [proc self].
  do 4 eexists. split; [reflexivity|]. split; [exact Hf'|].
  split; [exact Hls|]. split; [exact Hk|].
  intros r c v Hr Hc Hv. eexists. split.
  - apply Hcells; [nia | exact Hv].
  - replace (r * iWidth + c)%nat with (c + r * iWidth)%nat by lia.
    rewrite Nat.Div0.mod_add, Nat.div_add by lia.
    rewrite Nat.mod_small, Nat.div_small by lia. cbn [Nat.add].
    apply cell_line_fields.
Qed.

(** The statement at work on an image of two rows and two columns. *)
Lemma plot_image_file_witness :
  exists p' g' f ls,
    plot_image Unix example_oracle [0; 255; 7; 8]%N 2 2 "" example_machine =
      (Normal tt, MkMachine p' g') /\
    fs p' !! tmp_name Unix "abcdef" = Some f /\
    lines (contents f) = (ls, "") /\
    length ls = (2 * 2)%nat /\
    forall r c v, (r < 2)%nat -> (c < 2)%nat ->
      [0; 255; 7; 8]%N !! (r * 2 + c)%nat = Some v ->
      exists l, ls !! (r * 2 + c)%nat = Some l /\
        fields l = [show_uint (N.of_nat c); show_uint (N.of_nat r); show_uint v].
Proof.
  apply (plot_image_file Unix example_oracle "abcdef" [0; 255; 7; 8]%N 2 2 ""
           example_machine).
  - exact example_allocates.
  - unfold UINT_MAX. cbn. lia.
  - unfold UINT_MAX. cbn. lia.
  - unfold INT_MAX. cbn. lia.
  - cbn. lia.
  - repeat constructor.
Defined.

(** ** The counter covers the temp files *)

(** In every state a process can reach, [tmpfile_num] is at least the number
    of temp files that a session lists and that are still there; so it is
    never negative. *)
Theorem tmpfile_num_covers (os : platform) (s : System) :
  reachable os s ->
  Z.of_nat (size (outstanding s)) <= tmpfile_num (process s) /\
  0 <= tmpfile_num (process s).
Proof.
  intros Hr. pose proof (reachable_counter_inv os s Hr) as [H1 H2].
  split; [exact H1 | lia].
Qed.

(** The statement at work on the system of the small run. *)
Lemma tmpfile_num_covers_witness :
  Z.of_nat (size (outstanding example_system)) <=
    tmpfile_num (process example_system) /\
  0 <= tmpfile_num (process example_system).
Proof.
  apply (tmpfile_num_covers Unix example_system example_system_reachable).
Defined.

